(** * MaskTerial: the Flake container and the flake-size COCO evaluator

    A shallow embedding of [maskterial/structures/FlakeClass.py] and of
    [maskterial/utils/evaluator.py].

    Conventions of the embedding:
    - a Python call that can raise returns a [pyresult];
    - Python [float]s are idealised as rationals ([Q]); the only
      non-rational float the code produces, [float("nan")], is the
      constructor [NaN] of [pyfloat];
    - a Python [dict] with computed string keys is a [gmap string _];
      a dict with a fixed set of keys is a record;
    - a 2-D numpy mask is a list of rows; the 4-D and 5-D accumulation
      tensors of the COCO engine are a shape with an indexing function;
    - logging, file output and calls into the wrapped COCO engine are
      recorded as a trace of events. *)

From Stdlib Require Import QArith Qround Lqa.
From Stdlib Require Import DecimalString.
From stdpp Require Import gmap strings list fin_maps.

Open Scope Z_scope.

(** ** Python results *)

(** The exceptions the embedded code can raise; [ExternalError] stands
    for whatever a wrapped library raises. *)
Inductive exn : Type :=
| IndexError
| ValueError
| KeyError (key : string)
| AssertionError (msg : string)
| AttributeError (attr : string)
| UnboundLocalError (var : string)
| PyException (msg : string)
| ExternalError (origin : string).

Inductive pyresult (A : Type) : Type :=
| Ok (a : A)
| Raise (e : exn).
Arguments Ok {A} a.
Arguments Raise {A} e.

Global Instance pyresult_ret : MRet pyresult := fun _ a => Ok a.
Global Instance pyresult_bind : MBind pyresult := fun _ _ k r =>
  match r with
  | Ok a => k a
  | Raise e => Raise e
  end.

Definition raises {A} (r : pyresult A) : Prop := exists e, r = Raise e.

(** ** Python numbers *)

(** [int(x)] on a float: truncation towards zero. *)
Definition py_int (x : Q) : Z := Z.quot (Qnum x) (Z.pos (Qden x)).

(** Rounding to the nearest integer, ties to the even one. *)
Definition round_half_even (x : Q) : Z :=
  let f := Qfloor x in
  match Qcompare (x - inject_Z f) (1 # 2) with
  | Lt => f
  | Gt => f + 1
  | Eq => if Z.even f then f else f + 1
  end.

(** [round(x, ndigits)] on a float, for [ndigits >= 0]. *)
Definition py_round (x : Q) (ndigits : nat) : Q :=
  let scale := inject_Z (10 ^ Z.of_nat ndigits) in
  (inject_Z (round_half_even (x * scale)) / scale)%Q.

(** A float that may be [float("nan")]. *)
Inductive pyfloat : Type :=
| Fin (q : Q)
| NaN.

Definition is_nan (x : pyfloat) : bool :=
  match x with NaN => true | Fin _ => false end.

(** ** numpy on boolean vectors and 2-D masks *)

Module Np.

Definition ndarray2 := list (list bool).

(** [shape[1]] of a 2-D array kept as a list of rows. *)
Definition ncols (m : ndarray2) : nat :=
  match m with [] => 0%nat | r :: _ => length r end.

Definition rectangular (m : ndarray2) : Prop :=
  Forall (fun r => length r = ncols m) m.

(** [m[r, c]]: out of range reads are [False] in the model only; the
    code never indexes the mask directly. *)
Definition pixel (m : ndarray2) (r c : nat) : bool :=
  nth c (nth r m []) false.

(** [np.any(m, axis=1)]: one entry per row. *)
Definition any_axis1 (m : ndarray2) : list bool :=
  map (existsb (fun b => b)) m.

(** [np.any(m, axis=0)]: one entry per column. *)
Definition any_axis0 (m : ndarray2) : list bool :=
  map (fun j => existsb (fun row => nth j row false) m) (seq 0 (ncols m)).

(** [np.where(v)[0]]: the indices of the true entries, increasing. *)
Fixpoint where_from (i : nat) (v : list bool) : list nat :=
  match v with
  | [] => []
  | b :: v' => if b then i :: where_from (S i) v' else where_from (S i) v'
  end.

Definition where_ (v : list bool) : list nat := where_from 0 v.

(** [a[[0, -1]]] on a 1-D array: the first and the last entry; an
    [IndexError] on an empty array. *)
Definition first_last (a : list nat) : pyresult (nat * nat) :=
  match a with
  | [] => Raise IndexError
  | x :: _ => Ok (x, List.last a x)
  end.

End Np.

(** ** [maskterial/structures/FlakeClass.py] *)

Module FlakeClass.

(** The float literal [1e-5]. *)
Definition eps : Q := 1 # 100000.

(** [round(max_sidelength / (min_sidelength + 1e-5), 1)] *)
Definition aspect_ratio_of (max_sidelength min_sidelength : Z) : Q :=
  py_round (inject_Z max_sidelength / (inject_Z min_sidelength + eps)) 1.

Record Flake : Type := {
  mask : Np.ndarray2;
  thickness : string;
  size : Z;
  mean_contrast : list Q;
  center : Q * Q;
  max_sidelength : Z;
  min_sidelength : Z;
  aspect_ratio : Q;
  false_positive_probability : Q;
  entropy : Q;
}.

(** [Flake.__init__] *)
Definition init (mask : Np.ndarray2) (thickness : string) (size : Z)
    (mean_contrast : list Q) (center : Q * Q)
    (max_sidelength min_sidelength : Z)
    (false_positive_probability : Q) (entropy : Q) : Flake :=
  {| mask := mask;
     thickness := thickness;
     size := size;
     mean_contrast := mean_contrast;
     center := center;
     max_sidelength := max_sidelength;
     min_sidelength := min_sidelength;
     aspect_ratio := aspect_ratio_of max_sidelength min_sidelength;
     false_positive_probability := false_positive_probability;
     entropy := entropy |}.

(** The bounding box block of [to_dict] (the body of [if return_bbox]). *)
Definition bbox_of_mask (m : Np.ndarray2) : pyresult (list Z) :=
  let rows := Np.any_axis1 m in
  let cols := Np.any_axis0 m in
  '(rmin, rmax) ← Np.first_last (Np.where_ rows);
  '(cmin, cmax) ← Np.first_last (Np.where_ cols);
  mret [Z.of_nat cmin; Z.of_nat rmin;
        Z.of_nat cmax - Z.of_nat cmin; Z.of_nat rmax - Z.of_nat rmin].

(** The dictionary [to_dict] returns: its keys are fixed, [bbox] is
    present only when it was asked for. *)
Record flake_dict (RLE : Type) : Type := {
  d_mask : RLE;
  d_thickness : Z;
  d_size : Z;
  d_mean_contrast : list Z;
  d_center : list Z;
  d_max_sidelength : Z;
  d_min_sidelength : Z;
  d_aspect_ratio : Q;
  d_false_positive_probability : Q;
  d_entropy : Q;
  d_bbox : option (list Z);
}.
Arguments d_bbox {RLE} _.
Arguments d_thickness {RLE} _.

Section ToDict.
(** [pycocotools.mask.encode] on the Fortran-ordered mask, and the
    builtin [int] on a [str]; both are outside the repository. *)
Context {RLE : Type}.
Variable encode : Np.ndarray2 -> RLE.
Variable int_of_str : string -> pyresult Z.

(** [Flake.to_dict]; the [print] of the dictionary is not modelled. *)
Definition to_dict (self : Flake) (return_bbox : bool)
  : pyresult (flake_dict RLE) :=
  t ← int_of_str (thickness self);
  let temp_dict bbox :=
    {| d_mask := encode (mask self);
       d_thickness := t;
       d_size := size self;
       d_mean_contrast := map py_int (mean_contrast self);
       d_center := [py_int (fst (center self)); py_int (snd (center self))];
       d_max_sidelength := max_sidelength self;
       d_min_sidelength := min_sidelength self;
       d_aspect_ratio := aspect_ratio self;
       d_false_positive_probability := false_positive_probability self;
       d_entropy := entropy self;
       d_bbox := bbox |} in
  if return_bbox then
    bbox ← bbox_of_mask (mask self);
    mret (temp_dict (Some bbox))
  else mret (temp_dict None).
End ToDict.

End FlakeClass.


(** ** Python helpers used by the evaluator *)

Definition Qltb (x y : Q) : bool := negb (Qle_bool y x).

(** [np.mean] of a non-empty vector. *)
Definition np_mean (l : list Q) : Q :=
  (fold_right Qplus 0 l / inject_Z (Z.of_nat (length l)))%Q.

(** [[i for i, x in enumerate(l) if f x]] *)
Definition indices_where {A} (f : A -> bool) (l : list A) : list nat :=
  Np.where_ (map f l).

Fixpoint insert_sorted {A} (leb : A -> A -> bool) (x : A) (l : list A) : list A :=
  match l with
  | [] => [x]
  | y :: l' => if leb x y then x :: l else y :: insert_sorted leb x l'
  end.

(** [sorted(l)] *)
Definition py_sorted {A} (leb : A -> A -> bool) (l : list A) : list A :=
  fold_right (insert_sorted leb) [] l.

(** [a[i]] on a Python list. *)
Definition py_index {A} (l : list A) (i : nat) : pyresult A :=
  match l !! i with
  | Some x => Ok x
  | None => Raise IndexError
  end.

(** ** [FlakeParams] *)

Module Params.

Record FlakeParams : Type := {
  imgIds : list Z;
  catIds : list Z;
  iouThrs : list Q;
  recThrs : list Q;
  maxDets : list Z;
  areaRng : list (Q * Q);
  areaRngLbl : list string;
  useCats : Z;
  iouType : string;
}.

(** [np.linspace(start, stop, num, endpoint=True)] *)
Definition linspace (start stop : Q) (num : nat) : list Q :=
  map (fun i => (start + inject_Z (Z.of_nat i)
                         * ((stop - start) / inject_Z (Z.of_nat (num - 1))))%Q)
      (seq 0 num).

(** [conversion_factor = 1 / (0.3844**2)] *)
Definition conversion_factor : Q := (1 / ((3844 # 10000) * (3844 # 10000)))%Q.

(** The float literal [1e10]. *)
Definition area_inf : Q := inject_Z (10 ^ 10).

(** [FlakeParams.setDetParams]: the attributes it assigns; [iouType] is
    assigned by [__init__] afterwards ([useSegm], always [None], is not
    kept). *)
Definition setDetParams (self : FlakeParams) : FlakeParams :=
  {| imgIds := [];
     catIds := [];
     iouThrs := linspace 0.5 0.95
       (Z.to_nat (round_half_even ((0.95 - 0.5) / 0.05)) + 1);
     recThrs := linspace 0.0 1.00
       (Z.to_nat (round_half_even ((1.00 - 0.0) / 0.01)) + 1);
     maxDets := [1; 10; 100];
     areaRng :=
       [ (0%Q, area_inf);
         (0%Q, inject_Z (py_int (100 * conversion_factor)));
         (inject_Z (py_int (100 * conversion_factor)),
          inject_Z (py_int (200 * conversion_factor)));
         (inject_Z (py_int (200 * conversion_factor)),
          inject_Z (py_int (400 * conversion_factor)));
         (inject_Z (py_int (400 * conversion_factor)), area_inf) ];
     areaRngLbl := ["all"; "0-100"; "100-200"; "200-400"; "400-inf"];
     useCats := 1;
     iouType := iouType self |}.

(** The object before [__init__] has assigned anything. *)
Definition blank : FlakeParams :=
  {| imgIds := []; catIds := []; iouThrs := []; recThrs := [];
     maxDets := []; areaRng := []; areaRngLbl := []; useCats := 0;
     iouType := "" |}.

Definition set_iouType (self : FlakeParams) (t : string) : FlakeParams :=
  {| imgIds := imgIds self; catIds := catIds self; iouThrs := iouThrs self;
     recThrs := recThrs self; maxDets := maxDets self;
     areaRng := areaRng self; areaRngLbl := areaRngLbl self;
     useCats := useCats self; iouType := t |}.

Definition set_maxDets (self : FlakeParams) (m : list Z) : FlakeParams :=
  {| imgIds := imgIds self; catIds := catIds self; iouThrs := iouThrs self;
     recThrs := recThrs self; maxDets := m;
     areaRng := areaRng self; areaRngLbl := areaRngLbl self;
     useCats := useCats self; iouType := iouType self |}.

Definition set_imgIds (self : FlakeParams) (ids : list Z) : FlakeParams :=
  {| imgIds := ids; catIds := catIds self; iouThrs := iouThrs self;
     recThrs := recThrs self; maxDets := maxDets self;
     areaRng := areaRng self; areaRngLbl := areaRngLbl self;
     useCats := useCats self; iouType := iouType self |}.

Definition set_catIds (self : FlakeParams) (ids : list Z) : FlakeParams :=
  {| imgIds := imgIds self; catIds := ids; iouThrs := iouThrs self;
     recThrs := recThrs self; maxDets := maxDets self;
     areaRng := areaRng self; areaRngLbl := areaRngLbl self;
     useCats := useCats self; iouType := iouType self |}.

(** [FlakeParams.__init__]: the class defines no [setKpParams], so the
    [keypoints] branch is an attribute lookup that fails. *)
Definition init (iouType : string) : pyresult FlakeParams :=
  if (String.eqb iouType "segm" || String.eqb iouType "bbox")%bool then
    Ok (set_iouType (setDetParams blank) iouType)
  else if String.eqb iouType "keypoints" then
    Raise (AttributeError "setKpParams")
  else Raise (PyException "iouType not supported").

End Params.

(** ** [FlakeCOCOeval] *)

Module COCOeval.
Import Params.

(** The tensors [accumulate()] leaves in [self.eval]:
    [precision] of shape [T x R x K x A x M], [recall] of shape
    [T x K x A x M]; unmatched cells hold [-1]. *)
Record eval_arrays : Type := {
  dimT : nat; dimR : nat; dimK : nat; dimA : nat; dimM : nat;
  precision : nat -> nat -> nat -> nat -> nat -> Q;
  recall : nat -> nat -> nat -> nat -> Q;
}.

Section WithCOCO.
(** The ground-truth and detection handles of pycocotools ([COCO]
    objects); the evaluator only passes them on. *)
Context {COCO : Type}.
Variable getImgIds : COCO -> list Z.
Variable getCatIds : COCO -> list Z.

Record FlakeCOCOeval : Type := {
  cocoGt : option COCO;
  cocoDt : option COCO;
  eval : option eval_arrays;
  params : FlakeParams;
  stats : list Q;
}.

Definition set_params (self : FlakeCOCOeval) (p : FlakeParams) : FlakeCOCOeval :=
  {| cocoGt := cocoGt self; cocoDt := cocoDt self; eval := eval self;
     params := p; stats := stats self |}.

Definition set_stats (self : FlakeCOCOeval) (s : list Q) : FlakeCOCOeval :=
  {| cocoGt := cocoGt self; cocoDt := cocoDt self; eval := eval self;
     params := params self; stats := s |}.

(** [FlakeCOCOeval.__init__]; the per-image tables ([evalImgs], [_gts],
    [_dts], [ious], [_paramsEval]) belong to the inherited engine and are
    not kept. *)
Definition init (cocoGt cocoDt : option COCO) (iouType : string)
  : pyresult FlakeCOCOeval :=
  p ← Params.init iouType;
  let p :=
    match cocoGt with
    | Some gt =>
        set_catIds (set_imgIds p (py_sorted Z.leb (getImgIds gt)))
                   (py_sorted Z.leb (getCatIds gt))
    | None => p
    end in
  mret {| cocoGt := cocoGt; cocoDt := cocoDt; eval := None;
          params := p; stats := [] |}.

(** Two index lists used together as advanced indices are broadcast
    against each other. *)
Definition broadcast_pairs (aind mind : list nat) : pyresult (list (nat * nat)) :=
  if (length aind =? length mind)%nat then Ok (combine aind mind)
  else match aind, mind with
       | [a], _ => Ok (map (fun m => (a, m)) mind)
       | _, [m] => Ok (map (fun a => (a, m)) aind)
       | _, _ => Raise IndexError
       end.

(** Every index of [idx] is below the extent [n] of its axis. *)
Definition check_bounds (n : nat) (idx : list nat) : pyresult unit :=
  if forallb (fun i => i <? n)%nat idx then Ok tt else Raise IndexError.

(** [np.where(iouThr == p.iouThrs)[0]] *)
Definition iou_where (p : FlakeParams) (iouThr : Q) : list nat :=
  indices_where (Qeq_bool iouThr) (iouThrs p).

(** The IoU slices [_summarize] keeps: all of them for [iouThr=None],
    [s[t]] otherwise. *)
Definition iou_slices (p : FlakeParams) (e : eval_arrays) (iouThr : option Q)
  : pyresult (list nat) :=
  match iouThr with
  | None => Ok (seq 0 (dimT e))
  | Some thr =>
      let t := iou_where p thr in
      _ ← check_bounds (dimT e) t; mret t
  end.

(** The entries of [s[:, :, :, aind, mind]] (precision) and of
    [s[:, :, aind, mind]] (recall), flattened. *)
Definition select_precision (e : eval_arrays) (ts : list nat)
    (pairs : list (nat * nat)) : list Q :=
  t ← ts; r ← seq 0 (dimR e); k ← seq 0 (dimK e); '(a, m) ← pairs;
  [precision e t r k a m].

Definition select_recall (e : eval_arrays) (ts : list nat)
    (pairs : list (nat * nat)) : list Q :=
  t ← ts; k ← seq 0 (dimK e); '(a, m) ← pairs;
  [recall e t k a m].

(** [s[s > -1]] *)
Definition valid_entries (s : list Q) : list Q := filter (fun x => Qltb (-1) x = true) s.

(** The local function [_summarize] of [summarize]; the line it prints is
    not modelled. *)
Definition _summarize (p : FlakeParams) (e : eval_arrays)
    (ap : Z) (iouThr : option Q) (areaRng : string) (maxDets : Z)
  : pyresult Q :=
  let aind := indices_where (String.eqb areaRng) (areaRngLbl p) in
  let mind := indices_where (Z.eqb maxDets) (Params.maxDets p) in
  ts ← iou_slices p e iouThr;
  pairs ← broadcast_pairs aind mind;
  _ ← check_bounds (dimA e) (map fst pairs);
  _ ← check_bounds (dimM e) (map snd pairs);
  let s := if ap =? 1 then select_precision e ts pairs
           else select_recall e ts pairs in
  if (length (valid_entries s) =? 0)%nat then mret (-1)%Q
  else mret (np_mean (valid_entries s)).

(** The thirty calls of [_summarizeDets], in the order of [stats[0..29]]:
    [(ap, iouThr, areaRng)]. *)
Definition stat_calls : list (Z * option Q * string) :=
  [ (1, Some 0.5%Q, "all"); (1, Some 0.5%Q, "0-100");
    (1, Some 0.5%Q, "100-200"); (1, Some 0.5%Q, "200-400");
    (1, Some 0.5%Q, "400-inf");
    (0, Some 0.5%Q, "all"); (0, Some 0.5%Q, "0-100");
    (0, Some 0.5%Q, "100-200"); (0, Some 0.5%Q, "200-400");
    (0, Some 0.5%Q, "400-inf");
    (1, Some 0.75%Q, "all"); (1, Some 0.75%Q, "0-100");
    (1, Some 0.75%Q, "100-200"); (1, Some 0.75%Q, "200-400");
    (1, Some 0.75%Q, "400-inf");
    (0, Some 0.75%Q, "all"); (0, Some 0.75%Q, "0-100");
    (0, Some 0.75%Q, "100-200"); (0, Some 0.75%Q, "200-400");
    (0, Some 0.75%Q, "400-inf");
    (1, None, "all"); (1, None, "0-100"); (1, None, "100-200");
    (1, None, "200-400"); (1, None, "400-inf");
    (0, None, "all"); (0, None, "0-100"); (0, None, "100-200");
    (0, None, "200-400"); (0, None, "400-inf") ].

(** [_summarizeDets]: every call passes [maxDets=self.params.maxDets[2]]. *)
Definition _summarizeDets (p : FlakeParams) (e : eval_arrays)
  : pyresult (list Q) :=
  mapM (fun '(ap, iouThr, areaRng) =>
          m2 ← py_index (Params.maxDets p) 2;
          _summarize p e ap iouThr areaRng m2)
       stat_calls.

(** [FlakeCOCOeval.summarize] *)
Definition summarize (self : FlakeCOCOeval) : pyresult FlakeCOCOeval :=
  match eval self with
  | None => Raise (PyException "Please run accumulate() first")
  | Some e =>
      let iouType := iouType (params self) in
      if (String.eqb iouType "segm" || String.eqb iouType "bbox")%bool then
        s ← _summarizeDets (params self) e;
        mret (set_stats self s)
      else Raise (UnboundLocalError "summarize")
  end.

End WithCOCO.
End COCOeval.

(** ** Traced computations: the outcome of a call and the events it left *)

Module Trace.

Section Traced.
Context {E : Type}.

Record traced (A : Type) : Type := Traced {
  outcome : pyresult A;
  events : list E;
}.
Arguments Traced {A} _ _.
Arguments outcome {A} _.
Arguments events {A} _.

Definition ret {A} (a : A) : traced A := Traced (Ok a) [].

Definition bind {A B} (m : traced A) (k : A -> traced B) : traced B :=
  match m with
  | Traced (Ok a) t => let '(Traced r t') := k a in Traced r (t ++ t')
  | Traced (Raise e) t => Traced (Raise e) t
  end.

Definition emit (e : E) : traced unit := Traced (Ok tt) [e].

Definition raise {A} (e : exn) : traced A := Traced (Raise e) [].

Definition lift {A} (r : pyresult A) : traced A := Traced r [].

(** [assert cond, msg] *)
Definition assert (cond : bool) (msg : string) : traced unit :=
  if cond then ret tt else raise (AssertionError msg).

(** Every event a computation leaves satisfies [P]. *)
Definition emits_only {A} (P : E -> Prop) (m : traced A) : Prop :=
  Forall P (events m).

(** A computation that succeeds without leaving an event. *)
Definition silent_ok {A} (m : traced A) (a : A) : Prop :=
  m = Traced (Ok a) [].

End Traced.

Arguments traced : clear implicits.
Arguments Traced {E A} _ _.
Arguments outcome {E A} _.
Arguments events {E A} _.

Global Instance traced_ret {E} : MRet (traced E) := fun _ a => ret a.
Global Instance traced_bind {E} : MBind (traced E) := fun _ _ k m => bind m k.
Global Instance traced_fmap {E} : FMap (traced E) := fun _ _ f m =>
  bind m (fun a => ret (f a)).

(** A [for] loop that threads an accumulator and stops at the first
    exception. *)
Fixpoint foldlM {E A B} (f : A -> B -> traced E A) (a : A) (l : list B)
  : traced E A :=
  match l with
  | [] => ret a
  | x :: l' => bind (f a x) (fun a' => foldlM f a' l')
  end.

End Trace.

(** ** [FlakeCOCOEvaluator] *)

Module Evaluator.
Import Params COCOeval Trace.

(** [str(n)] for an integer. *)
Definition str_of_Z (n : Z) : string :=
  DecimalString.NilZero.string_of_int (Z.to_int n).

(** The metric names [_derive_coco_results] looks up by task; any other
    task is a [KeyError]. *)
Definition metric_names (iou_type : string) : pyresult (list string) :=
  if String.eqb iou_type "bbox" then
    Ok ["AP"; "AP50"; "AP75"; "APs"; "APm"; "APl"]
  else if String.eqb iou_type "segm" then
    Ok [ "AP50"; "AP50,0-100"; "AP50,100-200"; "AP50,200-400"; "AP50,400-inf";
         "AR50"; "AR50,0-100"; "AR50,100-200"; "AR50,200-400"; "AR50,400-inf";
         "AP75"; "AP75,0-100"; "AP75,100-200"; "AP75,200-400"; "AP75,400-inf";
         "AR75"; "AR75,0-100"; "AR75,100-200"; "AR75,200-400"; "AR75,400-inf";
         "AP"; "AP,0-100"; "AP,100-200"; "AP,200-400"; "AP,400-inf";
         "AR"; "AR,0-100"; "AR,100-200"; "AR,200-400"; "AR,400-inf" ]
  else Raise (KeyError iou_type).

(** [round(float(s * 100 if s >= 0 else "nan"), 2)] *)
Definition standard_metric (s : Q) : pyfloat :=
  if Qle_bool 0 s then Fin (py_round (s * 100) 2) else NaN.

(** [round(float(final_metric * 100), 2)] with
    [final_metric = np.mean(sub) if sub.size else float("nan")]. *)
Definition class_metric (sub_metric : list Q) : pyfloat :=
  match sub_metric with
  | [] => NaN
  | _ => Fin (py_round (np_mean sub_metric * 100) 2)
  end.

(** The key of a per-class metric, up to the class name. *)
Definition key_prefix (mode : string) (iouThr : option Q) (area_idx : nat)
    (area_label : string) : string :=
  let k := mode in
  let k := match iouThr with
           | Some thr => k +:+ str_of_Z (py_int (thr * 100))
           | None => k
           end in
  if (0 <? area_idx)%nat then k +:+ "," +:+ area_label else k.

(** The key of a per-class metric. *)
Definition result_key (mode : string) (iouThr : option Q) (area_idx : nat)
    (area_label class_name : string) : string :=
  key_prefix mode iouThr area_idx area_label +:+ "_" +:+ class_name.

(** [metric[t, :, class_index, area_idx, -1]] (precision) or
    [metric[t, class_index, area_idx, -1]] (recall), flattened. *)
Definition class_slice (p : FlakeParams) (e : eval_arrays) (mode : string)
    (iouThr : option Q) (class_index area_idx : nat) : pyresult (list Q) :=
  ts ← iou_slices p e iouThr;
  _ ← check_bounds (dimK e) [class_index];
  _ ← check_bounds (dimA e) [area_idx];
  _ ← check_bounds (dimM e) [0%nat];
  let m := (dimM e - 1)%nat in
  if String.eqb mode "AP" then
    mret (t ← ts; r ← seq 0 (dimR e); [precision e t r class_index area_idx m])
  else
    mret (t ← ts; [recall e t class_index area_idx m]).

(** One pass of the innermost loop body: the key and the value it stores. *)
Definition class_entry (p : FlakeParams) (e : eval_arrays) (mode : string)
    (area_idx : nat) (area_label : string) (iouThr : option Q)
    (class_index : nat) (class_name : string) : pyresult (string * pyfloat) :=
  sub ← class_slice p e mode iouThr class_index area_idx;
  mret (result_key mode iouThr area_idx area_label class_name,
        class_metric (valid_entries sub)).

(** The loop nest of the per-category part, in iteration order. *)
Definition class_loop (class_names : list string) (p : FlakeParams)
  : list (string * nat * string * option Q * nat * string) :=
  mode ← ["AP"; "AR"];
  '(area_idx, area_label) ← imap (fun i l => (i, l)) (areaRngLbl p);
  iouThr ← [Some 0.5%Q; None];
  '(class_index, class_name) ← imap (fun i n => (i, n)) class_names;
  [(mode, area_idx, area_label, iouThr, class_index, class_name)].

Definition class_entries (class_names : list string) (p : FlakeParams)
    (e : eval_arrays) : pyresult (list (string * pyfloat)) :=
  mapM (fun '(mode, area_idx, area_label, iouThr, class_index, class_name) =>
          class_entry p e mode area_idx area_label iouThr class_index class_name)
       (class_loop class_names p).

(** [results.update({k: v})] for each pair, in order. *)
Definition update_all (results : gmap string pyfloat)
    (kvs : list (string * pyfloat)) : gmap string pyfloat :=
  fold_left (fun r kv => <[kv.1 := kv.2]> r) kvs results.

(** *** The cells behind a reported number *)

(** The IoU slices a call with [iouThr] reads: every slice for [None],
    the slices whose threshold equals [iouThr] otherwise. *)
Definition iou_selected (p : FlakeParams) (e : eval_arrays)
    (iouThr : option Q) (t : nat) : Prop :=
  match iouThr with
  | None => (t < dimT e)%nat
  | Some q => exists q', iouThrs p !! t = Some q' /\ (q == q')%Q
  end.

(** No cell read by [_summarize(ap, iouThr, areaRng, maxDets[2])] is
    valid, that is above [-1]. *)
Definition stat_cells_unset (p : FlakeParams) (e : eval_arrays)
    (ap : Z) (iouThr : option Q) (areaRng : string) : Prop :=
  forall t k a m top,
    iou_selected p e iouThr t -> (k < dimK e)%nat ->
    areaRngLbl p !! a = Some areaRng ->
    Params.maxDets p !! 2%nat = Some top -> Params.maxDets p !! m = Some top ->
    if ap =? 1
    then forall r, (r < dimR e)%nat -> (precision e t r k a m <= -1)%Q
    else (recall e t k a m <= -1)%Q.

(** No cell read for the per-class number of a mode, threshold, area
    bucket and class is valid. *)
Definition class_cells_unset (e : eval_arrays) (p : FlakeParams)
    (mode : string) (iouThr : option Q) (class_index area_idx : nat) : Prop :=
  forall t,
    iou_selected p e iouThr t ->
    if String.eqb mode "AP"
    then forall r, (r < dimR e)%nat ->
           (precision e t r class_index area_idx (dimM e - 1) <= -1)%Q
    else (recall e t class_index area_idx (dimM e - 1) <= -1)%Q.

(** The tensors have the extents the parameters give them, and the
    classes named are categories of the tensors. *)
Definition well_shaped (p : FlakeParams) (e : eval_arrays)
    (class_names : option (list string)) : Prop :=
  dimT e = length (iouThrs p) /\
  dimA e = length (areaRngLbl p) /\
  dimM e = length (Params.maxDets p) /\
  (3 <= length (Params.maxDets p))%nat /\
  (length (default [] class_names) <= dimK e)%nat.

(** The bucket labels [setDetParams] assigns. *)
Definition flake_labels : list string :=
  ["all"; "0-100"; "100-200"; "200-400"; "400-inf"].

Fixpoint has_underscore (s : string) : bool :=
  match s with
  | EmptyString => false
  | String c s' => (Ascii.eqb c (Ascii.ascii_of_nat 95) || has_underscore s')%bool
  end.

(** The loop nest's choices of mode, threshold and bucket, by position:
    [AP] or [AR], [0.5] or [None], and the index of the bucket. *)
Definition loop_choices : list (bool * bool * nat) :=
  mb ← [true; false]; tb ← [true; false]; a ← seq 0 5; [(mb, tb, a)].

Definition choice_prefix (c : bool * bool * nat) : string :=
  key_prefix (if c.1.1 then "AP" else "AR")
             (if c.1.2 then Some 0.5%Q else None)
             c.2 (default "" (flake_labels !! c.2)).

(** No prefix has an underscore and no two choices share a prefix. *)
Definition prefixes_distinct : bool :=
  forallb (fun c =>
             negb (has_underscore (choice_prefix c)) &&
             forallb (fun c' =>
                        implb (String.eqb (choice_prefix c) (choice_prefix c'))
                              (bool_decide (c = c')))
                     loop_choices)
          loop_choices.

Inductive event : Type :=
| LogInfo (msg : string)
| LogWarning (msg : string)
| LogResults (iou_type : string) (results : gmap string pyfloat)
| LogProposals (res : gmap string pyfloat)
| Synchronize
| MkDirs (path : string)
| WriteFile (path : string)
| EngineCall (method : string) (iou_type : string)
| ProposalRecall (area : string) (limit : Z).

Definition is_engine_call (e : event) : Prop :=
  match e with EngineCall _ _ => True | _ => False end.

Section WithCOCO.
Context {COCO : Type}.

(** [FlakeCOCOEvaluator._derive_coco_results]; [self] is used for the
    logger only. *)
Definition _derive_coco_results (coco_eval : option (@FlakeCOCOeval COCO))
    (iou_type : string) (class_names : option (list string))
  : traced event (gmap string pyfloat) :=
  metrics ← lift (metric_names iou_type);
  match coco_eval with
  | None =>
      _ ← emit (LogWarning "No predictions from the model!");
      mret (list_to_map (map (fun metric => (metric, NaN)) metrics))
  | Some coco_eval =>
      vals ← lift (mapM (fun idx => s ← py_index (stats coco_eval) idx;
                                     mret (standard_metric s))
                        (seq 0 (length metrics)));
      let results : gmap string pyfloat :=
        update_all ∅ (combine metrics vals) in
      _ ← emit (LogResults iou_type results);
      _ ← (if existsb is_nan vals
           then emit (LogInfo "Some metrics cannot be computed and is shown as NaN.")
           else mret tt);
      let few := match class_names with
                 | None => true
                 | Some names => (length names <=? 1)%nat
                 end in
      if few then mret results
      else
        let names := default [] class_names in
        match eval coco_eval with
        | None =>
            match class_loop names (params coco_eval) with
            | [] => mret results
            | _ => raise (KeyError "precision")
            end
        | Some e =>
            kvs ← lift (class_entries names (params coco_eval) e);
            mret (update_all results kvs)
        end
  end.

End WithCOCO.

(** [min(l)], [max(l)]: a [ValueError] on an empty list. *)
Definition py_min (l : list Z) : pyresult Z :=
  match l with [] => Raise ValueError | x :: l' => Ok (fold_left Z.min l' x) end.
Definition py_max (l : list Z) : pyresult Z :=
  match l with [] => Raise ValueError | x :: l' => Ok (fold_left Z.max l' x) end.

(** [if s:] on an optional string. *)
Definition truthy (s : option string) : bool :=
  match s with Some (String _ _) => true | _ => false end.

(** [os.path.join(dir, name)] for a relative [name]. *)
Definition path_join (dir name : string) : string := dir +:+ "/" +:+ name.

Definition no_predictions_warning : event :=
  LogWarning "[COCOEvaluator] Did not receive valid predictions.".

Definition no_annotations_info : event :=
  LogInfo "Annotations are not available for evaluation.".

Section WithWorld.
Context {COCO RLE Proposals Mask : Type}.

(** One detection in COCO's result format. *)
Record coco_result : Type := {
  image_id : Z;
  category_id : Z;
  bbox : option (list Q);
  score : Q;
  segmentation : option RLE;
  keypoints : option (list Q);
}.

(** One entry of [self._predictions]. *)
Record prediction : Type := {
  p_image_id : Z;
  p_instances : option (list coco_result);
  p_proposals : option Proposals;
}.

(** The attributes of the dataset's metadata the evaluator reads. *)
Record metadata : Type := {
  json_file : option string;
  thing_dataset_id_to_contiguous_id : option (list (Z * Z));
  thing_classes : option (list string);
}.

(** One detected instance of an [Instances] object, already on the CPU. *)
Record instance : Type := {
  pred_box : Q * Q * Q * Q;
  pred_score : Q;
  pred_class : Z;
  pred_mask : option Mask;
  pred_keypoints : option (list (Q * Q * Q));
}.

Record model_output : Type := {
  out_instances : option (list instance);
  out_proposals : option Proposals;
}.

Inductive tasks_arg : Type :=
| TasksNone
| TasksTuple (tasks : list string)
| TasksCfg (keypoint_oks_sigmas : list Q).

Record FlakeCOCOEvaluator : Type := {
  _distributed : bool;
  _output_dir : option string;
  _max_dets_per_image : list Z;
  _tasks : option (list string);
  _metadata : metadata;
  _coco_api : COCO;
  _do_evaluation : bool;
  _kpt_oks_sigmas : list Q;
  _predictions : list prediction;
}.

Definition set_predictions (self : FlakeCOCOEvaluator) (ps : list prediction)
  : FlakeCOCOEvaluator :=
  {| _distributed := _distributed self; _output_dir := _output_dir self;
     _max_dets_per_image := _max_dets_per_image self; _tasks := _tasks self;
     _metadata := _metadata self; _coco_api := _coco_api self;
     _do_evaluation := _do_evaluation self;
     _kpt_oks_sigmas := _kpt_oks_sigmas self; _predictions := ps |}.

(** What the evaluator calls but the repository does not define: the
    dataset catalog, pycocotools ([COCO], [loadRes], the inherited
    [evaluate] and [accumulate]), detectron2's [comm], the RLE encoder.
    [_evaluate_box_proposals] is a function of this file built from torch
    tensor operations; it is kept opaque here, as the value
    [float(stats["ar"].item() * 100)] it contributes. *)
Record world : Type := {
  metadata_catalog : string -> metadata;
  load_coco : string -> pyresult COCO;
  dataset_has_key : COCO -> string -> bool;
  getImgIds : COCO -> list Z;
  getCatIds : COCO -> list Z;
  loadRes : COCO -> list coco_result -> pyresult COCO;
  coco_evaluate : @FlakeCOCOeval COCO -> pyresult (@FlakeCOCOeval COCO);
  coco_accumulate : @FlakeCOCOeval COCO -> pyresult (@FlakeCOCOeval COCO);
  proposal_recall : list prediction -> COCO -> string -> Z -> pyresult pyfloat;
  comm_gather : list prediction -> list (list prediction);
  comm_is_main_process : bool;
  encode_mask : Mask -> RLE;
}.

Variable w : world.

(** [FlakeCOCOEvaluator.__init__] *)
Definition init (dataset_name : string) (tasks : tasks_arg)
    (distributed : bool) (output_dir : option string)
    (max_dets_per_image : option Z) (kpt_oks_sigmas : list Q)
  : traced event FlakeCOCOEvaluator :=
  let max_dets := match max_dets_per_image with
                  | None => [1; 10; 100]
                  | Some n => [1; 10; n]
                  end in
  '(kpt_oks_sigmas, tasks) ←
    match tasks with
    | TasksCfg sigmas =>
        _ ← emit (LogWarning "COCO Evaluator instantiated using config, this is deprecated behavior. Please pass in explicit arguments instead.");
        mret (match kpt_oks_sigmas with [] => sigmas | _ => kpt_oks_sigmas end,
              None)
    | TasksTuple l => mret (kpt_oks_sigmas, Some l)
    | TasksNone => mret (kpt_oks_sigmas, None)
    end;
  let md := metadata_catalog w dataset_name in
  md ←
    match json_file md with
    | Some _ => mret md
    | None =>
        match output_dir with
        | None => raise ValueError
        | Some dir =>
            _ ← emit (LogInfo ("Trying to convert '" +:+ dataset_name +:+ "' to COCO format ..."));
            let cache_path := path_join dir (dataset_name +:+ "_coco_format.json") in
            _ ← emit (WriteFile cache_path);
            mret {| json_file := Some cache_path;
                    thing_dataset_id_to_contiguous_id :=
                      thing_dataset_id_to_contiguous_id md;
                    thing_classes := thing_classes md |}
        end
    end;
  coco_api ← lift (load_coco w (default "" (json_file md)));
  mret {| _distributed := distributed;
          _output_dir := output_dir;
          _max_dets_per_image := max_dets;
          _tasks := tasks;
          _metadata := md;
          _coco_api := coco_api;
          _do_evaluation := dataset_has_key w coco_api "annotations";
          _kpt_oks_sigmas := kpt_oks_sigmas;
          _predictions := [] |}.

(** [FlakeCOCOEvaluator.reset] *)
Definition reset (self : FlakeCOCOEvaluator) : FlakeCOCOEvaluator :=
  set_predictions self [].

(** [instances_to_coco_json] *)
Definition instances_to_coco_json (instances : list instance) (img_id : Z)
  : list coco_result :=
  map (fun i =>
         let '(x0, y0, x1, y1) := pred_box i in
         {| image_id := img_id;
            category_id := pred_class i;
            bbox := Some [x0; y0; (x1 - x0)%Q; (y1 - y0)%Q];
            score := pred_score i;
            segmentation := encode_mask w <$> pred_mask i;
            keypoints :=
              (fun kps => '(x, y, v) ← kps; [(x - 0.5)%Q; (y - 0.5)%Q; v])
                <$> pred_keypoints i |})
      instances.

(** [FlakeCOCOEvaluator.process] *)
Definition process (self : FlakeCOCOEvaluator)
    (inputs : list Z) (outputs : list model_output) : FlakeCOCOEvaluator :=
  fold_left
    (fun self '(input, output) =>
       let prediction :=
         {| p_image_id := input;
            p_instances :=
              (fun i => instances_to_coco_json i input) <$> out_instances output;
            p_proposals := out_proposals output |} in
       match p_instances prediction, p_proposals prediction with
       | None, None => self
       | _, _ => set_predictions self (_predictions self ++ [prediction])
       end)
    (combine inputs outputs) self.

(** The task names the assertion of [_eval_predictions] lets through. *)
Definition known_task (task : string) : bool :=
  bool_decide (task ∈ ["bbox"; "segm"; "keypoints"]).

(** [FlakeCOCOEvaluator._tasks_from_predictions]: the sorted set. *)
Definition _tasks_from_predictions (coco_results : list coco_result)
  : list string :=
  let tasks : list string := ["bbox"] in
  let tasks := if existsb (fun r => bool_decide (is_Some (segmentation r))) coco_results
               then tasks ++ ["segm"] else tasks in
  let tasks := if existsb (fun r => bool_decide (is_Some (keypoints r))) coco_results
               then tasks ++ ["keypoints"] else tasks in
  py_sorted String.leb tasks.

(** [c.pop("bbox", None)] *)
Definition pop_bbox (c : coco_result) : coco_result :=
  {| image_id := image_id c; category_id := category_id c; bbox := None;
     score := score c; segmentation := segmentation c;
     keypoints := keypoints c |}.

Definition set_category_id (c : coco_result) (id : Z) : coco_result :=
  {| image_id := image_id c; category_id := id; bbox := bbox c;
     score := score c; segmentation := segmentation c;
     keypoints := keypoints c |}.

(** [_evaluate_predictions_on_coco] with [cocoeval_fn=FlakeCOCOeval].
    [FlakeParams] never defines [kpt_oks_sigmas], so the keypoint block
    can only fail; it is listed after the constructor as in the source. *)
Definition _evaluate_predictions_on_coco (coco_gt : COCO)
    (coco_results : list coco_result) (iou_type : string)
    (kpt_oks_sigmas : list Q) (img_ids : option (list Z))
    (max_dets_per_image : option (list Z))
  : traced event (@FlakeCOCOeval COCO) :=
  _ ← assert (0 <? length coco_results)%nat "";
  let coco_results :=
    if String.eqb iou_type "segm" then map pop_bbox coco_results
    else coco_results in
  _ ← emit (EngineCall "loadRes" iou_type);
  coco_dt ← lift (loadRes w coco_gt coco_results);
  coco_eval ← lift (COCOeval.init (getImgIds w) (getCatIds w)
                      (Some coco_gt) (Some coco_dt) iou_type);
  let max_dets := default [1; 10; 100] max_dets_per_image in
  let coco_eval :=
    if negb (String.eqb iou_type "keypoints")
    then set_params coco_eval (set_maxDets (params coco_eval) max_dets)
    else coco_eval in
  let coco_eval :=
    match img_ids with
    | Some ids => set_params coco_eval (set_imgIds (params coco_eval) ids)
    | None => coco_eval
    end in
  _ ← (if String.eqb iou_type "keypoints" then
         match kpt_oks_sigmas with
         | _ :: _ => raise (AssertionError "pycocotools is too old!")
         | [] =>
             _ ← lift (r ← py_index coco_results 0;
                       match keypoints r with
                       | Some k => Ok k
                       | None => Raise (KeyError "keypoints")
                       end);
             raise (AttributeError "kpt_oks_sigmas")
         end
       else mret tt);
  _ ← emit (EngineCall "evaluate" iou_type);
  coco_eval ← lift (coco_evaluate w coco_eval);
  _ ← emit (EngineCall "accumulate" iou_type);
  coco_eval ← lift (coco_accumulate w coco_eval);
  _ ← emit (EngineCall "summarize" iou_type);
  lift (summarize coco_eval).

(** The category-id block of [_eval_predictions]: contiguous training ids
    back to dataset ids. *)
Definition unmap_category_ids (mapping : list (Z * Z))
    (coco_results : list coco_result) : traced event (list coco_result) :=
  let all_contiguous_ids := map snd mapping in
  let num_classes := Z.of_nat (length all_contiguous_ids) in
  lo ← lift (py_min all_contiguous_ids);
  hi ← lift (py_max all_contiguous_ids);
  _ ← assert ((lo =? 0) && (hi =? num_classes - 1)) "";
  mapM (fun result =>
          let category_id := category_id result in
          _ ← assert (category_id <? num_classes)
                "A prediction has a class outside the dataset's classes.";
          match List.find (fun kv => snd kv =? category_id) (rev mapping) with
          | Some kv => mret (set_category_id result (fst kv))
          | None => raise (KeyError (str_of_Z category_id))
          end)
       coco_results.

Definition results_table : Type := gmap string (gmap string pyfloat).

(** [FlakeCOCOEvaluator._eval_predictions]: [results] is [self._results]
    before the call, the value returned is [self._results] after it. The
    write-back of the unmapped ids into the shared prediction records is
    not kept. *)
Definition _eval_predictions (self : FlakeCOCOEvaluator)
    (results : results_table) (predictions : list prediction)
    (img_ids : option (list Z)) : traced event results_table :=
  _ ← emit (LogInfo "Preparing results for COCO format ...");
  per_image ← lift (mapM (fun x => match p_instances x with
                                   | Some i => Ok i
                                   | None => Raise (KeyError "instances")
                                   end) predictions);
  let coco_results := concat per_image in
  let tasks := match _tasks self with
               | Some (t :: ts) => t :: ts
               | _ => _tasks_from_predictions coco_results
               end in
  coco_results ←
    match thing_dataset_id_to_contiguous_id (_metadata self) with
    | Some mapping => unmap_category_ids mapping coco_results
    | None => mret coco_results
    end;
  _ ← (if truthy (_output_dir self) then
         let file_path := path_join (default "" (_output_dir self))
                                    "coco_instances_results.json" in
         _ ← emit (LogInfo ("Saving results to " +:+ file_path));
         emit (WriteFile file_path)
       else mret tt);
  if negb (_do_evaluation self) then
    _ ← emit no_annotations_info;
    mret results
  else
    _ ← emit (LogInfo "Evaluating predictions with FlakeCOCO API...");
    foldlM
      (fun results task =>
         _ ← assert (known_task task)
               ("Got unknown task: " +:+ task +:+ "!");
         coco_eval ←
           (if (0 <? length coco_results)%nat then
              Some <$> _evaluate_predictions_on_coco (_coco_api self)
                         coco_results task (_kpt_oks_sigmas self) img_ids
                         (Some (_max_dets_per_image self))
            else mret None);
         res ← _derive_coco_results coco_eval task
                 (thing_classes (_metadata self));
         mret (<[task := res]> results))
      results (py_sorted String.leb tasks).

(** [FlakeCOCOEvaluator._eval_box_proposals] *)
Definition _eval_box_proposals (self : FlakeCOCOEvaluator)
    (results : results_table) (predictions : list prediction)
  : traced event results_table :=
  _ ← (if truthy (_output_dir self) then
         _ ← lift (mapM (fun x => match p_proposals x with
                                  | Some p => Ok p
                                  | None => Raise (KeyError "proposals")
                                  end) predictions);
         emit (WriteFile (path_join (default "" (_output_dir self))
                                    "box_proposals.pkl"))
       else mret tt);
  if negb (_do_evaluation self) then
    _ ← emit no_annotations_info;
    mret results
  else
    _ ← emit (LogInfo "Evaluating bbox proposals ...");
    let areas := [("all", ""); ("small", "s"); ("medium", "m"); ("large", "l")] in
    res ← foldlM
      (fun res '(limit, (area, suffix)) =>
         _ ← emit (ProposalRecall area limit);
         ar ← lift (proposal_recall w predictions (_coco_api self) area limit);
         mret (<["AR" +:+ suffix +:+ "@" +:+ str_of_Z limit := ar]> res))
      (∅ : gmap string pyfloat)
      (limit ← [100; 1000]; a ← areas; [(limit, a)]);
    _ ← emit (LogProposals res);
    mret (<["box_proposals" := res]> results).

(** The body of [evaluate] from [if len(predictions) == 0] on. *)
Definition evaluate_gathered (self : FlakeCOCOEvaluator)
    (predictions : list prediction) (img_ids : option (list Z))
  : traced event results_table :=
  match predictions with
  | [] =>
      _ ← emit no_predictions_warning;
      mret ∅
  | first :: _ =>
      _ ← (if truthy (_output_dir self) then
             let dir := default "" (_output_dir self) in
             _ ← emit (MkDirs dir);
             emit (WriteFile (path_join dir "instances_predictions.pth"))
           else mret tt);
      let results : results_table := ∅ in
      results ← (if bool_decide (is_Some (p_proposals first))
                 then _eval_box_proposals self results predictions
                 else mret results);
      results ← (if bool_decide (is_Some (p_instances first))
                 then _eval_predictions self results predictions img_ids
                 else mret results);
      mret results
  end.

(** [FlakeCOCOEvaluator.evaluate] *)
Definition evaluate (self : FlakeCOCOEvaluator) (img_ids : option (list Z))
  : traced event results_table :=
  if _distributed self then
    _ ← emit Synchronize;
    let predictions := concat (comm_gather w (_predictions self)) in
    if negb (comm_is_main_process w) then mret ∅
    else evaluate_gathered self predictions img_ids
  else evaluate_gathered self (_predictions self) img_ids.

(** *** Preconditions of [_eval_predictions], as its own statements
    spell them *)

(** Every prediction carries the key ["instances"]. *)
Definition have_instances (predictions : list prediction) : Prop :=
  Forall (fun p => is_Some (p_instances p)) predictions.

(** The detections of all predictions, in order. *)
Definition all_instances (predictions : list prediction) : list coco_result :=
  concat (map (fun p => default [] (p_instances p)) predictions).

(** The two assertions of the category-id block hold and every predicted
    id has a dataset id: the contiguous ids start at 0 and end at
    [num_classes - 1], and each prediction's class is one of them. *)
Definition unmappable (mapping : list (Z * Z))
    (coco_results : list coco_result) : Prop :=
  py_min (map snd mapping) = Ok 0 /\
  py_max (map snd mapping) = Ok (Z.of_nat (length mapping) - 1) /\
  Forall (fun r => category_id r < Z.of_nat (length mapping) /\
                   exists k, In (k, category_id r) mapping) coco_results.

Definition ids_unmappable (self : FlakeCOCOEvaluator)
    (predictions : list prediction) : Prop :=
  match thing_dataset_id_to_contiguous_id (_metadata self) with
  | Some mapping => unmappable mapping (all_instances predictions)
  | None => True
  end.

(** *** [evaluate_on_dataset]: the timing loop *)

(** The loop's local variables. [ticks] counts the calls of
    [time.perf_counter()] made so far: call number [n] returns [clock n]. *)
Record timing : Type := {
  ticks : nat;
  start_time : Q;
  total_data_time : Q;
  total_compute_time : Q;
  total_eval_time : Q;
  start_data_time : Q;
  evaluator : FlakeCOCOEvaluator;
}.

Inductive loop_result : Type :=
| Completed (st : timing)
| Aborted (idx : nat) (eta : Z) (st : timing).

Section Loop.
Variable clock : nat -> Q.
Variable model : list Z -> list model_output.
Variable total : Z.
Variable max_time_minutes : option Q.

Definition num_warmup : Z := Z.min 5 (total - 1).

(** What one pass of the loop body leaves: the ETA it projected, if it
    reached the reporting branch, and the state before
    [start_data_time] is read again. *)
Definition loop_body (idx : nat) (inputs : list Z) (st : timing)
  : option Z * timing :=
  let i := Z.of_nat idx in
  let n := ticks st in
  let total_data_time := (total_data_time st + (clock n - start_data_time st))%Q in
  let n := S n in
  let '(n, start_time, total_data_time, total_compute_time, total_eval_time) :=
    if i =? num_warmup
    then (S n, clock n, 0%Q, 0%Q, 0%Q)
    else (n, start_time st, total_data_time,
          total_compute_time st, total_eval_time st) in
  let start_compute_time := clock n in
  let outputs := model inputs in
  let total_compute_time :=
    (total_compute_time + (clock (S n) - start_compute_time))%Q in
  let n := S (S n) in
  let start_eval_time := clock n in
  let evaluator := process (evaluator st) inputs outputs in
  let total_eval_time := (total_eval_time + (clock (S n) - start_eval_time))%Q in
  let n := S (S n) in
  let iters_after_start :=
    i + 1 - num_warmup * (if num_warmup <=? i then 1 else 0) in
  let compute_seconds_per_iter :=
    (total_compute_time / inject_Z iters_after_start)%Q in
  let total_seconds_per_iter :=
    ((clock n - start_time) / inject_Z iters_after_start)%Q in
  let n := S n in
  let st' := {| ticks := n; start_time := start_time;
                total_data_time := total_data_time;
                total_compute_time := total_compute_time;
                total_eval_time := total_eval_time;
                start_data_time := start_data_time st;
                evaluator := evaluator |} in
  if ((num_warmup * 2 <=? i) || Qltb 5 compute_seconds_per_iter)%bool then
    (Some (py_int (total_seconds_per_iter * inject_Z (total - i - 1))), st')
  else (None, st').

(** [eta.total_seconds() > 60 * max_time_minutes], with
    [max_time_minutes is not None]. *)
Definition over_budget (eta : option Z) : bool :=
  match eta, max_time_minutes with
  | Some eta, Some ceiling => Qltb (60 * ceiling) (inject_Z eta)
  | _, _ => false
  end.

(** [start_data_time = time.perf_counter()] at the end of a pass. *)
Definition next_pass (st : timing) : timing :=
  {| ticks := S (ticks st); start_time := start_time st;
     total_data_time := total_data_time st;
     total_compute_time := total_compute_time st;
     total_eval_time := total_eval_time st;
     start_data_time := clock (ticks st);
     evaluator := evaluator st |}.

(** [for idx, inputs in enumerate(test_loader)], from index [idx] on. *)
Fixpoint loop (idx : nat) (batches : list (list Z)) (st : timing)
  : loop_result :=
  match batches with
  | [] => Completed st
  | inputs :: rest =>
      let '(eta, st') := loop_body idx inputs st in
      if over_budget eta then Aborted idx (default 0 eta) st'
      else loop (S idx) rest (next_pass st')
  end.

(** The index, the batches still ahead and the state at the start of
    pass [idx + k], had no earlier pass left the loop. *)
Fixpoint run_passes (k idx : nat) (batches : list (list Z)) (st : timing)
  : nat * list (list Z) * timing :=
  match k, batches with
  | S k', inputs :: rest =>
      run_passes k' (S idx) rest (next_pass (snd (loop_body idx inputs st)))
  | _, _ => (idx, batches, st)
  end.

(** The ETA that pass [idx + k] projects, when it reports one. *)
Definition projected_eta (k idx : nat) (batches : list (list Z)) (st : timing)
  : option Z :=
  let '(i, ahead, st') := run_passes k idx batches st in
  match ahead with
  | inputs :: _ => fst (loop_body i inputs st')
  | [] => None
  end.

End Loop.

(** The state at [for idx, inputs in enumerate(test_loader)]: two clock
    reads were made, for [start_time] and for [start_data_time]. *)
Definition loop_start (clock : nat -> Q) (ev : FlakeCOCOEvaluator) : timing :=
  {| ticks := 2; start_time := clock 0%nat;
     total_data_time := 0; total_compute_time := 0; total_eval_time := 0;
     start_data_time := clock 1%nat; evaluator := ev |}.

(** [evaluate_on_dataset]; [test_loader] is the data loader detectron2
    builds for [dataset_name], as the list of its batches (each the image
    ids of its inputs). [None] is Python's [None]. The progress lines it
    prints are not kept. *)
Definition evaluate_on_dataset (clock : nat -> Q)
    (test_loader : string -> list (list Z))
    (model : list Z -> list model_output) (dataset_name : string)
    (max_time_minutes : option Q) : traced event (option results_table) :=
  let batches := test_loader dataset_name in
  ev ← init dataset_name (TasksTuple ["segm"]) false None None [];
  let total := Z.of_nat (length batches) in
  let ev := reset ev in
  match loop clock model total max_time_minutes 0 batches (loop_start clock ev) with
  | Aborted _ _ _ => mret None
  | Completed st => Some <$> evaluate (evaluator st) None
  end.

End WithWorld.
End Evaluator.

(** * Notions used to state further properties of the evaluator *)

From Stdlib Require Import Sorted.

Module Further.
Import Params COCOeval Trace Evaluator.

(** Events that write to the file system. *)
Definition is_file_output (e : event) : Prop :=
  match e with MkDirs _ | WriteFile _ => True | _ => False end.

(** Events that ask for a metric: a call into the COCO engine or a
    proposal recall. *)
Definition is_metric_call (e : event) : Prop :=
  match e with EngineCall _ _ | ProposalRecall _ _ => True | _ => False end.

(** The calls [_evaluate_predictions_on_coco] makes to the engine when
    it runs to its end. *)
Definition engine_calls (iou_type : string) : list event :=
  [ EngineCall "loadRes" iou_type; EngineCall "evaluate" iou_type;
    EngineCall "accumulate" iou_type; EngineCall "summarize" iou_type ].

Section WithWorld.
Context {COCO RLE Proposals Mask : Type}.
Variable w : @world COCO RLE Proposals Mask.

(** A prediction record as [process] keeps it: it has the key
    ["instances"] or the key ["proposals"]. *)
Definition has_content (p : @prediction RLE Proposals) : Prop :=
  is_Some (p_instances p) \/ is_Some (p_proposals p).

(** The body of the loop of [process], for one input/output pair. *)
Definition process_step (self : @FlakeCOCOEvaluator COCO RLE Proposals)
    (pair : Z * @model_output Proposals Mask)
  : @FlakeCOCOEvaluator COCO RLE Proposals :=
  let '(input, output) := pair in
  let prediction :=
    {| p_image_id := input;
       p_instances :=
         (fun i => instances_to_coco_json w i input) <$> out_instances output;
       p_proposals := out_proposals output |} in
  match p_instances prediction, p_proposals prediction with
  | None, None => self
  | _, _ => set_predictions self (_predictions self ++ [prediction])
  end.

(** The evaluator after [process] was called on every batch in turn, with
    the model's outputs for it. *)
Definition process_all (model : list Z -> list (@model_output Proposals Mask))
    (batches : list (list Z)) (ev : @FlakeCOCOEvaluator COCO RLE Proposals)
  : @FlakeCOCOEvaluator COCO RLE Proposals :=
  fold_left (fun ev inputs => process w ev inputs (model inputs)) batches ev.

(** The tasks [_eval_predictions] iterates over, before sorting. *)
Definition tasks_of (self : @FlakeCOCOEvaluator COCO RLE Proposals)
    (coco_results : list (@coco_result RLE)) : list string :=
  match _tasks self with
  | Some (t :: ts) => t :: ts
  | _ => _tasks_from_predictions coco_results
  end.

(** One pass of the loop over the tasks in [_eval_predictions]. *)
Definition eval_task (self : @FlakeCOCOEvaluator COCO RLE Proposals)
    (coco_results : list (@coco_result RLE)) (img_ids : option (list Z))
    (results : results_table) (task : string) : traced event results_table :=
  _ ← assert (known_task task) ("Got unknown task: " +:+ task +:+ "!");
  coco_eval ←
    (if (0 <? length coco_results)%nat then
       Some <$> _evaluate_predictions_on_coco w (_coco_api self)
                  coco_results task (_kpt_oks_sigmas self) img_ids
                  (Some (_max_dets_per_image self))
     else mret None);
  res ← _derive_coco_results coco_eval task (thing_classes (_metadata self));
  mret (<[task := res]> results).

(** The keys of the proposal table, each with the area and the limit it
    is computed for. *)
Definition proposal_keys : list (string * (string * Z)) :=
  [ ("AR@100", ("all", 100)); ("ARs@100", ("small", 100));
    ("ARm@100", ("medium", 100)); ("ARl@100", ("large", 100));
    ("AR@1000", ("all", 1000)); ("ARs@1000", ("small", 1000));
    ("ARm@1000", ("medium", 1000)); ("ARl@1000", ("large", 1000)) ].

(** What [_eval_predictions] logs and writes before it looks at
    [_do_evaluation]. *)
Definition preparation_events (self : @FlakeCOCOEvaluator COCO RLE Proposals)
  : list event :=
  [LogInfo "Preparing results for COCO format ..."] ++
  (if truthy (_output_dir self) then
     [LogInfo ("Saving results to " +:+
               path_join (default "" (_output_dir self))
                         "coco_instances_results.json");
      WriteFile (path_join (default "" (_output_dir self))
                           "coco_instances_results.json")]
   else []).

End WithWorld.

(** Every cell of the tensors is either unset ([-1]) or a precision or
    recall between 0 and 1. *)
Definition cells_in_range (e : eval_arrays) : Prop :=
  (forall t r k a m,
     (precision e t r k a m == -1)%Q \/
     (0 <= precision e t r k a m <= 1)%Q) /\
  (forall t k a m,
     (recall e t k a m == -1)%Q \/ (0 <= recall e t k a m <= 1)%Q).

End Further.

(** * Sample inputs *)

Module Samples.

(** A flake whose mask has no true pixel. *)
Definition zero_flake : FlakeClass.Flake :=
  FlakeClass.init [[false; false; false]; [false; false; false]]
    "2" 0 [] (0%Q, 0%Q) 0 0 0%Q (-1)%Q.

(** A flake whose true pixels span rows 1..2 and columns 1..3. *)
Definition sample_flake : FlakeClass.Flake :=
  FlakeClass.init
    [[false; false; false; false];
     [false; true;  false; true];
     [false; false; true;  false]]
    "2" 3 [10.5%Q; 20%Q; 30%Q] (2%Q, 1.5%Q) 3 2 0%Q (-1)%Q.

Definition sample_int_of_str (s : string) : pyresult Z :=
  if String.eqb s "2" then Ok 2 else Raise ValueError.

(** *** A small world for the evaluator *)

Import Params COCOeval Trace Evaluator.

Definition sample_metadata : metadata :=
  {| json_file := Some "val.json";
     thing_dataset_id_to_contiguous_id := Some [(1, 0); (2, 1)];
     thing_classes := Some ["1-Layer"; "2-Layer"] |}.

(** Tensors of a run with two categories in which nothing was matched in
    the bucket [100-200] and for the second category, and every other
    cell holds one half. *)
Definition sample_arrays : eval_arrays :=
  {| dimT := 10; dimR := 3; dimK := 2; dimA := 5; dimM := 3;
     precision := fun t r k a m =>
       if ((a =? 2) || (k =? 1))%nat then (-1)%Q else 0.5%Q;
     recall := fun t k a m =>
       if ((a =? 2) || (k =? 1))%nat then (-1)%Q else 0.5%Q |}.

(** An evaluation of the task [segm] after [accumulate()]. *)
Definition sample_coco_eval : @FlakeCOCOeval unit :=
  {| cocoGt := Some tt; cocoDt := Some tt; eval := Some sample_arrays;
     params := set_iouType (setDetParams blank) "segm"; stats := [] |}.

Definition sample_class_names : option (list string) :=
  Some ["1-Layer"; "2-Layer"].

(** The table [_derive_coco_results] returns for it. *)
Definition sample_results : option (gmap string pyfloat) :=
  match summarize sample_coco_eval with
  | Ok ce =>
      match outcome (_derive_coco_results (Some ce) "segm" sample_class_names) with
      | Ok results => Some results
      | Raise _ => None
      end
  | Raise _ => None
  end.

Definition sample_accumulate (ce : @FlakeCOCOeval unit)
  : pyresult (@FlakeCOCOeval unit) :=
  Ok {| cocoGt := cocoGt ce; cocoDt := cocoDt ce; eval := Some sample_arrays;
        params := params ce; stats := stats ce |}.

(** One process of a job; [is_main] tells whether it is rank 0, which is
    where [comm.gather] delivers the lists. *)
Definition sample_world (is_main has_annotations : bool)
  : @world unit unit unit unit :=
  {| metadata_catalog := fun _ => sample_metadata;
     load_coco := fun _ => Ok tt;
     dataset_has_key := fun _ key =>
       (String.eqb key "images"
        || (has_annotations && String.eqb key "annotations"))%bool;
     getImgIds := fun _ => [2; 1];
     getCatIds := fun _ => [1; 2];
     loadRes := fun _ _ => Ok tt;
     coco_evaluate := fun ce => Ok ce;
     coco_accumulate := sample_accumulate;
     proposal_recall := fun _ _ _ _ => Ok NaN;
     comm_gather := fun ps => if is_main then [ps] else [];
     comm_is_main_process := is_main;
     encode_mask := fun _ => tt |}.

Definition sample_evaluator (distributed do_evaluation : bool)
    (output_dir : option string) (ps : list (@prediction unit unit))
  : @FlakeCOCOEvaluator unit unit unit :=
  {| _distributed := distributed;
     _output_dir := output_dir;
     _max_dets_per_image := [1; 10; 100];
     _tasks := Some ["segm"];
     _metadata := sample_metadata;
     _coco_api := tt;
     _do_evaluation := do_evaluation;
     _kpt_oks_sigmas := [];
     _predictions := ps |}.

Definition sample_result (img cat : Z) : @coco_result unit :=
  {| image_id := img; category_id := cat;
     bbox := Some [0%Q; 0%Q; 4%Q; 4%Q]; score := 0.9%Q;
     segmentation := Some tt; keypoints := None |}.

Definition sample_predictions : list (@prediction unit unit) :=
  [ {| p_image_id := 1; p_instances := Some [sample_result 1 0; sample_result 1 1];
       p_proposals := None |};
    {| p_image_id := 2; p_instances := Some [sample_result 2 1];
       p_proposals := None |} ].

(** *** A small benchmark run *)

(** A clock that advances ten seconds between two reads. *)
Definition sample_clock (n : nat) : Q := inject_Z (10 * Z.of_nat n).

(** A model that finds one instance of class 0 in every image. *)
Definition sample_model (inputs : list Z) : list (@model_output unit unit) :=
  map (fun _ => {| out_instances :=
                     Some [ {| pred_box := (0%Q, 0%Q, 4%Q, 4%Q);
                               pred_score := 0.9%Q; pred_class := 0;
                               pred_mask := Some tt;
                               pred_keypoints := None |} ];
                   out_proposals := None |}) inputs.

Definition sample_batches : list (list Z) := [[1]; [2]; [3]].

Definition one_batch : list (list Z) := [[1]].

Definition sample_loader (batches : list (list Z)) (dataset_name : string)
  : list (list Z) := batches.

End Samples.

(** * Further sample inputs *)

Module MoreSamples.
Import Params COCOeval Trace Evaluator Samples.

(** A data set that is registered without a COCO file. *)
Definition bare_metadata : metadata :=
  {| json_file := None;
     thing_dataset_id_to_contiguous_id := None;
     thing_classes := None |}.

Definition bare_world : @world unit unit unit unit :=
  {| metadata_catalog := fun _ => bare_metadata;
     load_coco := fun _ => Ok tt;
     dataset_has_key := fun _ key => String.eqb key "images";
     getImgIds := fun _ => [2; 1];
     getCatIds := fun _ => [1; 2];
     loadRes := fun _ _ => Ok tt;
     coco_evaluate := fun ce => Ok ce;
     coco_accumulate := sample_accumulate;
     proposal_recall := fun _ _ _ _ => Ok NaN;
     comm_gather := fun ps => [ps];
     comm_is_main_process := true;
     encode_mask := fun _ => tt |}.

(** The evaluation [FlakeCOCOeval(gt, dt, "segm")] builds on a ground
    truth whose image ids are [2, 1] and whose category ids are [1, 2]. *)
Definition fresh_coco_eval : @FlakeCOCOeval unit :=
  {| cocoGt := Some tt; cocoDt := Some tt; eval := None;
     params := set_catIds
                 (set_imgIds (set_iouType (setDetParams blank) "segm") [1; 2])
                 [1; 2];
     stats := [] |}.

(** [sample_coco_eval] after [summarize()], and the table derived from
    it. *)
Definition sample_summary : @FlakeCOCOeval unit :=
  match summarize sample_coco_eval with
  | Ok ce => ce
  | Raise _ => sample_coco_eval
  end.

Definition sample_table : gmap string pyfloat :=
  default ∅ sample_results.

(** An evaluator that was given the tasks itself. *)
Definition evaluator_with_tasks (tasks : list string)
    (ps : list (@prediction unit unit))
  : @FlakeCOCOEvaluator unit unit unit :=
  {| _distributed := false;
     _output_dir := None;
     _max_dets_per_image := [1; 10; 100];
     _tasks := Some tasks;
     _metadata := sample_metadata;
     _coco_api := tt;
     _do_evaluation := true;
     _kpt_oks_sigmas := [];
     _predictions := ps |}.

(** Two images in which the model found nothing. *)
Definition empty_predictions : list (@prediction unit unit) :=
  [ {| p_image_id := 1; p_instances := Some []; p_proposals := None |};
    {| p_image_id := 2; p_instances := Some []; p_proposals := None |} ].

(** The output of a proposal generator for two images. *)
Definition proposal_predictions : list (@prediction unit unit) :=
  [ {| p_image_id := 1; p_instances := None; p_proposals := Some tt |};
    {| p_image_id := 2; p_instances := None; p_proposals := Some tt |} ].

End MoreSamples.

(** * Properties *)

Import Samples.

(** ** Rounding *)

Section Rounding.

Lemma Qfloor_bounds (x : Q) :
  (inject_Z (Qfloor x) <= x /\ x < inject_Z (Qfloor x) + 1)%Q.
Proof.
  split; [apply Qfloor_le|].
  pose proof (Qlt_floor x) as H.
  rewrite inject_Z_plus in H. exact H.
Qed.

Lemma inject_Z_lt_succ (n f : Z) :
  (inject_Z n < inject_Z f + 1)%Q -> n <= f.
Proof.
  intros H.
  assert (Hlt : (inject_Z n < inject_Z (f + 1))%Q)
    by (rewrite inject_Z_plus; exact H).
  rewrite <- Zlt_Qlt in Hlt. lia.
Qed.

Lemma round_half_even_lower (x : Q) (n : Z) :
  (inject_Z n - (1 # 2) < x)%Q -> n <= round_half_even x.
Proof.
  intros Hx. unfold round_half_even.
  destruct (Qfloor_bounds x) as [Hlo Hhi].
  destruct (Qcompare_spec (x - inject_Z (Qfloor x)) (1 # 2)) as [He|Hl|Hg].
  - assert (n <= Qfloor x) by (apply inject_Z_lt_succ; lra).
    destruct (Z.even (Qfloor x)); lia.
  - apply inject_Z_lt_succ; lra.
  - assert (n <= Qfloor x + 1); [|lia].
    apply inject_Z_lt_succ. rewrite inject_Z_plus. change (inject_Z 1) with 1%Q. lra.
Qed.

Lemma round_half_even_upper (x : Q) (n : Z) :
  (x < inject_Z n + (1 # 2))%Q -> round_half_even x <= n.
Proof.
  intros Hx. unfold round_half_even.
  destruct (Qfloor_bounds x) as [Hlo Hhi].
  assert (Hf : Qfloor x <= n) by (apply inject_Z_lt_succ; lra).
  destruct (Qcompare_spec (x - inject_Z (Qfloor x)) (1 # 2)) as [He|Hl|Hg].
  - assert (Qfloor x + 1 <= n); [|destruct (Z.even (Qfloor x)); lia].
    apply inject_Z_lt_succ. rewrite inject_Z_plus. change (inject_Z 1) with 1%Q. lra.
  - exact Hf.
  - apply inject_Z_lt_succ. rewrite inject_Z_plus. change (inject_Z 1) with 1%Q. lra.
Qed.

End Rounding.

(** ** The Flake container *)

Section NumpyFacts.
Import Np.

Lemma last_cons_default {A} (l : list A) : forall y d d' : A,
  List.last (y :: l) d = List.last (y :: l) d'.
Proof.
  induction l as [|z l IH]; intros y d d'; [reflexivity|].
  change (List.last (y :: z :: l) d) with (List.last (z :: l) d).
  change (List.last (y :: z :: l) d') with (List.last (z :: l) d').
  apply IH.
Qed.

(** What [np.where(v)[0][[0, -1]]] finds: nothing when [v] has no true
    entry, otherwise the least and the greatest index of a true entry. *)
Lemma where_from_first_last (v : list bool) : forall i : nat,
  match where_from i v with
  | [] => forall k, nth k v false = false
  | x :: l =>
      let hi := List.last (x :: l) x in
      (i <= x)%nat /\ (x <= hi)%nat /\
      nth (x - i) v false = true /\
      nth (hi - i) v false = true /\
      forall k, nth k v false = true -> (x <= i + k <= hi)%nat
  end.
Proof.
  induction v as [|b v IH]; intros i; simpl where_from.
  - intros [|k]; reflexivity.
  - specialize (IH (S i)).
    destruct b, (where_from (S i) v) as [|y l'] eqn:Hw; cbv zeta in *.
    + simpl. rewrite Nat.sub_diag. repeat split; try lia; try reflexivity.
      all: destruct k as [|k]; [lia|simpl in H; rewrite IH in H; discriminate].
    + destruct IH as (Hiy & Hyl & Hy & Hl & Hall).
      change (List.last (i :: y :: l') i) with (List.last (y :: l') i).
      rewrite (last_cons_default l' y i y). rewrite Nat.sub_diag.
      assert (Hk : forall k, nth k (true :: v) false = true ->
                 (i <= i + k <= List.last (y :: l') y)%nat).
      { intros [|k] H; [lia|]. simpl in H. apply Hall in H. lia. }
      split; [lia|]. split; [lia|]. split; [reflexivity|]. split; [|exact Hk].
      replace (List.last (y :: l') y - i)%nat
        with (S (List.last (y :: l') y - S i)) by lia.
      exact Hl.
    + intros [|k]; [reflexivity|apply IH].
    + destruct IH as (Hiy & Hyl & Hy & Hl & Hall).
      assert (Hk : forall k, nth k (false :: v) false = true ->
                 (y <= i + k <= List.last (y :: l') y)%nat).
      { intros [|k] H; [discriminate|]. simpl in H. apply Hall in H. lia. }
      split; [lia|]. split; [lia|]. split; [|split; [|exact Hk]].
      * replace (y - i)%nat with (S (y - S i)) by lia. exact Hy.
      * replace (List.last (y :: l') y - i)%nat
          with (S (List.last (y :: l') y - S i)) by lia.
        exact Hl.
Qed.

Lemma existsb_nth_true (row : list bool) :
  existsb (fun b => b) row = true <-> exists c, nth c row false = true.
Proof.
  rewrite existsb_exists. split.
  - intros (b & Hin & ->).
    destruct (In_nth row true false Hin) as (c & _ & Hc). eauto.
  - intros (c & Hc). exists true. split; [|reflexivity].
    destruct (nth_in_or_default c row false) as [Hin|Hd]; congruence.
Qed.

(** Row [r] of [np.any(m, axis=1)] is set exactly when row [r] of the
    mask has a true pixel. *)
Lemma any_axis1_nth (m : ndarray2) (r : nat) :
  nth r (any_axis1 m) false = true <-> exists c, pixel m r c = true.
Proof.
  unfold any_axis1, pixel.
  change false with (existsb (fun b : bool => b) []) at 1.
  rewrite map_nth. apply existsb_nth_true.
Qed.

(** Column [c] of [np.any(m, axis=0)] is set exactly when column [c] of
    the mask has a true pixel. *)
Lemma any_axis0_nth (m : ndarray2) (c : nat) :
  nth c (any_axis0 m) false = true <->
  (c < ncols m)%nat /\ exists r, pixel m r c = true.
Proof.
  unfold any_axis0, pixel.
  destruct (Nat.lt_ge_cases c (ncols m)) as [Hlt|Hge].
  - rewrite (nth_indep _ false
      (existsb (fun row : list bool => nth 0 row false) m))
      by (rewrite length_map, length_seq; exact Hlt).
    rewrite (map_nth (fun j => existsb (fun row => nth j row false) m)).
    rewrite seq_nth by exact Hlt. simpl (0 + c)%nat.
    rewrite existsb_exists. split.
    + intros (row & Hin & Hrow). split; [exact Hlt|].
      destruct (In_nth m row [] Hin) as (r & _ & Hr).
      exists r. rewrite Hr. exact Hrow.
    + intros (_ & r & Hr). exists (nth r m []). split; [|exact Hr].
      destruct (nth_in_or_default r m []) as [Hin|Hd]; [exact Hin|].
      rewrite Hd in Hr. destruct c; discriminate.
  - rewrite nth_overflow by (rewrite length_map, length_seq; exact Hge).
    split; [discriminate|]. intros [Hlt _]. lia.
Qed.

Lemma rectangular_pixel (m : ndarray2) (r c : nat) :
  rectangular m -> pixel m r c = true -> (c < ncols m)%nat.
Proof.
  unfold rectangular, pixel. intros Hrect Hp.
  destruct (nth_in_or_default r m []) as [Hin|Hd].
  - rewrite List.Forall_forall in Hrect. rewrite <- (Hrect _ Hin).
    destruct (Nat.lt_ge_cases c (length (nth r m []))) as [Hlt|Hge]; [exact Hlt|].
    rewrite nth_overflow in Hp by exact Hge. discriminate.
  - rewrite Hd in Hp. destruct c; discriminate.
Qed.

Lemma all_false_pixel (m : ndarray2) (r c : nat) :
  Forall (Forall (fun b => b = false)) m -> pixel m r c = false.
Proof.
  unfold pixel. intros Hz.
  destruct (nth_in_or_default r m []) as [Hin|Hd].
  - rewrite List.Forall_forall in Hz. specialize (Hz _ Hin).
    rewrite List.Forall_forall in Hz.
    destruct (nth_in_or_default c (nth r m []) false) as [Hc|Hc];
      [apply Hz, Hc|exact Hc].
  - rewrite Hd. destruct c; reflexivity.
Qed.

End NumpyFacts.

Section FlakeFacts.
Import Np FlakeClass.
Context {RLE : Type}.
Variable encode : ndarray2 -> RLE.
Variable int_of_str : string -> pyresult Z.

(** The index pair of one axis: an [IndexError] when the occupancy vector
    has no true entry, the least and the greatest true index otherwise. *)
Lemma first_last_where (v : list bool) :
  (first_last (where_ v) = Raise IndexError /\
   forall k, nth k v false = false) \/
  (exists lo hi : nat,
     first_last (where_ v) = Ok (lo, hi) /\ (lo <= hi)%nat /\
     nth lo v false = true /\ nth hi v false = true /\
     forall k, nth k v false = true -> (lo <= k <= hi)%nat).
Proof.
  unfold where_. pose proof (where_from_first_last v 0) as H.
  destruct (where_from 0 v) as [|x l]; [left; split; [reflexivity|exact H]|].
  right. cbv zeta in H. destruct H as (_ & Hle & Hx & Hl & Hall).
  rewrite Nat.sub_0_r in Hx, Hl.
  exists x, (List.last (x :: l) x). repeat split; try assumption.
  all: apply Hall in H; lia.
Qed.

(** C4. On a mask without any true pixel the bounding-box block of
    [to_dict(return_bbox=True)] raises: [np.where(rows)[0]] is empty, so
    taking its entries [0] and [-1] is an [IndexError], and [to_dict]
    propagates it (nothing catches it). *)
Theorem to_dict_bbox_all_zero_raises (self : Flake) :
  Forall (Forall (fun b => b = false)) (mask self) ->
  bbox_of_mask (mask self) = Raise IndexError /\
  raises (to_dict encode int_of_str self true) /\
  (forall t, int_of_str (thickness self) = Ok t ->
     to_dict encode int_of_str self true = Raise IndexError).
Proof.
  intros Hz.
  assert (Hb : bbox_of_mask (mask self) = Raise IndexError).
  { unfold bbox_of_mask.
    destruct (first_last_where (any_axis1 (mask self)))
      as [[-> _]|(lo & hi & _ & _ & Hlo & _)]; [reflexivity|].
    apply any_axis1_nth in Hlo. destruct Hlo as (c & Hc).
    rewrite (all_false_pixel _ _ _ Hz) in Hc. discriminate. }
  split; [exact Hb|]. unfold raises, to_dict. split.
  - destruct (int_of_str (thickness self)) as [t|e]; simpl.
    + rewrite Hb. eexists; reflexivity.
    + eexists; reflexivity.
  - intros t ->. simpl. rewrite Hb. reflexivity.
Qed.

(** C5. On a mask with a true pixel the [bbox] entry of
    [to_dict(return_bbox=True)] is [[cmin, rmin, cmax - cmin, rmax - rmin]]
    where rows [rmin..rmax] and columns [cmin..cmax] are the minimal
    enclosing rectangle of the true pixels: every true pixel lies inside,
    and each of the four border lines carries a true pixel. *)
Theorem to_dict_bbox_minimal_rectangle (self : Flake) (t : Z) :
  rectangular (mask self) ->
  (exists r c, pixel (mask self) r c = true) ->
  int_of_str (thickness self) = Ok t ->
  exists d (rmin rmax cmin cmax : nat),
    to_dict encode int_of_str self true = Ok d /\
    d_bbox d = Some [Z.of_nat cmin; Z.of_nat rmin;
                     Z.of_nat cmax - Z.of_nat cmin;
                     Z.of_nat rmax - Z.of_nat rmin] /\
    (rmin <= rmax)%nat /\ (cmin <= cmax)%nat /\
    (forall r c, pixel (mask self) r c = true ->
       (rmin <= r <= rmax)%nat /\ (cmin <= c <= cmax)%nat) /\
    (exists c, pixel (mask self) rmin c = true) /\
    (exists c, pixel (mask self) rmax c = true) /\
    (exists r, pixel (mask self) r cmin = true) /\
    (exists r, pixel (mask self) r cmax = true).
Proof.
  intros Hrect (r0 & c0 & Hp0) Ht.
  assert (Hrow0 : nth r0 (any_axis1 (mask self)) false = true)
    by (apply any_axis1_nth; eauto).
  assert (Hcol0 : nth c0 (any_axis0 (mask self)) false = true)
    by (apply any_axis0_nth; eauto using rectangular_pixel).
  destruct (first_last_where (any_axis1 (mask self)))
    as [[_ Hnone]|(rmin & rmax & Hr & Hrle & Hrmin & Hrmax & Hrall)];
    [rewrite Hnone in Hrow0; discriminate|].
  destruct (first_last_where (any_axis0 (mask self)))
    as [[_ Hnone]|(cmin & cmax & Hc & Hcle & Hcmin & Hcmax & Hcall)];
    [rewrite Hnone in Hcol0; discriminate|].
  unfold to_dict, bbox_of_mask. rewrite Ht, Hr, Hc. simpl.
  eexists _, rmin, rmax, cmin, cmax.
  split; [reflexivity|]. split; [reflexivity|].
  split; [exact Hrle|]. split; [exact Hcle|]. split.
  - intros r c Hp. split.
    + apply Hrall, any_axis1_nth. eauto.
    + apply Hcall, any_axis0_nth. eauto using rectangular_pixel.
  - apply any_axis1_nth in Hrmin, Hrmax.
    apply any_axis0_nth in Hcmin, Hcmax.
    destruct Hcmin as [_ Hcmin], Hcmax as [_ Hcmax]. auto.
Qed.

End FlakeFacts.

Lemma to_dict_bbox_all_zero_raises_witness :
  FlakeClass.bbox_of_mask (FlakeClass.mask zero_flake) = Raise IndexError /\
  raises (FlakeClass.to_dict (fun m => m) sample_int_of_str zero_flake true) /\
  (forall t, sample_int_of_str (FlakeClass.thickness zero_flake) = Ok t ->
     FlakeClass.to_dict (fun m => m) sample_int_of_str zero_flake true
     = Raise IndexError).
Proof.
  apply (to_dict_bbox_all_zero_raises (fun m => m) sample_int_of_str zero_flake).
  repeat constructor.
Defined.

Lemma to_dict_bbox_minimal_rectangle_witness :
  exists d (rmin rmax cmin cmax : nat),
    FlakeClass.to_dict (fun m => m) sample_int_of_str sample_flake true = Ok d /\
    FlakeClass.d_bbox d = Some [Z.of_nat cmin; Z.of_nat rmin;
                                Z.of_nat cmax - Z.of_nat cmin;
                                Z.of_nat rmax - Z.of_nat rmin] /\
    (rmin <= rmax)%nat /\ (cmin <= cmax)%nat /\
    (forall r c, Np.pixel (FlakeClass.mask sample_flake) r c = true ->
       (rmin <= r <= rmax)%nat /\ (cmin <= c <= cmax)%nat) /\
    (exists c, Np.pixel (FlakeClass.mask sample_flake) rmin c = true) /\
    (exists c, Np.pixel (FlakeClass.mask sample_flake) rmax c = true) /\
    (exists r, Np.pixel (FlakeClass.mask sample_flake) r cmin = true) /\
    (exists r, Np.pixel (FlakeClass.mask sample_flake) r cmax = true).
Proof.
  apply (to_dict_bbox_minimal_rectangle (fun m => m) sample_int_of_str
           sample_flake 2).
  - repeat constructor.
  - exists 1%nat, 1%nat. reflexivity.
  - reflexivity.
Defined.

Example sample_flake_bbox :
  FlakeClass.bbox_of_mask (FlakeClass.mask sample_flake) = Ok [1; 1; 2; 1].
Proof. reflexivity. Qed.

Section AspectRatio.
Import FlakeClass.

Lemma side_ratio_lower (a b : Q) :
  (1 <= b)%Q -> (b <= a)%Q -> (19 # 20 < a / (b + eps))%Q.
Proof.
  intros Hb Hab. unfold eps.
  apply Qlt_shift_div_l; lra.
Qed.

Lemma side_ratio_upper (a : Q) :
  (1 <= a)%Q -> (a / (a + eps) < 1)%Q.
Proof.
  intros Ha. unfold eps.
  apply Qlt_shift_div_r; lra.
Qed.

Lemma inject_Z_ge_1 (m : Z) : 0 < m -> (1 <= inject_Z m)%Q.
Proof.
  intros H. change 1%Q with (inject_Z 1). rewrite <- Zle_Qle. lia.
Qed.

(** C8. A flake built with [max_sidelength = min_sidelength > 0] has
    [aspect_ratio = round(m / (m + 1e-5), 1) = 1.0]. *)
Theorem aspect_ratio_equal_sides
    (msk : Np.ndarray2) (th : string) (sz : Z) (mc : list Q) (ctr : Q * Q)
    (m : Z) (fpp ent : Q) :
  0 < m ->
  (aspect_ratio (init msk th sz mc ctr m m fpp ent) == 1)%Q.
Proof.
  intros Hm. simpl. unfold aspect_ratio_of, py_round.
  change (inject_Z (10 ^ Z.of_nat 1)) with (10 # 1)%Q.
  pose proof (inject_Z_ge_1 m Hm) as H1.
  pose proof (side_ratio_lower _ _ H1 (Qle_refl _)) as Hlo.
  pose proof (side_ratio_upper _ H1) as Hhi.
  set (x := (inject_Z m / (inject_Z m + eps))%Q) in *.
  assert (Hr : round_half_even (x * (10 # 1)) = 10).
  { apply Z.le_antisymm.
    - apply round_half_even_upper. change (inject_Z 10) with (10 # 1)%Q. lra.
    - apply round_half_even_lower. change (inject_Z 10) with (10 # 1)%Q. lra. }
  rewrite Hr. reflexivity.
Qed.

(** C9. A flake built with [0 < min_sidelength <= max_sidelength] has
    [aspect_ratio >= 1]. *)
Theorem aspect_ratio_ge_one
    (msk : Np.ndarray2) (th : string) (sz : Z) (mc : list Q) (ctr : Q * Q)
    (max_side min_side : Z) (fpp ent : Q) :
  0 < min_side -> min_side <= max_side ->
  (1 <= aspect_ratio (init msk th sz mc ctr max_side min_side fpp ent))%Q.
Proof.
  intros Hmin Hle. simpl. unfold aspect_ratio_of, py_round.
  change (inject_Z (10 ^ Z.of_nat 1)) with (10 # 1)%Q.
  pose proof (inject_Z_ge_1 min_side Hmin) as H1.
  assert (Hq : (inject_Z min_side <= inject_Z max_side)%Q)
    by (rewrite <- Zle_Qle; exact Hle).
  pose proof (side_ratio_lower _ _ H1 Hq) as Hlo.
  set (x := (inject_Z max_side / (inject_Z min_side + eps))%Q) in *.
  assert (Hr : 10 <= round_half_even (x * (10 # 1))).
  { apply round_half_even_lower. change (inject_Z 10) with (10 # 1)%Q. lra. }
  apply Qle_shift_div_l; [reflexivity|].
  change (1 * (10 # 1))%Q with (inject_Z 10).
  rewrite <- Zle_Qle. exact Hr.
Qed.

End AspectRatio.

Lemma aspect_ratio_equal_sides_witness :
  (FlakeClass.aspect_ratio
     (FlakeClass.init [[true]] "1" 1 [] (0%Q, 0%Q) 7 7 0%Q (-1)%Q) == 1)%Q.
Proof.
  apply (aspect_ratio_equal_sides [[true]] "1" 1 [] (0%Q, 0%Q) 7 0%Q (-1)%Q).
  lia.
Defined.

Lemma aspect_ratio_ge_one_witness :
  (1 <= FlakeClass.aspect_ratio
          (FlakeClass.init [[true]] "1" 1 [] (0%Q, 0%Q) 9 4 0%Q (-1)%Q))%Q.
Proof.
  apply (aspect_ratio_ge_one [[true]] "1" 1 [] (0%Q, 0%Q) 9 4 0%Q (-1)%Q); lia.
Defined.

Example aspect_ratio_9_4 :
  FlakeClass.aspect_ratio_of 9 4 = (22 # 10)%Q.
Proof. vm_compute. reflexivity. Qed.

(** ** The evaluation parameters *)

Section ParamsFacts.
Import Params.

(** C6. The parameters define five area buckets, labelled [all], [0-100],
    [100-200], [200-400], [400-inf]; the pixel bounds are the nm² bounds
    100, 200 and 400 times [1 / 0.3844²], truncated to an integer, that is
    676, 1353 and 2707; [all] and [400-inf] reach up to [1e10]. *)
Theorem area_buckets_in_nm2 (iou_type : string) :
  iou_type = "segm" \/ iou_type = "bbox" ->
  exists p b100 b200 b400,
    Params.init iou_type = Ok p /\
    areaRngLbl p = ["all"; "0-100"; "100-200"; "200-400"; "400-inf"] /\
    areaRng p = [ (0%Q, inject_Z (10 ^ 10));
                  (0%Q, inject_Z b100);
                  (inject_Z b100, inject_Z b200);
                  (inject_Z b200, inject_Z b400);
                  (inject_Z b400, inject_Z (10 ^ 10)) ] /\
    length (areaRng p) = 5%nat /\
    (conversion_factor == 1 / (0.3844 ^ 2))%Q /\
    b100 = py_int (100 * conversion_factor) /\
    b200 = py_int (200 * conversion_factor) /\
    b400 = py_int (400 * conversion_factor) /\
    (inject_Z b100 <= 100 * conversion_factor < inject_Z b100 + 1)%Q /\
    (inject_Z b200 <= 200 * conversion_factor < inject_Z b200 + 1)%Q /\
    (inject_Z b400 <= 400 * conversion_factor < inject_Z b400 + 1)%Q /\
    b100 = 676 /\ b200 = 1353 /\ b400 = 2707.
Proof.
  intros [-> | ->]; eexists _, 676, 1353, 2707.
  all: repeat split; try reflexivity.
  all: vm_compute; first [reflexivity | discriminate].
Qed.

End ParamsFacts.

Lemma area_buckets_in_nm2_witness :
  exists p b100 b200 b400,
    Params.init "segm" = Ok p /\
    Params.areaRngLbl p = ["all"; "0-100"; "100-200"; "200-400"; "400-inf"] /\
    Params.areaRng p = [ (0%Q, inject_Z (10 ^ 10));
                  (0%Q, inject_Z b100);
                  (inject_Z b100, inject_Z b200);
                  (inject_Z b200, inject_Z b400);
                  (inject_Z b400, inject_Z (10 ^ 10)) ] /\
    length (Params.areaRng p) = 5%nat /\
    (Params.conversion_factor == 1 / (0.3844 ^ 2))%Q /\
    b100 = py_int (100 * Params.conversion_factor) /\
    b200 = py_int (200 * Params.conversion_factor) /\
    b400 = py_int (400 * Params.conversion_factor) /\
    (inject_Z b100 <= 100 * Params.conversion_factor < inject_Z b100 + 1)%Q /\
    (inject_Z b200 <= 200 * Params.conversion_factor < inject_Z b200 + 1)%Q /\
    (inject_Z b400 <= 400 * Params.conversion_factor < inject_Z b400 + 1)%Q /\
    b100 = 676 /\ b200 = 1353 /\ b400 = 2707.
Proof.
  apply (area_buckets_in_nm2 "segm"). left. reflexivity.
Defined.

(** ** Traced computations *)

Section TraceFacts.
Import Trace.
Context {E : Type}.

Lemma outcome_bind {A B} (m : traced E A) (k : A -> traced E B) :
  outcome (m ≫= k) =
  match outcome m with Ok a => outcome (k a) | Raise e => Raise e end.
Proof.
  unfold mbind, traced_bind, bind. destruct m as [[a|e] t]; simpl;
    [destruct (k a)|]; reflexivity.
Qed.

Lemma events_bind {A B} (m : traced E A) (k : A -> traced E B) :
  events (m ≫= k) =
  match outcome m with
  | Ok a => events m ++ events (k a)
  | Raise _ => events m
  end.
Proof.
  unfold mbind, traced_bind, bind. destruct m as [[a|e] t]; simpl;
    [destruct (k a)|]; reflexivity.
Qed.

Lemma bind_silent_ok {A B} (m : traced E A) (a : A) (k : A -> traced E B) :
  silent_ok m a -> m ≫= k = k a.
Proof.
  unfold silent_ok. intros ->. unfold mbind, traced_bind, bind.
  destruct (k a). reflexivity.
Qed.

Lemma bind_emit {B} (e : E) (k : unit -> traced E B) :
  emit e ≫= k = Traced (outcome (k tt)) (e :: events (k tt)).
Proof.
  unfold mbind, traced_bind, bind, emit. destruct (k tt). reflexivity.
Qed.

Lemma emits_only_bind {A B} (P : E -> Prop) (m : traced E A)
    (k : A -> traced E B) :
  emits_only P m -> (forall a, emits_only P (k a)) -> emits_only P (m ≫= k).
Proof.
  unfold emits_only. intros Hm Hk. rewrite events_bind.
  destruct (outcome m) as [a|e]; [|exact Hm].
  apply Forall_app. split; [exact Hm|apply Hk].
Qed.

Lemma emits_only_silent {A} (P : E -> Prop) (m : traced E A) :
  events m = [] -> emits_only P m.
Proof. unfold emits_only. intros ->. constructor. Qed.

Lemma emits_only_emit (P : E -> Prop) (e : E) : P e -> emits_only P (emit e).
Proof. intros H. repeat constructor. exact H. Qed.

Lemma quiet_bind {A B} (m : traced E A) (k : A -> traced E B) :
  events m = [] -> (forall a, events (k a) = []) -> events (m ≫= k) = [].
Proof.
  intros Hm Hk. rewrite events_bind, Hm.
  destruct (outcome m); [apply Hk|reflexivity].
Qed.

Lemma mapM_cons {A B} (f : A -> traced E B) (x : A) (l : list A) :
  mapM f (x :: l) = (y ← f x; k ← mapM f l; mret (y :: k)).
Proof. reflexivity. Qed.

Lemma events_mapM {A B} (f : A -> traced E B) (l : list A) :
  (forall a, events (f a) = []) -> events (mapM f l) = [].
Proof.
  intros Hf. induction l as [|x l IH]; [reflexivity|].
  rewrite mapM_cons, events_bind, Hf.
  destruct (outcome (f x)); [|reflexivity].
  rewrite events_bind, IH. destruct (outcome (mapM f l)); reflexivity.
Qed.

Lemma mapM_silent_ok {A B} (f : A -> traced E B) (l : list A) :
  Forall (fun a => exists b, silent_ok (f a) b) l ->
  exists bs, silent_ok (mapM f l) bs.
Proof.
  unfold silent_ok. induction 1 as [|x l [b Hb] _ [bs IH]].
  - exists []. reflexivity.
  - exists (b :: bs). rewrite mapM_cons, Hb, IH. reflexivity.
Qed.

End TraceFacts.

(** ** Numbers reported for buckets without a valid cell *)

Section ListFacts.

Lemma mapM_pyresult_ok {A B} (f : A -> pyresult B) (P : A -> B -> Prop)
    (l : list A) :
  Forall (fun x => exists y, f x = Ok y /\ P x y) l ->
  exists ys, mapM f l = Ok ys /\ Forall2 P l ys.
Proof.
  induction 1 as [|x l (y & Hy & HP) _ (ys & Hys & HF)].
  - exists []. split; [reflexivity|constructor].
  - exists (y :: ys). split; [|constructor; assumption].
    change (mapM f (x :: l)) with (b ← f x; k ← mapM f l; mret (b :: k)).
    rewrite Hy, Hys. reflexivity.
Qed.

Lemma where_from_In (v : list bool) : forall i j : nat,
  In j (Np.where_from i v) ->
  (i <= j)%nat /\ v !! (j - i)%nat = Some true.
Proof.
  induction v as [|b v IH]; intros i j; simpl; [tauto|].
  destruct b; simpl.
  - intros [<-|Hin].
    + rewrite Nat.sub_diag. split; [lia|reflexivity].
    + apply IH in Hin as [Hle Hj]. split; [lia|].
      replace (j - i)%nat with (S (j - S i)) by lia. exact Hj.
  - intros Hin. apply IH in Hin as [Hle Hj]. split; [lia|].
    replace (j - i)%nat with (S (j - S i)) by lia. exact Hj.
Qed.

Lemma where_from_complete (v : list bool) : forall i k : nat,
  v !! k = Some true -> In (i + k)%nat (Np.where_from i v).
Proof.
  induction v as [|b v IH]; intros i k Hk; [discriminate|].
  destruct k as [|k]; simpl in *.
  - inversion Hk; subst. left. lia.
  - apply (IH (S i)) in Hk. replace (i + S k)%nat with (S i + k)%nat by lia.
    destruct b; [right|]; exact Hk.
Qed.

(** [indices_where f l] lists exactly the positions of [l] whose entry
    passes [f]. *)
Lemma indices_where_In {A} (f : A -> bool) (l : list A) (i : nat) :
  In i (indices_where f l) <-> exists x, l !! i = Some x /\ f x = true.
Proof.
  unfold indices_where, Np.where_. split.
  - intros Hin. apply where_from_In in Hin as [_ Hi].
    rewrite Nat.sub_0_r, list_lookup_fmap in Hi.
    destruct (l !! i) as [x|]; [|discriminate].
    exists x. split; [reflexivity|]. simpl in Hi. congruence.
  - intros (x & Hx & Hf).
    apply (where_from_complete _ 0%nat i).
    rewrite list_lookup_fmap, Hx. simpl. rewrite Hf. reflexivity.
Qed.

Lemma check_bounds_ok (n : nat) (idx : list nat) :
  Forall (fun i => (i < n)%nat) idx -> COCOeval.check_bounds n idx = Ok tt.
Proof.
  intros H. unfold COCOeval.check_bounds.
  rewrite (proj2 (forallb_forall _ _)); [reflexivity|].
  intros i Hi. rewrite List.Forall_forall in H.
  apply Nat.ltb_lt, H, Hi.
Qed.

Lemma valid_entries_unset (s : list Q) :
  Forall (fun x => (x <= -1)%Q) s -> COCOeval.valid_entries s = [].
Proof.
  unfold COCOeval.valid_entries.
  induction 1 as [|x s Hx _ IH]; [reflexivity|].
  rewrite filter_cons. destruct (decide _) as [Hv|_]; [|exact IH].
  unfold Qltb in Hv. apply negb_true_iff in Hv.
  apply Qle_bool_iff in Hx. congruence.
Qed.

End ListFacts.

Section SummarizeFacts.
Import Params COCOeval Evaluator.

Lemma iou_slices_ok (p : FlakeParams) (e : eval_arrays) (iouThr : option Q) :
  dimT e = length (iouThrs p) ->
  exists ts, iou_slices p e iouThr = Ok ts /\
             Forall (iou_selected p e iouThr) ts.
Proof.
  intros HT. destruct iouThr as [q|]; simpl.
  - assert (Hsel : Forall (iou_selected p e (Some q)) (iou_where p q)).
    { apply List.Forall_forall. intros t Ht.
      apply indices_where_In in Ht as (q' & Hq' & Heq).
      exists q'. split; [exact Hq'|]. apply Qeq_bool_iff, Heq. }
    exists (iou_where p q). split; [|exact Hsel].
    rewrite check_bounds_ok; [reflexivity|].
    eapply Forall_impl; [exact Hsel|].
    intros t (q' & Hq' & _). rewrite HT. eapply lookup_lt_Some, Hq'.
  - exists (seq 0 (dimT e)). split; [reflexivity|].
    apply List.Forall_forall. intros t Ht. apply in_seq in Ht. simpl. lia.
Qed.

Lemma broadcast_singleton (a : nat) (mind : list nat) :
  exists pairs, broadcast_pairs [a] mind = Ok pairs /\
                forall a' m, In (a', m) pairs -> a' = a /\ In m mind.
Proof.
  unfold broadcast_pairs. destruct (_ =? _)%nat eqn:Hlen.
  - destruct mind as [|m [|? ?]]; try discriminate.
    exists [(a, m)]. split; [reflexivity|].
    intros a' m' [Heq|[]]. inversion Heq; subst. split; [reflexivity|left; reflexivity].
  - exists (map (fun m => (a, m)) mind). split; [reflexivity|].
    intros a' m Hin. apply in_map_iff in Hin as (m' & Heq & Hm).
    inversion Heq; subst. split; [reflexivity|exact Hm].
Qed.

Lemma area_index (area : string) :
  In area flake_labels ->
  exists a, indices_where (String.eqb area) flake_labels = [a] /\
            (a < 5)%nat.
Proof.
  intros Hin. repeat (destruct Hin as [<-|Hin]; [eexists; split; [reflexivity|lia]|]).
  destruct Hin.
Qed.

(** A call of [_summarize] on well-shaped tensors returns, and it returns
    [-1] when none of the cells it reads is valid. *)
Lemma summarize_call (p : FlakeParams) (e : eval_arrays)
    (names : option (list string)) (ap : Z) (iouThr : option Q)
    (area : string) (top : Z) :
  well_shaped p e names -> areaRngLbl p = flake_labels ->
  Params.maxDets p !! 2%nat = Some top -> In area flake_labels ->
  exists v, _summarize p e ap iouThr area top = Ok v /\
            (stat_cells_unset p e ap iouThr area -> v = (-1)%Q).
Proof.
  intros (HT & HA & HM & H3 & HK) Hlbl Htop Harea. unfold _summarize.
  destruct (iou_slices_ok p e iouThr HT) as (ts & -> & Hts).
  rewrite Hlbl. destruct (area_index area Harea) as (a & Hidx & Ha).
  rewrite Hidx.
  assert (Ha_lbl : areaRngLbl p !! a = Some area).
  { assert (Hin : In a (indices_where (String.eqb area) flake_labels))
      by (rewrite Hidx; left; reflexivity).
    apply indices_where_In in Hin as (x & Hx & Heq).
    apply String.eqb_eq in Heq. rewrite Hlbl. congruence. }
  destruct (broadcast_singleton a (indices_where (Z.eqb top) (Params.maxDets p)))
    as (pairs & -> & Hpairs).
  assert (Hm : forall a' m, In (a', m) pairs ->
             a' = a /\ Params.maxDets p !! m = Some top).
  { intros a' m Hin. apply Hpairs in Hin as [-> Hin]. split; [reflexivity|].
    apply indices_where_In in Hin as (x & Hx & Heq).
    apply Z.eqb_eq in Heq. congruence. }
  simpl. rewrite !check_bounds_ok.
  3:{ apply List.Forall_forall. intros m Hin.
      apply in_map_iff in Hin as ([a' m'] & <- & Hin). simpl.
      apply Hm in Hin as [_ Hin]. rewrite HM. eapply lookup_lt_Some, Hin. }
  2:{ apply List.Forall_forall. intros a' Hin.
      apply in_map_iff in Hin as ([a'' m'] & <- & Hin). simpl.
      apply Hm in Hin as [-> _]. rewrite HA, Hlbl. exact Ha. }
  simpl. destruct (_ =? 0)%nat eqn:Hlen; eexists; (split; [reflexivity|]).
  - reflexivity.
  - intros Hunset. exfalso. apply Nat.eqb_neq in Hlen. apply Hlen.
    rewrite valid_entries_unset; [reflexivity|].
    apply List.Forall_forall. intros x Hx. apply list_elem_of_In in Hx.
    unfold stat_cells_unset in Hunset.
    rewrite List.Forall_forall in Hts.
    destruct (ap =? 1).
    + unfold select_precision in Hx.
      apply list_elem_of_bind in Hx as (t & Hx & Ht).
      apply list_elem_of_bind in Hx as (r & Hx & Hr).
      apply list_elem_of_bind in Hx as (k & Hx & Hk).
      apply list_elem_of_bind in Hx as ([a' m] & Hx & Hp).
      apply list_elem_of_singleton in Hx. subst x.
      apply list_elem_of_In in Ht, Hr, Hk, Hp.
      apply in_seq in Hr, Hk. apply Hm in Hp as [-> Hp].
      apply (Hunset t k a m top); auto; lia.
    + unfold select_recall in Hx.
      apply list_elem_of_bind in Hx as (t & Hx & Ht).
      apply list_elem_of_bind in Hx as (k & Hx & Hk).
      apply list_elem_of_bind in Hx as ([a' m] & Hx & Hp).
      apply list_elem_of_singleton in Hx. subst x.
      apply list_elem_of_In in Ht, Hk, Hp.
      apply in_seq in Hk. apply Hm in Hp as [-> Hp].
      apply (Hunset t k a m top); auto; lia.
Qed.

Lemma stat_calls_areas :
  Forall (fun c : Z * option Q * string => In c.2 flake_labels) stat_calls.
Proof.
  unfold stat_calls.
  repeat (apply List.Forall_cons; [simpl; tauto|]). apply List.Forall_nil.
Qed.

(** [_summarizeDets] returns the thirty numbers; the number of a call
    whose cells are all unset is [-1]. *)
Lemma summarizeDets_ok (p : FlakeParams) (e : eval_arrays)
    (names : option (list string)) :
  well_shaped p e names -> areaRngLbl p = flake_labels ->
  exists stats,
    _summarizeDets p e = Ok stats /\
    Forall2 (fun (c : Z * option Q * string) v =>
               stat_cells_unset p e c.1.1 c.1.2 c.2 -> v = (-1)%Q)
            stat_calls stats.
Proof.
  intros Hshape Hlbl. unfold _summarizeDets.
  assert (Htop : exists top, Params.maxDets p !! 2%nat = Some top).
  { destruct Hshape as (_ & _ & _ & H3 & _).
    apply lookup_lt_is_Some_2. lia. }
  destruct Htop as [top Htop].
  apply mapM_pyresult_ok.
  eapply Forall_impl; [exact stat_calls_areas|].
  intros [[ap thr] area] Harea. simpl in Harea.
  destruct (summarize_call p e names ap thr area top Hshape Hlbl Htop Harea)
    as (v & Hv & Hunset).
  exists v. split; [|exact Hunset].
  unfold py_index. rewrite Htop. exact Hv.
Qed.

End SummarizeFacts.

Section UpdateFacts.
Import Evaluator.

Lemma update_all_snoc (base : gmap string pyfloat)
    (kvs : list (string * pyfloat)) (k : string) (v : pyfloat) :
  update_all base (kvs ++ [(k, v)]) = <[k := v]> (update_all base kvs).
Proof. unfold update_all. rewrite fold_left_app. reflexivity. Qed.

(** A key no pair writes keeps its value. *)
Lemma update_all_other (base : gmap string pyfloat)
    (kvs : list (string * pyfloat)) (k : string) :
  (forall v, ~ In (k, v) kvs) -> update_all base kvs !! k = base !! k.
Proof.
  induction kvs as [|[k1 v1] kvs IH] using rev_ind; intros Hk; [reflexivity|].
  rewrite update_all_snoc, lookup_insert_ne.
  - apply IH. intros v Hin. apply (Hk v), in_or_app. left. exact Hin.
  - intros ->. apply (Hk v1), in_or_app. right. left. reflexivity.
Qed.

(** A key that is written, and only ever with [v], ends up as [v]. *)
Lemma update_all_written (base : gmap string pyfloat)
    (kvs : list (string * pyfloat)) (k : string) (v : pyfloat) :
  In (k, v) kvs -> (forall v', In (k, v') kvs -> v' = v) ->
  update_all base kvs !! k = Some v.
Proof.
  induction kvs as [|[k1 v1] kvs IH] using rev_ind; intros Hin Hall;
    [destruct Hin|].
  rewrite update_all_snoc. destruct (decide (k1 = k)) as [->|Hne].
  - rewrite (Hall v1) by (apply in_or_app; right; left; reflexivity).
    apply lookup_insert_eq.
  - rewrite lookup_insert_ne by exact Hne. apply IH.
    + apply in_app_or in Hin as [Hin|[Heq|[]]]; [exact Hin|congruence].
    + intros v' Hv'. apply Hall, in_or_app. left. exact Hv'.
Qed.

Lemma combine_lookup_In {A B} (ks : list A) (vs : list B) (i : nat)
    (k : A) (v : B) :
  ks !! i = Some k -> vs !! i = Some v -> In (k, v) (combine ks vs).
Proof.
  revert vs i. induction ks as [|k0 ks IH]; intros [|v0 vs] [|i]; simpl;
    try discriminate.
  - intros [= ->] [= ->]. left. reflexivity.
  - intros Hk Hv. right. eapply IH; eassumption.
Qed.

Lemma combine_NoDup_functional {A B} (ks : list A) (vs : list B)
    (k : A) (v v' : B) :
  NoDup ks -> In (k, v) (combine ks vs) -> In (k, v') (combine ks vs) -> v = v'.
Proof.
  intros Hnd. revert vs. induction Hnd as [|k0 ks Hnot _ IH]; intros [|v0 vs];
    simpl; try tauto.
  intros [Heq|Hin] [Heq'|Hin'].
  - congruence.
  - inversion Heq; subst. apply in_combine_l in Hin'.
    apply list_elem_of_In in Hin'. contradiction.
  - inversion Heq'; subst. apply in_combine_l in Hin.
    apply list_elem_of_In in Hin. contradiction.
  - eapply IH; eassumption.
Qed.

Lemma py_index_lookup {A} (l : list A) (i : nat) (x : A) :
  l !! i = Some x -> py_index l i = Ok x.
Proof. unfold py_index. intros ->. reflexivity. Qed.

(** The standard numbers of [_derive_coco_results]. *)
Lemma standard_metrics_ok (stats : list Q) (n : nat) :
  (n <= length stats)%nat ->
  mapM (fun idx => s ← py_index stats idx; mret (standard_metric s))
       (seq 0 n)
  = Ok (map standard_metric (take n stats)).
Proof.
  intros Hn.
  assert (Hgen : forall i, (i + n <= length stats)%nat ->
            mapM (fun idx => s ← py_index stats idx; mret (standard_metric s))
                 (seq i n)
            = Ok (map standard_metric (take n (drop i stats)))).
  { clear Hn. induction n as [|n IH]; intros i Hi; [reflexivity|].
    destruct (lookup_lt_is_Some_2 stats i) as [s Hs]; [lia|].
    simpl seq.
    change (mapM ?f (i :: ?l)) with (b ← f i; k ← mapM f l; mret (b :: k)).
    cbv beta. rewrite (py_index_lookup _ _ _ Hs), IH by lia. simpl.
    rewrite (drop_S _ _ _ Hs). reflexivity. }
  rewrite (Hgen 0%nat) by lia. rewrite drop_0. reflexivity.
Qed.

End UpdateFacts.

Section KeyFacts.
Import Evaluator.

Lemma append_nil (s : string) : "" +:+ s = s.
Proof. reflexivity. Qed.

Lemma append_cons (a : Ascii.ascii) (p s : string) :
  String a p +:+ s = String a (p +:+ s).
Proof. reflexivity. Qed.

Lemma has_underscore_app (p c : string) :
  has_underscore (p +:+ "_" +:+ c) = true.
Proof.
  induction p as [|a p IH]; [reflexivity|].
  rewrite append_cons. simpl. rewrite IH. apply orb_true_r.
Qed.

(** A key splits at its first underscore into prefix and class name. *)
Lemma key_split (p p' c c' : string) :
  has_underscore p = false -> has_underscore p' = false ->
  p +:+ "_" +:+ c = p' +:+ "_" +:+ c' -> p = p' /\ c = c'.
Proof.
  revert p'. induction p as [|a p IH]; intros [|a' p'] Hp Hp' Heq.
  all: rewrite ?append_cons, ?append_nil in Heq.
  - inversion Heq. split; reflexivity.
  - inversion Heq; subst. simpl in Hp'. discriminate.
  - inversion Heq; subst. simpl in Hp. discriminate.
  - inversion Heq; subst. simpl in Hp, Hp'.
    apply orb_false_iff in Hp as [_ Hp], Hp' as [_ Hp'].
    destruct (IH p' Hp Hp' H1) as [-> ->]. split; reflexivity.
Qed.

Lemma prefixes_distinct_true : prefixes_distinct = true.
Proof. vm_compute. reflexivity. Qed.

Lemma loop_choice_of (mode : string) (thr : option Q) (a : nat) (l : string) :
  In mode ["AP"; "AR"] -> In thr [Some 0.5%Q; None] ->
  flake_labels !! a = Some l ->
  exists c, In c loop_choices /\ key_prefix mode thr a l = choice_prefix c /\
            mode = (if c.1.1 then "AP" else "AR") /\
            thr = (if c.1.2 then Some 0.5%Q else None) /\ a = c.2.
Proof.
  intros Hm Ht Ha.
  assert (Hlt : (a < 5)%nat) by (apply lookup_lt_Some in Ha; exact Ha).
  assert (Hmb : exists mb : bool, mode = if mb then "AP" else "AR").
  { destruct Hm as [<-|[<-|[]]]; [exists true|exists false]; reflexivity. }
  assert (Htb : exists tb : bool, thr = if tb then Some 0.5%Q else None).
  { destruct Ht as [<-|[<-|[]]]; [exists true|exists false]; reflexivity. }
  destruct Hmb as [mb ->], Htb as [tb ->].
  exists (mb, tb, a). unfold choice_prefix. simpl. rewrite Ha. simpl.
  split; [|repeat split].
  clear Hm Ht Ha. unfold loop_choices.
  destruct mb, tb; do 5 (destruct a as [|a]; [simpl; tauto|]); lia.
Qed.

(** The twenty prefixes of the loop nest: none has an underscore, and
    they are pairwise different. *)
Lemma key_prefix_facts (mode mode' : string) (thr thr' : option Q)
    (a a' : nat) (l l' : string) :
  In mode ["AP"; "AR"] -> In mode' ["AP"; "AR"] ->
  In thr [Some 0.5%Q; None] -> In thr' [Some 0.5%Q; None] ->
  flake_labels !! a = Some l -> flake_labels !! a' = Some l' ->
  has_underscore (key_prefix mode thr a l) = false /\
  (key_prefix mode thr a l = key_prefix mode' thr' a' l' ->
   mode = mode' /\ thr = thr' /\ a = a' /\ l = l').
Proof.
  intros Hm Hm' Ht Ht' Ha Ha'.
  destruct (loop_choice_of mode thr a l Hm Ht Ha)
    as (c & Hc & -> & Hmode & Hthr & Hidx).
  destruct (loop_choice_of mode' thr' a' l' Hm' Ht' Ha')
    as (c' & Hc' & -> & Hmode' & Hthr' & Hidx').
  pose proof prefixes_distinct_true as Hall. unfold prefixes_distinct in Hall.
  rewrite forallb_forall in Hall. specialize (Hall c Hc).
  apply andb_true_iff in Hall as [Hus Hall].
  split; [apply negb_true_iff, Hus|].
  intros Hkey. rewrite forallb_forall in Hall. specialize (Hall c' Hc').
  rewrite Hkey, String.eqb_refl in Hall. simpl in Hall.
  apply bool_decide_eq_true in Hall. subst c'.
  subst. repeat split. congruence.
Qed.

End KeyFacts.

Section ClassFacts.
Import Params COCOeval Evaluator.

(** The passes of the per-category loop nest. *)
Lemma class_loop_In (names : list string) (p : FlakeParams)
    (mode : string) (a : nat) (l : string) (thr : option Q)
    (ci : nat) (cname : string) :
  In (mode, a, l, thr, ci, cname) (class_loop names p) <->
  In mode ["AP"; "AR"] /\ areaRngLbl p !! a = Some l /\
  In thr [Some 0.5%Q; None] /\ names !! ci = Some cname.
Proof.
  unfold class_loop. rewrite <- list_elem_of_In. split.
  - intros H.
    apply list_elem_of_bind in H as (mode' & H & Hm).
    apply list_elem_of_bind in H as ([a' l'] & H & Ha).
    apply list_elem_of_bind in H as (thr' & H & Ht).
    apply list_elem_of_bind in H as ([ci' cname'] & H & Hc).
    apply list_elem_of_singleton in H. inversion H; subst.
    apply elem_of_lookup_imap in Ha as (i & y & [= -> ->] & Ha).
    apply elem_of_lookup_imap in Hc as (j & z & [= -> ->] & Hc).
    apply list_elem_of_In in Hm, Ht. auto.
  - intros (Hm & Ha & Ht & Hc).
    apply list_elem_of_bind. exists mode. split; [|apply list_elem_of_In, Hm].
    apply list_elem_of_bind. exists (a, l). split.
    2:{ apply elem_of_lookup_imap. eauto. }
    apply list_elem_of_bind. exists thr. split; [|apply list_elem_of_In, Ht].
    apply list_elem_of_bind. exists (ci, cname). split.
    2:{ apply elem_of_lookup_imap. eauto. }
    apply list_elem_of_singleton. reflexivity.
Qed.

(** One pass of the per-category loop on well-shaped tensors stores a
    value under its key, and the value is NaN when none of the cells it
    reads is valid. *)
Lemma class_entry_ok (p : FlakeParams) (e : eval_arrays)
    (names : list string) (mode : string) (a : nat) (l : string)
    (thr : option Q) (ci : nat) (cname : string) :
  well_shaped p e (Some names) ->
  In mode ["AP"; "AR"] -> areaRngLbl p !! a = Some l ->
  names !! ci = Some cname ->
  exists v, class_entry p e mode a l thr ci cname
            = Ok (result_key mode thr a l cname, v) /\
            (class_cells_unset e p mode thr ci a -> v = NaN).
Proof.
  intros (HT & HA & HM & H3 & HK) Hm Ha Hc. simpl in HK.
  unfold class_entry, class_slice.
  destruct (iou_slices_ok p e thr HT) as (ts & -> & Hts). simpl.
  rewrite !check_bounds_ok.
  2:{ repeat constructor. apply lookup_lt_Some in Hc. lia. }
  2:{ repeat constructor. rewrite HA. eapply lookup_lt_Some, Ha. }
  2:{ repeat constructor. lia. }
  simpl. rewrite List.Forall_forall in Hts.
  destruct Hm as [<-|[<-|[]]]; simpl.
  - eexists. split; [reflexivity|]. intros Hunset.
    rewrite valid_entries_unset; [reflexivity|].
    apply List.Forall_forall. intros x Hx. apply list_elem_of_In in Hx.
    apply list_elem_of_bind in Hx as (t & Hx & Ht).
    apply list_elem_of_bind in Hx as (r & Hx & Hr).
    apply list_elem_of_singleton in Hx. subst x.
    apply list_elem_of_In in Ht, Hr. apply in_seq in Hr.
    apply (Hunset t (Hts t Ht) r). lia.
  - eexists. split; [reflexivity|]. intros Hunset.
    rewrite valid_entries_unset; [reflexivity|].
    apply List.Forall_forall. intros x Hx. apply list_elem_of_In in Hx.
    apply list_elem_of_bind in Hx as (t & Hx & Ht).
    apply list_elem_of_singleton in Hx. subst x.
    apply list_elem_of_In in Ht.
    apply (Hunset t (Hts t Ht)).
Qed.

(** The pairs the per-category loop stores, pass by pass. *)
Lemma class_entries_ok (p : FlakeParams) (e : eval_arrays)
    (names : list string) :
  well_shaped p e (Some names) ->
  exists kvs,
    class_entries names p e = Ok kvs /\
    Forall2 (fun (c : string * nat * string * option Q * nat * string) kv =>
               let '(mode, a, l, thr, ci, cname) := c in
               kv.1 = result_key mode thr a l cname /\
               (class_cells_unset e p mode thr ci a -> kv.2 = NaN))
            (class_loop names p) kvs.
Proof.
  intros Hshape. unfold class_entries. apply mapM_pyresult_ok.
  apply List.Forall_forall. intros [[[[[mode a] l] thr] ci] cname] Hin.
  apply class_loop_In in Hin as (Hm & Ha & Ht & Hc).
  destruct (class_entry_ok p e names mode a l thr ci cname Hshape Hm Ha Hc)
    as (v & Hv & Hunset).
  exists (result_key mode thr a l cname, v). split; [exact Hv|].
  split; [reflexivity|exact Hunset].
Qed.

End ClassFacts.

Section DeriveFacts.
Import Params COCOeval Trace Evaluator.
Context {COCO : Type}.

Lemma Forall2_In_l {A B} (P : A -> B -> Prop) (l : list A) (k : list B)
    (x : A) :
  Forall2 P l k -> In x l -> exists y, In y k /\ P x y.
Proof.
  induction 1 as [|a b l k Hab _ IH]; intros Hin; [destruct Hin|].
  destruct Hin as [->|Hin].
  - exists b. split; [left; reflexivity|exact Hab].
  - destruct (IH Hin) as (y & Hy & HP). exists y. split; [right|]; assumption.
Qed.

Lemma Forall2_In_r {A B} (P : A -> B -> Prop) (l : list A) (k : list B)
    (y : B) :
  Forall2 P l k -> In y k -> exists x, In x l /\ P x y.
Proof.
  induction 1 as [|a b l k Hab _ IH]; intros Hin; [destruct Hin|].
  destruct Hin as [->|Hin].
  - exists a. split; [left; reflexivity|exact Hab].
  - destruct (IH Hin) as (x & Hx & HP). exists x. split; [right|]; assumption.
Qed.

Lemma metric_names_facts (iou_type : string) :
  iou_type = "segm" \/ iou_type = "bbox" ->
  exists metrics,
    metric_names iou_type = Ok metrics /\ NoDup metrics /\
    (length metrics <= 30)%nat /\
    Forall (fun name => has_underscore name = false) metrics.
Proof.
  intros [-> | ->]; eexists; (split; [reflexivity|]).
  all: split; [apply (bool_decide_eq_true_1 _); vm_compute; reflexivity|].
  all: split; [simpl; lia|].
  all: repeat (apply List.Forall_cons; [reflexivity|]); apply List.Forall_nil.
Qed.

(** What [_derive_coco_results] returns on a summarized evaluation: the
    standard numbers, then the per-category pairs written over them. *)
Lemma derive_outcome (ce : @FlakeCOCOeval COCO) (e : eval_arrays)
    (iou_type : string) (class_names : option (list string))
    (metrics : list string) :
  eval ce = Some e -> metric_names iou_type = Ok metrics ->
  (length metrics <= length (stats ce))%nat ->
  outcome (_derive_coco_results (Some ce) iou_type class_names)
  = let results := update_all ∅
         (combine metrics
            (map standard_metric (take (length metrics) (stats ce)))) in
    match class_names with
    | Some (n1 :: n2 :: names) =>
        kvs ← class_entries (n1 :: n2 :: names) (params ce) e;
        Ok (update_all results kvs)
    | _ => Ok results
    end.
Proof.
  intros Heval Hmetrics Hlen. unfold _derive_coco_results.
  rewrite Hmetrics.
  rewrite (bind_silent_ok (lift (Ok metrics)) metrics _ eq_refl).
  rewrite Heval, (standard_metrics_ok _ _ Hlen).
  rewrite (bind_silent_ok (lift (Ok _)) _ _ eq_refl).
  rewrite bind_emit. cbn [outcome]. rewrite outcome_bind.
  assert (Hlog : forall b : bool,
            outcome (if b then emit (LogInfo "Some metrics cannot be computed and is shown as NaN.")
                     else mret tt : traced event unit) = Ok tt)
    by (intros []; reflexivity).
  rewrite Hlog. cbv zeta.
  destruct class_names as [[|n1 [|n2 names]]|]; try reflexivity.
  cbn [length Nat.leb default]. rewrite outcome_bind.
  cbn [lift outcome].
  destruct (class_entries _ _ _); reflexivity.
Qed.

Lemma nan_table_lookup (metrics : list string) (name : string) :
  In name metrics ->
  (list_to_map (map (fun metric => (metric, NaN)) metrics)
     : gmap string pyfloat) !! name = Some NaN.
Proof.
  induction metrics as [|m ms IH]; intros Hin; [destruct Hin|].
  simpl. destruct (decide (m = name)) as [->|Hne].
  - apply lookup_insert_eq.
  - rewrite lookup_insert_ne by exact Hne.
    destruct Hin as [Heq|Hin]; [contradiction|exact (IH Hin)].
Qed.

(** Without a [coco_eval] (the model predicted nothing) every standard
    metric is NaN. *)
Lemma derive_without_coco_eval (iou_type : string)
    (class_names : option (list string)) (metrics : list string) :
  metric_names iou_type = Ok metrics ->
  exists results,
    outcome (@_derive_coco_results COCO None iou_type class_names)
    = Ok results /\
    forall name, In name metrics -> results !! name = Some NaN.
Proof.
  intros Hm. unfold _derive_coco_results. rewrite Hm.
  rewrite (bind_silent_ok (lift (Ok metrics)) metrics _ eq_refl).
  rewrite bind_emit. cbn [outcome mret traced_ret ret].
  eexists. split; [reflexivity|]. apply nan_table_lookup.
Qed.

(** The standard number of a call whose cells are all unset is NaN. *)
Lemma standard_results_unset (p : FlakeParams) (e : eval_arrays)
    (metrics : list string) (stats : list Q) (idx : nat) (name : string)
    (ap : Z) (thr : option Q) (area : string) :
  NoDup metrics -> (length metrics <= length stats)%nat ->
  Forall2 (fun (c : Z * option Q * string) v =>
             stat_cells_unset p e c.1.1 c.1.2 c.2 -> v = (-1)%Q)
          stat_calls stats ->
  metrics !! idx = Some name -> stat_calls !! idx = Some (ap, thr, area) ->
  stat_cells_unset p e ap thr area ->
  update_all ∅
    (combine metrics (map standard_metric (take (length metrics) stats)))
  !! name = Some NaN.
Proof.
  intros Hnd Hlen HF Hname Hcall Hunset.
  destruct (Forall2_lookup_l _ _ _ _ _ HF Hcall) as (v & Hv & Hminus).
  simpl in Hminus. specialize (Hminus Hunset). subst v.
  assert (Hval : map standard_metric (take (length metrics) stats) !! idx
                 = Some NaN).
  { change (map standard_metric ?l) with (standard_metric <$> l).
    rewrite list_lookup_fmap, lookup_take_lt, Hv; [reflexivity|].
    eapply lookup_lt_Some, Hname. }
  apply update_all_written.
  - eapply combine_lookup_In; eassumption.
  - intros v' Hv'. eapply combine_NoDup_functional; [exact Hnd|exact Hv'|].
    eapply combine_lookup_In; eassumption.
Qed.

(** C1. On a summarized evaluation whose tensors have the extents of the
    parameters, [_derive_coco_results] returns a table in which
    - the standard metric of every call of [_summarizeDets] that read no
      valid cell (no cell above [-1]) is NaN, and
    - the per-class metric of every mode, threshold, area bucket and class
      that read no valid cell is NaN;
    neither is a number, so neither is 0. *)
Theorem unset_buckets_reported_as_nan (ce : @FlakeCOCOeval COCO)
    (e : eval_arrays) (iou_type : string)
    (class_names : option (list string)) :
  eval ce = Some e ->
  iou_type = "segm" \/ iou_type = "bbox" ->
  iouType (params ce) = iou_type ->
  areaRngLbl (params ce) = flake_labels ->
  well_shaped (params ce) e class_names ->
  NoDup (default [] class_names) ->
  exists ce' metrics results,
    summarize ce = Ok ce' /\
    metric_names iou_type = Ok metrics /\
    outcome (_derive_coco_results (Some ce') iou_type class_names)
    = Ok results /\
    (forall idx name ap thr area,
       metrics !! idx = Some name ->
       stat_calls !! idx = Some (ap, thr, area) ->
       stat_cells_unset (params ce) e ap thr area ->
       results !! name = Some NaN) /\
    (forall names mode a l thr ci cname,
       class_names = Some names -> (1 < length names)%nat ->
       In mode ["AP"; "AR"] -> flake_labels !! a = Some l ->
       In thr [Some 0.5%Q; None] -> names !! ci = Some cname ->
       class_cells_unset e (params ce) mode thr ci a ->
       results !! result_key mode thr a l cname = Some NaN).
Proof.
  intros Heval Htype Hityp Hlbl Hshape Hnd.
  destruct (summarizeDets_ok _ _ _ Hshape Hlbl) as (stats & Hstats & HF).
  destruct (metric_names_facts iou_type Htype)
    as (metrics & Hm & Hnd_m & Hlen & Hus).
  assert (Hlen' : (length metrics <= length stats)%nat).
  { apply Forall2_length in HF. rewrite <- HF. exact Hlen. }
  exists (set_stats ce stats), metrics.
  assert (Hsum : summarize ce = Ok (set_stats ce stats)).
  { unfold summarize. rewrite Heval, Hityp.
    destruct Htype as [-> | ->]; simpl; rewrite Hstats; reflexivity. }
  pose proof (derive_outcome (set_stats ce stats) e iou_type class_names
                metrics Heval Hm Hlen') as Hout.
  cbv zeta in Hout.
  cbn [COCOeval.stats COCOeval.params COCOeval.set_stats] in Hout.
  set (results0 := update_all ∅ (combine metrics
         (map standard_metric (take (length metrics) stats)))) in *.
  assert (Htop : forall idx name ap thr area,
            metrics !! idx = Some name ->
            stat_calls !! idx = Some (ap, thr, area) ->
            stat_cells_unset (params ce) e ap thr area ->
            results0 !! name = Some NaN).
  { intros. eapply standard_results_unset; eassumption. }
  destruct class_names as [[|n1 [|n2 names]]|].
  1, 2, 4: exists results0; repeat split; try assumption;
    intros names' mode a l thr ci cname [= <-] Hlong; simpl in Hlong; lia.
  destruct (class_entries_ok (params ce) e (n1 :: n2 :: names) Hshape)
    as (kvs & Hkvs & HF2).
  rewrite Hkvs in Hout. simpl in Hout.
  exists (update_all results0 kvs).
  split; [exact Hsum|]. split; [exact Hm|]. split; [exact Hout|]. split.
  - intros idx name ap thr area Hname Hcall Hunset.
    rewrite update_all_other; [eapply Htop; eassumption|].
    intros v Hin.
    destruct (Forall2_In_r _ _ _ _ HF2 Hin)
      as ([[[[[mode a] l] thr'] ci] cname] & _ & Hkey & _).
    simpl in Hkey. rewrite List.Forall_forall in Hus.
    assert (Hno : has_underscore name = false).
    { apply Hus. apply list_elem_of_In. eapply list_elem_of_lookup_2, Hname. }
    rewrite Hkey in Hno. unfold result_key in Hno.
    rewrite has_underscore_app in Hno. discriminate.
  - intros names' mode a l thr ci cname [= <-] _ Hmode Ha Hthr Hc Hunset.
    assert (Ha' : areaRngLbl (params ce) !! a = Some l)
      by (rewrite Hlbl; exact Ha).
    assert (Hloop : In (mode, a, l, thr, ci, cname)
                       (class_loop (n1 :: n2 :: names) (params ce)))
      by (apply class_loop_In; auto).
    destruct (Forall2_In_l _ _ _ _ HF2 Hloop) as ([k v] & Hin & Hk & Hv).
    simpl in Hk, Hv. subst k. rewrite (Hv Hunset) in Hin.
    apply update_all_written; [exact Hin|].
    intros v' Hin'.
    destruct (Forall2_In_r _ _ _ _ HF2 Hin')
      as ([[[[[mode' a'] l'] thr'] ci'] cname'] & Hloop' & Hkey & Hv').
    simpl in Hkey, Hv'.
    apply class_loop_In in Hloop' as (Hmode' & Hal' & Hthr' & Hc').
    rewrite Hlbl in Hal'.
    destruct (key_prefix_facts mode mode' thr thr' a a' l l'
                Hmode Hmode' Hthr Hthr' Ha Hal') as [Hus1 Hinj].
    destruct (key_prefix_facts mode' mode thr' thr a' a l' l
                Hmode' Hmode Hthr' Hthr Hal' Ha) as [Hus2 _].
    unfold result_key in Hkey.
    destruct (key_split _ _ _ _ Hus1 Hus2 Hkey) as [Hp Hname].
    destruct (Hinj Hp) as (<- & <- & <- & <-). subst cname'.
    simpl in Hnd.
    assert (ci' = ci) by exact (NoDup_lookup _ _ _ _ Hnd Hc' Hc). subst ci'.
    apply Hv', Hunset.
Qed.

End DeriveFacts.

Lemma unset_buckets_reported_as_nan_witness :
  exists ce' metrics results,
    COCOeval.summarize sample_coco_eval = Ok ce' /\
    Evaluator.metric_names "segm" = Ok metrics /\
    Trace.outcome
      (Evaluator._derive_coco_results (Some ce') "segm" sample_class_names)
    = Ok results /\
    (forall idx name ap thr area,
       metrics !! idx = Some name ->
       COCOeval.stat_calls !! idx = Some (ap, thr, area) ->
       Evaluator.stat_cells_unset (COCOeval.params sample_coco_eval)
         sample_arrays ap thr area ->
       results !! name = Some NaN) /\
    (forall names mode a l thr ci cname,
       sample_class_names = Some names -> (1 < length names)%nat ->
       In mode ["AP"; "AR"] -> Evaluator.flake_labels !! a = Some l ->
       In thr [Some 0.5%Q; None] -> names !! ci = Some cname ->
       Evaluator.class_cells_unset sample_arrays
         (COCOeval.params sample_coco_eval) mode thr ci a ->
       results !! Evaluator.result_key mode thr a l cname = Some NaN).
Proof.
  apply (unset_buckets_reported_as_nan sample_coco_eval sample_arrays "segm"
           sample_class_names).
  - reflexivity.
  - left. reflexivity.
  - reflexivity.
  - reflexivity.
  - repeat split; simpl; lia.
  - apply (bool_decide_eq_true_1 _). vm_compute. reflexivity.
Defined.

(** On the sample tensors the bucket [100-200] and the second class have
    no valid cell: their numbers are NaN, next to real numbers for the
    buckets and the class that have data. *)
Example sample_results_nan :
  map (fun key => sample_results ≫= (fun r => r !! key))
      ["AP50,100-200"; "AR,100-200"; "AP50_2-Layer"; "AR,400-inf_2-Layer";
       "AP50"; "AP50_1-Layer"]
  = [Some NaN; Some NaN; Some NaN; Some NaN;
     Some (Fin 50.00%Q); Some (Fin 50.00%Q)].
Proof. vm_compute. reflexivity. Qed.

(** ** Keypoint evaluation *)

Section KeypointFacts.
Import Params COCOeval Trace Evaluator.
Context {COCO RLE Proposals Mask : Type}.
Variable w : @world COCO RLE Proposals Mask.

(** C10. [FlakeParams(iouType="keypoints")] raises: the branch looks up
    [setKpParams], which the class does not define. So does the
    constructor of [FlakeCOCOeval], and with it every keypoint run of
    [_evaluate_predictions_on_coco], before the engine's [evaluate] is
    reached; yet the task assertion of [_eval_predictions] lets the name
    [keypoints] through. *)
Theorem keypoints_evaluation_always_raises :
  Params.init "keypoints" = Raise (AttributeError "setKpParams") /\
  (forall gt dt,
     COCOeval.init (getImgIds w) (getCatIds w) gt dt "keypoints"
     = Raise (AttributeError "setKpParams")) /\
  (forall coco_gt coco_results kpt_oks_sigmas img_ids max_dets,
     let run := _evaluate_predictions_on_coco w coco_gt coco_results
                  "keypoints" kpt_oks_sigmas img_ids max_dets in
     raises (outcome run) /\
     forall method, method <> "loadRes" ->
       ~ In (EngineCall method "keypoints") (events run)) /\
  known_task "keypoints" = true.
Proof.
  split; [reflexivity|]. split; [reflexivity|]. split; [|reflexivity].
  intros coco_gt coco_results kpt img_ids max_dets. cbv zeta.
  unfold _evaluate_predictions_on_coco.
  destruct coco_results as [|r rs].
  - split; [eexists; reflexivity|]. intros method _ [].
  - change (String.eqb "keypoints" "segm") with false. cbv iota.
    destruct (loadRes w coco_gt (r :: rs)) as [dt|e]; split.
    all: try (rewrite !outcome_bind; simpl; eexists; reflexivity).
    all: intros method Hm; rewrite !events_bind; simpl.
    all: intros [Heq|[]]; inversion Heq; congruence.
Qed.

End KeypointFacts.

(** ** The evaluator: runs without data *)

Section EvaluateFacts.
Import Params COCOeval Trace Evaluator.
Context {COCO RLE Proposals Mask : Type}.
Variable w : @world COCO RLE Proposals Mask.

(** C2, as the code has it. When no process accumulated a prediction,
    [evaluate()] returns the empty mapping and does not raise. The warning
    is logged by an evaluator that is not distributed and by the main
    process of a distributed one; any other process of a distributed run
    returns the empty mapping before the check, without the warning. *)
Theorem evaluate_without_predictions
    (self : FlakeCOCOEvaluator) (img_ids : option (list Z)) :
  _predictions self = [] ->
  concat (comm_gather w []) = [] ->
  outcome (evaluate w self img_ids) = Ok ∅ /\
  events (evaluate w self img_ids) =
    (if _distributed self then [Synchronize] else []) ++
    (if (_distributed self && negb (comm_is_main_process w))%bool
     then [] else [no_predictions_warning]).
Proof.
  intros Hself Hall. unfold evaluate. rewrite Hself.
  destruct (_distributed self); [|split; reflexivity].
  rewrite Hall.
  destruct (comm_is_main_process w); split; reflexivity.
Qed.

End EvaluateFacts.

Lemma evaluate_without_predictions_witness :
  Trace.outcome (Evaluator.evaluate (sample_world true true)
                   (sample_evaluator true true None []) None) = Ok ∅ /\
  Trace.events (Evaluator.evaluate (sample_world true true)
                  (sample_evaluator true true None []) None) =
    [Evaluator.Synchronize] ++ [Evaluator.no_predictions_warning].
Proof.
  apply (evaluate_without_predictions (sample_world true true)
           (sample_evaluator true true None []) None); reflexivity.
Defined.

(** C2, as stated, fails on a process that is not the main one: the
    evaluator has no prediction, returns the empty mapping, and logs no
    warning. *)
Lemma evaluate_without_predictions_no_warning :
  Evaluator._predictions (sample_evaluator true true None []) = [] /\
  Trace.outcome (Evaluator.evaluate (sample_world false true)
                   (sample_evaluator true true None []) None) = Ok ∅ /\
  ~ In Evaluator.no_predictions_warning
       (Trace.events (Evaluator.evaluate (sample_world false true)
                        (sample_evaluator true true None []) None)) /\
  Trace.events (Evaluator.evaluate (sample_world false true)
                  (sample_evaluator true true None []) None)
  = [Evaluator.Synchronize].
Proof.
  split; [reflexivity|]. split; [reflexivity|]. split; [|reflexivity].
  intros [H|[]]. discriminate H.
Qed.

(** ** The evaluator: data sets without annotations *)

Section NoAnnotationFacts.
Import Params COCOeval Trace Evaluator.
Context {COCO RLE Proposals Mask : Type}.
Variable w : @world COCO RLE Proposals Mask.

Lemma events_unmap_category_ids (mapping : list (Z * Z))
    (rs : list (@coco_result RLE)) :
  events (unmap_category_ids mapping rs) = [].
Proof.
  unfold unmap_category_ids.
  apply quiet_bind; [reflexivity|intros lo].
  apply quiet_bind; [reflexivity|intros hi].
  apply quiet_bind; [unfold assert; destruct (_ && _); reflexivity|intros _].
  apply events_mapM. intros r.
  apply quiet_bind; [unfold assert; destruct (_ <? _); reflexivity|intros _].
  destruct (List.find _ _); reflexivity.
Qed.

Lemma find_rev_mapping (mapping : list (Z * Z)) (k c : Z) :
  In (k, c) mapping ->
  exists kv, List.find (fun kv => snd kv =? c) (rev mapping) = Some kv.
Proof.
  intros Hin.
  destruct (List.find (fun kv => snd kv =? c) (rev mapping)) as [kv|] eqn:Hf;
    [eauto|].
  assert (Hk : In (k, c) (rev mapping)) by (rewrite <- in_rev; exact Hin).
  apply (find_none _ _ Hf) in Hk. simpl in Hk.
  rewrite Z.eqb_refl in Hk. discriminate.
Qed.

Lemma unmap_category_ids_ok (mapping : list (Z * Z))
    (rs : list (@coco_result RLE)) :
  unmappable mapping rs ->
  exists rs', silent_ok (unmap_category_ids mapping rs) rs'.
Proof.
  intros (Hmin & Hmax & Hall). unfold unmap_category_ids.
  rewrite Hmin, Hmax, length_map.
  unfold silent_ok, mbind, traced_bind, bind, lift, assert. simpl.
  rewrite Z.eqb_refl. simpl.
  match goal with |- context [mapM ?f rs] =>
    destruct (mapM_silent_ok f rs) as [rs' Hrs] end.
  - eapply Forall_impl; [exact Hall|]. intros r [Hlt [k Hk]]. simpl.
    apply Z.ltb_lt in Hlt. rewrite Hlt.
    destruct (find_rev_mapping _ _ _ Hk) as [kv ->].
    eexists. reflexivity.
  - exists rs'. unfold silent_ok in Hrs. unfold mbind, traced_bind, bind in Hrs.
    rewrite Hrs. reflexivity.
Qed.

Lemma mapM_instances (predictions : list (@prediction RLE Proposals)) :
  have_instances predictions ->
  mapM (fun x => match p_instances x with
                 | Some i => Ok i
                 | None => Raise (KeyError "instances")
                 end) predictions
  = Ok (map (fun p => default [] (p_instances p)) predictions).
Proof.
  induction 1 as [|p ps [i Hi] _ IH]; [reflexivity|].
  change (mapM ?f (p :: ps)) with (y ← f p; k ← mapM f ps; mret (y :: k)).
  rewrite IH, Hi. simpl. rewrite Hi. reflexivity.
Qed.

(** [__init__] sets [_do_evaluation] to whether the loaded COCO file has
    the key ["annotations"]. *)
Lemma init_do_evaluation (dataset_name : string) (tasks : tasks_arg)
    (distributed : bool) (output_dir : option string)
    (max_dets : option Z) (kpt : list Q) (self : FlakeCOCOEvaluator) :
  outcome (init w dataset_name tasks distributed output_dir max_dets kpt)
  = Ok self ->
  _do_evaluation self = dataset_has_key w (_coco_api self) "annotations".
Proof.
  unfold init.
  destruct tasks, (json_file (metadata_catalog w dataset_name)), output_dir.
  all: unfold mbind, traced_bind, bind, emit, lift, raise; simpl.
  all: try discriminate.
  all: destruct (load_coco w _); simpl; [|discriminate].
  all: intros H; inversion H; reflexivity.
Qed.

(** C7. With [_do_evaluation] unset (the COCO file has no ["annotations"]
    key) [_eval_predictions] never calls into the COCO evaluation engine;
    on predictions that pass its own checks it writes the results file
    when an output directory is set, then logs that annotations are not
    available, and returns with [self._results] unchanged. *)
Theorem eval_predictions_without_annotations
    (self : FlakeCOCOEvaluator) (results : results_table)
    (predictions : list prediction) (img_ids : option (list Z)) :
  _do_evaluation self = false ->
  emits_only (fun e => ~ is_engine_call e)
    (_eval_predictions w self results predictions img_ids) /\
  (have_instances predictions -> ids_unmappable self predictions ->
   outcome (_eval_predictions w self results predictions img_ids)
   = Ok results /\
   events (_eval_predictions w self results predictions img_ids)
   = [LogInfo "Preparing results for COCO format ..."] ++
     (if truthy (_output_dir self) then
        [LogInfo ("Saving results to " +:+
                  path_join (default "" (_output_dir self))
                            "coco_instances_results.json");
         WriteFile (path_join (default "" (_output_dir self))
                              "coco_instances_results.json")]
      else []) ++
     [no_annotations_info]).
Proof.
  intros Hdo. unfold _eval_predictions. rewrite Hdo. cbv [negb]. split.
  - apply emits_only_bind; [apply emits_only_emit; simpl; tauto|intros _].
    apply emits_only_bind; [apply emits_only_silent; reflexivity|intros per].
    apply emits_only_bind; [|intros rs].
    { destruct (thing_dataset_id_to_contiguous_id (_metadata self));
        apply emits_only_silent;
        [apply events_unmap_category_ids|reflexivity]. }
    apply emits_only_bind; [|intros _].
    { destruct (truthy (_output_dir self)); [|apply emits_only_silent; reflexivity].
      apply emits_only_bind; [|intros _]; apply emits_only_emit; simpl; tauto. }
    apply emits_only_bind; [apply emits_only_emit; simpl; tauto|intros _].
    apply emits_only_silent. reflexivity.
  - intros Hinst Hids. rewrite (mapM_instances _ Hinst).
    rewrite bind_emit.
    rewrite (bind_silent_ok (lift (Ok _)) _ _ eq_refl).
    unfold ids_unmappable, all_instances in Hids.
    destruct (thing_dataset_id_to_contiguous_id (_metadata self)) as [mapping|].
    + destruct (unmap_category_ids_ok _ _ Hids) as [rs' Hrs].
      rewrite (bind_silent_ok _ _ _ Hrs).
      destruct (truthy (_output_dir self)); split; reflexivity.
    + rewrite (bind_silent_ok (mret _) _ _ eq_refl).
      destruct (truthy (_output_dir self)); split; reflexivity.
Qed.

End NoAnnotationFacts.

Lemma eval_predictions_without_annotations_witness :
  Trace.emits_only (fun e => ~ Evaluator.is_engine_call e)
    (Evaluator._eval_predictions (sample_world true false)
       (sample_evaluator false false (Some "out") sample_predictions)
       ∅ sample_predictions None) /\
  Trace.outcome
    (Evaluator._eval_predictions (sample_world true false)
       (sample_evaluator false false (Some "out") sample_predictions)
       ∅ sample_predictions None) = Ok ∅ /\
  Trace.events
    (Evaluator._eval_predictions (sample_world true false)
       (sample_evaluator false false (Some "out") sample_predictions)
       ∅ sample_predictions None)
  = [ Evaluator.LogInfo "Preparing results for COCO format ...";
      Evaluator.LogInfo "Saving results to out/coco_instances_results.json";
      Evaluator.WriteFile "out/coco_instances_results.json";
      Evaluator.no_annotations_info ].
Proof.
  destruct (eval_predictions_without_annotations (sample_world true false)
              (sample_evaluator false false (Some "out") sample_predictions)
              ∅ sample_predictions None eq_refl) as [Hengine Hrun].
  split; [exact Hengine|]. apply Hrun.
  - repeat constructor; eexists; reflexivity.
  - repeat split; repeat constructor; simpl; try lia; eauto.
Defined.

(** ** The timing loop *)

Section LoopFacts.
Import Params COCOeval Trace Evaluator.
Context {COCO RLE Proposals Mask : Type}.
Variable w : @world COCO RLE Proposals Mask.
Variable clock : nat -> Q.
Variable model : list Z -> list (@model_output Proposals Mask).
Variable total : Z.

Lemma py_int_times_zero (x : Q) : py_int (x * inject_Z 0) = 0.
Proof.
  unfold py_int. simpl. rewrite Z.mul_0_r. apply Z.quot_0_l.
  discriminate.
Qed.

(** A pass that reports an ETA computes it from the number of batches
    still ahead, [total - idx - 1]. *)
Lemma loop_body_eta (idx : nat) (inputs : list Z) (st : timing) :
  fst (loop_body w clock model total idx inputs st) = None \/
  exists x, fst (loop_body w clock model total idx inputs st)
            = Some (py_int (x * inject_Z (total - Z.of_nat idx - 1))).
Proof.
  unfold loop_body.
  destruct (Z.of_nat idx =? num_warmup total); cbv zeta beta iota;
    match goal with |- context [if ?c then _ else _] => destruct c end;
    simpl; eauto.
Qed.

(** With a ceiling that is not negative, a pass that is over budget has
    batches ahead of it. *)
Lemma over_budget_batches_ahead (ceiling : Q) (idx : nat) (inputs : list Z)
    (st : timing) :
  (0 <= ceiling)%Q -> Z.of_nat idx < total ->
  over_budget (Some ceiling)
    (fst (loop_body w clock model total idx inputs st)) = true ->
  Z.of_nat idx + 1 < total.
Proof.
  intros Hc Hidx Hover.
  destruct (loop_body_eta idx inputs st) as [Hn|[x Hx]].
  - rewrite Hn in Hover. discriminate.
  - rewrite Hx in Hover. simpl in Hover. unfold Qltb in Hover.
    destruct (Z.eq_dec (total - Z.of_nat idx - 1) 0) as [Hz|Hz]; [|lia].
    rewrite Hz, py_int_times_zero in Hover.
    apply negb_true_iff in Hover.
    assert (Hle : Qle_bool (inject_Z 0) (60 * ceiling) = true)
      by (apply Qle_bool_iff; change (inject_Z 0) with 0%Q; lra).
    congruence.
Qed.

Lemma over_budget_above (ceiling : Q) (eta : Z) :
  over_budget (Some ceiling) (Some eta) = true <->
  (60 * ceiling < inject_Z eta)%Q.
Proof.
  simpl. unfold Qltb. rewrite negb_true_iff. split.
  - intros Hle. apply Qnot_le_lt. intros H. apply Qle_bool_iff in H. congruence.
  - intros Hlt.
    destruct (Qle_bool (inject_Z eta) (60 * ceiling)) eqn:Hle; [|reflexivity].
    apply Qle_bool_iff in Hle. lra.
Qed.

(** The loop leaves at the first pass that is over budget, which is no
    later than any pass whose ETA exceeds the ceiling; when the ceiling is
    not negative, batches are still ahead of that pass. *)
Lemma loop_aborts (ceiling : Q) (k : nat) :
  forall (idx : nat) (batches : list (list Z)) (st : timing) (eta : Z),
  Z.of_nat idx + Z.of_nat (length batches) = total ->
  projected_eta w clock model total k idx batches st = Some eta ->
  (60 * ceiling < inject_Z eta)%Q ->
  exists j eta' st',
    loop w clock model total (Some ceiling) idx batches st
    = Aborted j eta' st' /\
    (idx <= j <= idx + k)%nat /\
    (60 * ceiling < inject_Z eta')%Q /\
    ((0 <= ceiling)%Q -> Z.of_nat j + 1 < total).
Proof.
  induction k as [|k IH]; intros idx batches st eta Hlen Hproj Hlt.
  - unfold projected_eta in Hproj. simpl in Hproj.
    destruct batches as [|inputs rest]; [discriminate|].
    simpl loop. destruct (loop_body w clock model total idx inputs st)
      as [eta0 st'] eqn:Hbody.
    simpl in Hproj. subst eta0.
    pose proof (proj2 (over_budget_above ceiling eta) Hlt) as Hover.
    rewrite Hover. exists idx, eta, st'.
    split; [reflexivity|]. split; [lia|]. split; [exact Hlt|].
    intros Hc. apply (over_budget_batches_ahead ceiling idx inputs st Hc).
    + simpl length in Hlen. lia.
    + rewrite Hbody. exact Hover.
  - destruct batches as [|inputs rest]; [discriminate|].
    unfold projected_eta in Hproj. simpl run_passes in Hproj.
    simpl loop. destruct (loop_body w clock model total idx inputs st)
      as [eta0 st'] eqn:Hbody.
    destruct (over_budget (Some ceiling) eta0) eqn:Hover.
    + destruct eta0 as [eta0|]; [|discriminate].
      exists idx, eta0, st'.
      split; [reflexivity|]. split; [lia|].
      split; [apply over_budget_above, Hover|].
      intros Hc. apply (over_budget_batches_ahead ceiling idx inputs st Hc).
      * simpl length in Hlen. lia.
      * rewrite Hbody. exact Hover.
    + simpl snd in Hproj.
      destruct (IH (S idx) rest (next_pass clock st') eta) as
        (j & eta' & st'' & Hloop & Hj & Heta' & Hroom); try assumption.
      * simpl length in Hlen. lia.
      * exists j, eta', st''. repeat split; try assumption; lia.
Qed.

End LoopFacts.

Section BenchmarkFacts.
Import Params COCOeval Trace Evaluator.
Context {COCO RLE Proposals Mask : Type}.
Variable w : @world COCO RLE Proposals Mask.
Variable clock : nat -> Q.
Variable test_loader : string -> list (list Z).
Variable model : list Z -> list (@model_output Proposals Mask).

(** C3, as the code has it. Let the evaluator be built. If some pass of
    the loop projects an ETA above [60 * max_time_minutes] seconds,
    [evaluate_on_dataset] returns [None]: the loop is left in a pass [j]
    no later than that one, and [evaluator.evaluate()] is not called (the
    events are those of the constructor alone). When the ceiling is not
    negative, batches are still unprocessed at that point
    ([j + 1 < total]). *)
Theorem evaluate_on_dataset_over_budget (dataset_name : string)
    (ceiling : Q) (ev : FlakeCOCOEvaluator) (k : nat) (eta : Z) :
  outcome (init w dataset_name (TasksTuple ["segm"]) false None None [])
  = Ok ev ->
  projected_eta w clock model
    (Z.of_nat (length (test_loader dataset_name))) k 0
    (test_loader dataset_name) (loop_start clock (reset ev)) = Some eta ->
  (60 * ceiling < inject_Z eta)%Q ->
  outcome (evaluate_on_dataset w clock test_loader model dataset_name
             (Some ceiling)) = Ok None /\
  events (evaluate_on_dataset w clock test_loader model dataset_name
            (Some ceiling))
  = events (init w dataset_name (TasksTuple ["segm"]) false None None []) /\
  exists j eta' st',
    loop w clock model (Z.of_nat (length (test_loader dataset_name)))
      (Some ceiling) 0 (test_loader dataset_name) (loop_start clock (reset ev))
    = Aborted j eta' st' /\
    (j <= k)%nat /\ (60 * ceiling < inject_Z eta')%Q /\
    ((0 <= ceiling)%Q -> (j + 1 < length (test_loader dataset_name))%nat).
Proof.
  intros Hinit Hproj Hlt.
  destruct (loop_aborts w clock model
              (Z.of_nat (length (test_loader dataset_name)))
              ceiling k 0 (test_loader dataset_name)
              (loop_start clock (reset ev)) eta eq_refl Hproj Hlt)
    as (j & eta' & st' & Hloop & Hj & Heta' & Hroom).
  unfold evaluate_on_dataset.
  rewrite outcome_bind, events_bind, Hinit, Hloop. simpl.
  split; [reflexivity|]. split; [apply app_nil_r|].
  exists j, eta', st'. repeat split; try assumption; [lia|].
  intros Hc. specialize (Hroom Hc). lia.
Qed.

End BenchmarkFacts.

Lemma evaluate_on_dataset_over_budget_witness :
  Trace.outcome
    (Evaluator.evaluate_on_dataset (sample_world true true) sample_clock
       (sample_loader sample_batches) sample_model "flakes" (Some 1%Q))
  = Ok None /\
  Trace.events
    (Evaluator.evaluate_on_dataset (sample_world true true) sample_clock
       (sample_loader sample_batches) sample_model "flakes" (Some 1%Q))
  = Trace.events
      (Evaluator.init (sample_world true true) "flakes"
         (Evaluator.TasksTuple ["segm"]) false None None []) /\
  exists j eta' st',
    Evaluator.loop (sample_world true true) sample_clock sample_model
      (Z.of_nat (length (sample_loader sample_batches "flakes")))
      (Some 1%Q) 0 (sample_loader sample_batches "flakes")
      (Evaluator.loop_start sample_clock
         (Evaluator.reset (sample_evaluator false true None [])))
    = Evaluator.Aborted j eta' st' /\
    (j <= 1)%nat /\ (60 * 1 < inject_Z eta')%Q /\
    ((0 <= 1)%Q ->
     (j + 1 < length (sample_loader sample_batches "flakes"))%nat).
Proof.
  apply (evaluate_on_dataset_over_budget (sample_world true true) sample_clock
           (sample_loader sample_batches) sample_model "flakes" 1%Q
           (sample_evaluator false true None []) 1%nat 70).
  - reflexivity.
  - vm_compute. reflexivity.
  - vm_compute. reflexivity.
Defined.

(** C3, as stated, fails for a negative ceiling: on a data set of one
    batch the only pass projects an ETA of 0 seconds, which is above
    [60 * (-1)]; the loop returns [None] after the whole data set was
    processed (the batch's prediction is in the evaluator). *)
Lemma evaluate_on_dataset_negative_ceiling :
  Trace.outcome
    (Evaluator.evaluate_on_dataset (sample_world true true) sample_clock
       (sample_loader one_batch) sample_model "flakes" (Some (-1)%Q))
  = Ok None /\
  Evaluator.projected_eta (sample_world true true) sample_clock sample_model
    1 0 0 one_batch
    (Evaluator.loop_start sample_clock (sample_evaluator false true None []))
  = Some 0 /\
  (60 * -1 < inject_Z 0)%Q /\
  exists st',
    Evaluator.loop (sample_world true true) sample_clock sample_model 1
      (Some (-1)%Q) 0 one_batch
      (Evaluator.loop_start sample_clock (sample_evaluator false true None []))
    = Evaluator.Aborted 0 0 st' /\
    (0 + 1 = length one_batch)%nat /\
    length (Evaluator._predictions (Evaluator.evaluator st')) = 1%nat.
Proof.
  split; [vm_compute; reflexivity|].
  split; [vm_compute; reflexivity|].
  split; [reflexivity|].
  eexists. split; [vm_compute; reflexivity|].
  split; reflexivity.
Qed.

(** * Further properties *)

(** ** The Flake container *)

Section FlakeMore.
Import Np FlakeClass.
Context {RLE : Type}.
Variable encode : ndarray2 -> RLE.
Variable int_of_str : string -> pyresult Z.

Lemma any_axis1_length (m : ndarray2) : length (any_axis1 m) = length m.
Proof. unfold any_axis1. apply length_map. Qed.

Lemma any_axis0_length (m : ndarray2) : length (any_axis0 m) = ncols m.
Proof. unfold any_axis0. rewrite length_map. apply length_seq. Qed.

Lemma nth_true_lt (v : list bool) (k : nat) :
  nth k v false = true -> (k < length v)%nat.
Proof.
  intros H. destruct (Nat.lt_ge_cases k (length v)) as [Hlt|Hge]; [exact Hlt|].
  rewrite nth_overflow in H by exact Hge. discriminate.
Qed.

(** X1. The box [to_dict(return_bbox=True)] derives lies inside the image:
    its corner and extents are not negative, and corner plus extent stays
    below the number of columns, respectively rows, of the mask. *)
Theorem to_dict_bbox_inside_image (self : Flake) (t : Z) :
  rectangular (mask self) ->
  (exists r c, pixel (mask self) r c = true) ->
  int_of_str (thickness self) = Ok t ->
  exists d x y wd h,
    to_dict encode int_of_str self true = Ok d /\
    d_bbox d = Some [x; y; wd; h] /\
    0 <= x /\ 0 <= y /\ 0 <= wd /\ 0 <= h /\
    x + wd < Z.of_nat (ncols (mask self)) /\
    y + h < Z.of_nat (length (mask self)).
Proof.
  intros Hrect (r0 & c0 & Hp0) Ht.
  assert (Hrow0 : nth r0 (any_axis1 (mask self)) false = true)
    by (apply any_axis1_nth; eauto).
  assert (Hcol0 : nth c0 (any_axis0 (mask self)) false = true)
    by (apply any_axis0_nth; eauto using rectangular_pixel).
  destruct (first_last_where (any_axis1 (mask self)))
    as [[_ Hnone]|(rmin & rmax & Hr & Hrle & _ & Hrmax & _)];
    [rewrite Hnone in Hrow0; discriminate|].
  destruct (first_last_where (any_axis0 (mask self)))
    as [[_ Hnone]|(cmin & cmax & Hc & Hcle & _ & Hcmax & _)];
    [rewrite Hnone in Hcol0; discriminate|].
  apply nth_true_lt in Hrmax, Hcmax.
  rewrite any_axis1_length in Hrmax. rewrite any_axis0_length in Hcmax.
  unfold to_dict, bbox_of_mask. rewrite Ht, Hr, Hc. simpl.
  eexists _, _, _, _, _. split; [reflexivity|]. split; [reflexivity|]. lia.
Qed.


End FlakeMore.

Lemma to_dict_bbox_inside_image_witness :
  exists d x y wd h,
    FlakeClass.to_dict (fun m => m) sample_int_of_str sample_flake true = Ok d /\
    FlakeClass.d_bbox d = Some [x; y; wd; h] /\
    0 <= x /\ 0 <= y /\ 0 <= wd /\ 0 <= h /\
    x + wd < Z.of_nat (Np.ncols (FlakeClass.mask sample_flake)) /\
    y + h < Z.of_nat (length (FlakeClass.mask sample_flake)).
Proof.
  apply (to_dict_bbox_inside_image (fun m => m) sample_int_of_str
           sample_flake 2).
  - repeat constructor.
  - exists 1%nat, 1%nat. reflexivity.
  - reflexivity.
Defined.

Section AspectMore.
Import FlakeClass.




End AspectMore.

(** ** Accumulating predictions *)

Section ProcessFacts.
Import Params COCOeval Trace Evaluator Further.
Context {COCO RLE Proposals Mask : Type}.
Variable w : @world COCO RLE Proposals Mask.

Lemma process_fold (self : FlakeCOCOEvaluator) (inputs : list Z)
    (outputs : list model_output) :
  process w self inputs outputs
  = fold_left (process_step w) (combine inputs outputs) self.
Proof. reflexivity. Qed.

(** X5. [process] only appends: the predictions held before stay in front,
    at most one record is added per input/output pair, every added record
    has instances or proposals and carries the image id of one of the
    inputs, and nothing else of the evaluator changes. *)
Theorem process_appends (self : FlakeCOCOEvaluator) (inputs : list Z)
    (outputs : list model_output) :
  exists added,
    _predictions (process w self inputs outputs)
    = _predictions self ++ added /\
    (length added <= Nat.min (length inputs) (length outputs))%nat /\
    Forall has_content added /\
    Forall (fun p => In (p_image_id p) inputs) added /\
    process w self inputs outputs
    = set_predictions self (_predictions self ++ added).
Proof.
  rewrite (process_fold self inputs outputs).
  assert (Hgen : forall (pairs : list (Z * model_output))
                        (s : @FlakeCOCOEvaluator COCO RLE Proposals),
    exists added,
      _predictions (fold_left (process_step w) pairs s)
      = _predictions s ++ added /\
      (length added <= length pairs)%nat /\
      Forall has_content added /\
      Forall (fun p => In (p_image_id p) (map fst pairs)) added /\
      fold_left (process_step w) pairs s
      = set_predictions s (_predictions s ++ added)).
  { induction pairs as [|[input output] pairs IH]; intros s.
    - exists []. simpl. rewrite app_nil_r. repeat split; try constructor.
      destruct s; reflexivity.
    - simpl fold_left.
      destruct (IH (process_step w s (input, output)))
        as (added & Hpred & Hlen & Hcont & Hid & Hall).
      assert (Hid' : Forall (fun p => In (p_image_id p)
                                (map fst ((input, output) :: pairs))) added).
      { eapply Forall_impl; [exact Hid|]. intros p Hin. right. exact Hin. }
      unfold process_step in Hpred, Hall |- *. cbv zeta in *.
      cbn [p_instances p_proposals] in *.
      destruct (out_instances output) as [i|] eqn:Hi;
        [|destruct (out_proposals output) as [pr|] eqn:Hp];
        cbn [fmap option_fmap option_map] in *.
      + eexists (_ :: added). rewrite Hpred, Hall.
        cbn [_predictions set_predictions]. rewrite <- !app_assoc.
        split; [reflexivity|]. split; [simpl; lia|]. split.
        { constructor; [left; simpl; eauto|exact Hcont]. }
        split; [|reflexivity].
        constructor; [left; reflexivity|exact Hid'].
      + eexists (_ :: added). rewrite Hpred, Hall.
        cbn [_predictions set_predictions]. rewrite <- !app_assoc.
        split; [reflexivity|]. split; [simpl; lia|]. split.
        { constructor; [right; simpl; eauto|exact Hcont]. }
        split; [|reflexivity].
        constructor; [left; reflexivity|exact Hid'].
      + exists added. rewrite Hpred, Hall. split; [reflexivity|].
        split; [simpl; lia|]. split; [exact Hcont|].
        split; [exact Hid'|reflexivity]. }
  destruct (Hgen (combine inputs outputs) self)
    as (added & Hpred & Hlen & Hcont & Hid & Hall).
  exists added. split; [exact Hpred|]. split.
  { rewrite length_combine in Hlen. exact Hlen. }
  split; [exact Hcont|]. split; [|exact Hall].
  eapply Forall_impl; [exact Hid|]. intros p Hin.
  apply in_map_iff in Hin as ([i o] & <- & Hin).
  apply in_combine_l in Hin. exact Hin.
Qed.

End ProcessFacts.

Section InstancesFacts.
Import Params COCOeval Trace Evaluator Further.
Context {COCO RLE Proposals Mask : Type}.
Variable w : @world COCO RLE Proposals Mask.



End InstancesFacts.

(** ** Building the evaluator *)

Section InitFacts.
Import Params COCOeval Trace Evaluator Further.
Context {COCO RLE Proposals Mask : Type}.
Variable w : @world COCO RLE Proposals Mask.


(** X8. A data set that is not in COCO format cannot be evaluated without an
    output directory: the constructor raises [ValueError] before it loads
    or writes anything. *)
Theorem init_needs_output_dir (dataset_name : string) (tasks : tasks_arg)
    (distributed : bool) (max_dets : option Z) (kpt : list Q) :
  json_file (metadata_catalog w dataset_name) = None ->
  outcome (init w dataset_name tasks distributed None max_dets kpt)
  = Raise ValueError /\
  emits_only (fun e => ~ is_file_output e)
    (init w dataset_name tasks distributed None max_dets kpt).
Proof.
  intros Hj. unfold init, emits_only. rewrite Hj.
  destruct tasks, max_dets; simpl; split; try reflexivity.
  all: repeat constructor; simpl; tauto.
Qed.

End InitFacts.

(** ** The timing loop: which batches were processed *)

Section LoopMore.
Import Params COCOeval Trace Evaluator Further.
Context {COCO RLE Proposals Mask : Type}.
Variable w : @world COCO RLE Proposals Mask.
Variable clock : nat -> Q.
Variable model : list Z -> list (@model_output Proposals Mask).
Variable total : Z.

Lemma loop_body_evaluator (idx : nat) (inputs : list Z) (st : timing) :
  evaluator (snd (loop_body w clock model total idx inputs st))
  = process w (evaluator st) inputs (model inputs).
Proof.
  unfold loop_body.
  destruct (Z.of_nat idx =? num_warmup total); cbv zeta beta iota;
    match goal with |- context [if ?c then _ else _] => destruct c end;
    reflexivity.
Qed.

Lemma loop_evaluator_inv (max_time_minutes : option Q) :
  forall (batches : list (list Z)) (idx : nat) (st : timing),
  match loop w clock model total max_time_minutes idx batches st with
  | Completed st' =>
      evaluator st' = process_all w model batches (evaluator st)
  | Aborted j _ st' =>
      (idx <= j < idx + length batches)%nat /\
      evaluator st'
      = process_all w model (take (S (j - idx)) batches) (evaluator st)
  end.
Proof.
  induction batches as [|inputs rest IH]; intros idx st; [reflexivity|].
  simpl loop.
  destruct (loop_body w clock model total idx inputs st) as [eta st1] eqn:Hb.
  assert (Hev : evaluator st1 = process w (evaluator st) inputs (model inputs)).
  { rewrite <- loop_body_evaluator with (idx := idx). rewrite Hb. reflexivity. }
  destruct (over_budget max_time_minutes eta).
  - split; [simpl; lia|]. rewrite Nat.sub_diag. simpl. exact Hev.
  - specialize (IH (S idx) (next_pass clock st1)).
    destruct (loop w clock model total max_time_minutes (S idx) rest
                (next_pass clock st1)) as [st'|j eta' st'].
    + rewrite IH. simpl. rewrite Hev. reflexivity.
    + destruct IH as [Hj IH]. split; [simpl; lia|]. rewrite IH.
      replace (j - idx)%nat with (S (j - S idx)) by lia.
      simpl. rewrite Hev. reflexivity.
Qed.

Lemma loop_leave_inv (max_time_minutes : option Q) :
  forall (batches : list (list Z)) (idx : nat) (st : timing),
  match loop w clock model total max_time_minutes idx batches st with
  | Completed _ =>
      forall k, over_budget max_time_minutes
                  (projected_eta w clock model total k idx batches st) = false
  | Aborted j eta _ =>
      exists ceiling,
        max_time_minutes = Some ceiling /\ (idx <= j)%nat /\
        projected_eta w clock model total (j - idx) idx batches st = Some eta /\
        (60 * ceiling < inject_Z eta)%Q /\
        forall k, (k < j - idx)%nat ->
          over_budget max_time_minutes
            (projected_eta w clock model total k idx batches st) = false
  end.
Proof.
  induction batches as [|inputs rest IH]; intros idx st.
  - simpl. intros [|k]; unfold projected_eta; simpl;
      destruct max_time_minutes; reflexivity.
  - simpl loop.
    destruct (loop_body w clock model total idx inputs st) as [eta st1] eqn:Hb.
    destruct (over_budget max_time_minutes eta) eqn:Hover.
    + destruct eta as [eta|]; [|discriminate].
      destruct max_time_minutes as [ceiling|]; [|discriminate].
      exists ceiling. rewrite Nat.sub_diag.
      split; [reflexivity|]. split; [lia|]. split.
      { unfold projected_eta. simpl. rewrite Hb. reflexivity. }
      split; [apply over_budget_above, Hover|]. intros k Hk. lia.
    + specialize (IH (S idx) (next_pass clock st1)).
      assert (Hstep : forall k,
                projected_eta w clock model total (S k) idx (inputs :: rest) st
                = projected_eta w clock model total k (S idx) rest
                    (next_pass clock st1)).
      { intros k. unfold projected_eta. simpl run_passes. rewrite Hb.
        reflexivity. }
      assert (Hzero : projected_eta w clock model total 0 idx (inputs :: rest) st
                      = eta).
      { unfold projected_eta. simpl. rewrite Hb. reflexivity. }
      destruct (loop w clock model total max_time_minutes (S idx) rest
                  (next_pass clock st1)) as [st'|j eta' st'].
      * intros [|k]; [rewrite Hzero; exact Hover|rewrite Hstep; apply IH].
      * destruct IH as (ceiling & Hmax & Hj & Hproj & Hlt & Hbefore).
        exists ceiling. split; [exact Hmax|]. split; [lia|].
        replace (j - idx)%nat with (S (j - S idx)) by lia.
        split; [rewrite Hstep; exact Hproj|]. split; [exact Hlt|].
        intros [|k] Hk; [rewrite Hzero; exact Hover|].
        rewrite Hstep. apply Hbefore. lia.
Qed.

(** X9. The clock has no say in what is accumulated. A loop that completes
    has passed every batch through the model and [process], in order; a
    loop that is left in pass [j] has done so for the first [j + 1]
    batches, and for no other. *)
Theorem loop_processes_batches (max_time_minutes : option Q)
    (batches : list (list Z)) (st : timing) :
  match loop w clock model total max_time_minutes 0 batches st with
  | Completed st' =>
      evaluator st' = process_all w model batches (evaluator st)
  | Aborted j _ st' =>
      (j < length batches)%nat /\
      evaluator st' = process_all w model (take (S j) batches) (evaluator st)
  end.
Proof.
  pose proof (loop_evaluator_inv max_time_minutes batches 0 st) as H.
  destruct (loop w clock model total max_time_minutes 0 batches st)
    as [st'|j eta st']; [exact H|].
  rewrite Nat.sub_0_r in H. destruct H as [Hj H]. split; [lia|exact H].
Qed.

(** X10. The loop is left only in a pass that projected an ETA above the
    ceiling, and in the first such pass: a run without ceiling, and a run
    in which no pass is over budget, complete. *)
Theorem loop_leaves_only_over_budget (max_time_minutes : option Q)
    (batches : list (list Z)) (st : timing) :
  match loop w clock model total max_time_minutes 0 batches st with
  | Completed _ =>
      forall k, over_budget max_time_minutes
                  (projected_eta w clock model total k 0 batches st) = false
  | Aborted j eta _ =>
      exists ceiling,
        max_time_minutes = Some ceiling /\
        projected_eta w clock model total j 0 batches st = Some eta /\
        (60 * ceiling < inject_Z eta)%Q /\
        forall k, (k < j)%nat ->
          over_budget max_time_minutes
            (projected_eta w clock model total k 0 batches st) = false
  end.
Proof.
  pose proof (loop_leave_inv max_time_minutes batches 0 st) as H.
  destruct (loop w clock model total max_time_minutes 0 batches st)
    as [st'|j eta st']; [exact H|].
  rewrite Nat.sub_0_r in H.
  destruct H as (ceiling & Hmax & _ & Hproj & Hlt & Hbefore).
  exists ceiling. auto.
Qed.

End LoopMore.

Section BenchmarkMore.
Import Params COCOeval Trace Evaluator Further.
Context {COCO RLE Proposals Mask : Type}.
Variable w : @world COCO RLE Proposals Mask.
Variable clock : nat -> Q.
Variable test_loader : string -> list (list Z).
Variable model : list Z -> list (@model_output Proposals Mask).

Lemma outcome_fmap {E A B} (f : A -> B) (m : traced E A) :
  outcome (f <$> m)
  = match outcome m with Ok a => Ok (f a) | Raise e => Raise e end.
Proof. destruct m as [[a|e] t]; reflexivity. Qed.

Lemma events_fmap {E A B} (f : A -> B) (m : traced E A) :
  events (f <$> m) = events m.
Proof. destruct m as [[a|e] t]; simpl; [apply app_nil_r|reflexivity]. Qed.

(** X11. When no pass is over budget, and so whenever no ceiling is given,
    [evaluate_on_dataset] returns what [evaluate()] returns on the
    evaluator that has processed every batch: it never returns [None]. *)
Theorem evaluate_on_dataset_within_budget (dataset_name : string)
    (max_time_minutes : option Q) (ev : FlakeCOCOEvaluator) :
  outcome (init w dataset_name (TasksTuple ["segm"]) false None None [])
  = Ok ev ->
  (forall k,
     over_budget max_time_minutes
       (projected_eta w clock model
          (Z.of_nat (length (test_loader dataset_name))) k 0
          (test_loader dataset_name) (loop_start clock (reset ev))) = false) ->
  outcome (evaluate_on_dataset w clock test_loader model dataset_name
             max_time_minutes)
  = match outcome (evaluate w (process_all w model (test_loader dataset_name)
                                 (reset ev)) None) with
    | Ok results => Ok (Some results)
    | Raise e => Raise e
    end /\
  events (evaluate_on_dataset w clock test_loader model dataset_name
            max_time_minutes)
  = events (init w dataset_name (TasksTuple ["segm"]) false None None []) ++
    events (evaluate w (process_all w model (test_loader dataset_name)
                          (reset ev)) None).
Proof.
  intros Hinit Hbudget. unfold evaluate_on_dataset.
  rewrite outcome_bind, events_bind, Hinit.
  pose proof (loop_leave_inv w clock model
                (Z.of_nat (length (test_loader dataset_name)))
                max_time_minutes (test_loader dataset_name) 0
                (loop_start clock (reset ev))) as Hleave.
  pose proof (loop_evaluator_inv w clock model
                (Z.of_nat (length (test_loader dataset_name)))
                max_time_minutes (test_loader dataset_name) 0
                (loop_start clock (reset ev))) as Hproc.
  destruct (loop w clock model _ max_time_minutes 0 _ _) as [st|j eta st].
  - rewrite Hproc. cbn [evaluator loop_start].
    rewrite outcome_fmap, events_fmap. split; reflexivity.
  - exfalso. destruct Hleave as (ceiling & -> & _ & Hproj & Hlt & _).
    specialize (Hbudget (j - 0)%nat). rewrite Hproj in Hbudget.
    apply over_budget_above in Hlt. congruence.
Qed.

End BenchmarkMore.

(** ** [FlakeCOCOeval.summarize]: the range of the statistics *)

Section SummarizeMore.
Import Params COCOeval Evaluator Further.
Context {COCO : Type}.

Lemma select_precision_range (e : eval_arrays) (ts : list nat)
    (pairs : list (nat * nat)) :
  cells_in_range e ->
  Forall (fun x => x == -1 \/ 0 <= x <= 1)%Q (select_precision e ts pairs).
Proof.
  intros [Hp _]. apply Forall_forall. intros x Hx. unfold select_precision in Hx.
  apply list_elem_of_bind in Hx. destruct Hx as (t & Hx & _).
  apply list_elem_of_bind in Hx. destruct Hx as (r & Hx & _).
  apply list_elem_of_bind in Hx. destruct Hx as (k & Hx & _).
  apply list_elem_of_bind in Hx. destruct Hx as ([a m] & Hx & _).
  apply list_elem_of_singleton in Hx. subst x. apply Hp.
Qed.

Lemma select_recall_range (e : eval_arrays) (ts : list nat)
    (pairs : list (nat * nat)) :
  cells_in_range e ->
  Forall (fun x => x == -1 \/ 0 <= x <= 1)%Q (select_recall e ts pairs).
Proof.
  intros [_ Hr]. apply Forall_forall. intros x Hx. unfold select_recall in Hx.
  apply list_elem_of_bind in Hx. destruct Hx as (t & Hx & _).
  apply list_elem_of_bind in Hx. destruct Hx as (k & Hx & _).
  apply list_elem_of_bind in Hx. destruct Hx as ([a m] & Hx & _).
  apply list_elem_of_singleton in Hx. subst x. apply Hr.
Qed.

Lemma valid_entries_range (s : list Q) :
  Forall (fun x => x == -1 \/ 0 <= x <= 1)%Q s ->
  Forall (fun x => 0 <= x <= 1)%Q (valid_entries s).
Proof.
  intros H. unfold valid_entries. apply Forall_forall. intros x Hx.
  apply list_elem_of_filter in Hx. destruct Hx as [Hv Hx].
  rewrite Forall_forall in H. specialize (H x Hx).
  destruct H as [H|H]; [|exact H]. exfalso.
  unfold Qltb in Hv. apply negb_true_iff in Hv.
  assert (Hle : (x <= -1)%Q) by (rewrite H; apply Qle_refl).
  apply Qle_bool_iff in Hle. congruence.
Qed.

Lemma sum_unit_interval (l : list Q) :
  Forall (fun x => 0 <= x <= 1)%Q l ->
  (0 <= fold_right Qplus 0 l <= inject_Z (Z.of_nat (length l)))%Q.
Proof.
  induction 1 as [|x l [Hx0 Hx1] _ [IH0 IH1]].
  - simpl. split; apply Qle_refl.
  - cbn [fold_right length]. rewrite Nat2Z.inj_succ, <- Z.add_1_r.
    rewrite inject_Z_plus. change (inject_Z 1) with 1%Q. split; lra.
Qed.

Lemma np_mean_unit_interval (l : list Q) :
  l <> [] -> Forall (fun x => 0 <= x <= 1)%Q l -> (0 <= np_mean l <= 1)%Q.
Proof.
  intros Hne H. destruct (sum_unit_interval l H) as [H0 H1].
  assert (Hpos : (0 < inject_Z (Z.of_nat (length l)))%Q).
  { change 0%Q with (inject_Z 0). rewrite <- Zlt_Qlt.
    destruct l; [congruence|simpl; lia]. }
  unfold np_mean. split.
  - apply Qle_shift_div_l; [exact Hpos|lra].
  - apply Qle_shift_div_r; [exact Hpos|lra].
Qed.

Lemma summarize_range (p : FlakeParams) (e : eval_arrays) (ap : Z)
    (iouThr : option Q) (area : string) (top : Z) (v : Q) :
  cells_in_range e -> _summarize p e ap iouThr area top = Ok v ->
  v = (-1)%Q \/ (0 <= v <= 1)%Q.
Proof.
  intros Hc. unfold _summarize.
  destruct (iou_slices p e iouThr) as [ts|]; [|discriminate].
  destruct (broadcast_pairs _ _) as [pairs|]; [|discriminate].
  cbn [mbind pyresult_bind].
  destruct (check_bounds (dimA e) _); [|discriminate].
  destruct (check_bounds (dimM e) _); [|discriminate].
  cbn [mbind pyresult_bind mret pyresult_ret].
  set (s := if ap =? 1 then _ else _).
  assert (Hs : Forall (fun x => x == -1 \/ 0 <= x <= 1)%Q s).
  { subst s. destruct (ap =? 1);
      [apply select_precision_range|apply select_recall_range]; exact Hc. }
  apply valid_entries_range in Hs.
  destruct (length (valid_entries s) =? 0)%nat eqn:Hlen; intros H; inversion H.
  - left. reflexivity.
  - right. apply np_mean_unit_interval; [|exact Hs].
    intros Hnil. rewrite Hnil in Hlen. discriminate.
Qed.

Lemma mapM_pyresult_inv {A B} (f : A -> pyresult B) (l : list A)
    (ys : list B) :
  mapM f l = Ok ys -> Forall2 (fun x y => f x = Ok y) l ys.
Proof.
  revert ys. induction l as [|x l IH]; intros ys H.
  - inversion H. constructor.
  - cbn in H. destruct (f x) as [y|] eqn:Hx; [|discriminate].
    cbn in H. destruct (mapM f l) as [k|]; [|discriminate].
    cbn in H. inversion H. subst ys. constructor; [exact Hx|].
    apply IH. reflexivity.
Qed.

Lemma py_round_percent (s : Q) :
  (0 <= s <= 1)%Q -> (0 <= py_round (s * 100) 2 <= 100)%Q.
Proof.
  intros [H0 H1]. unfold py_round.
  change (inject_Z (10 ^ Z.of_nat 2)) with 100%Q.
  assert (Hlo : 0 <= round_half_even (s * 100 * 100)).
  { apply round_half_even_lower. change (inject_Z 0) with 0%Q. lra. }
  assert (Hhi : round_half_even (s * 100 * 100) <= 10000).
  { apply round_half_even_upper. change (inject_Z 10000) with 10000%Q. lra. }
  rewrite Zle_Qle in Hlo, Hhi.
  change (inject_Z 0) with 0%Q in Hlo.
  change (inject_Z 10000) with 10000%Q in Hhi.
  split.
  - apply Qle_shift_div_l; lra.
  - apply Qle_shift_div_r; lra.
Qed.

(** X12. Whatever the engine has accumulated, as long as every cell of its
    tensors is [-1] or a fraction in [[0, 1]]: a [summarize()] that
    returns has filled [stats] with thirty numbers, each [-1] or a
    fraction in [[0, 1]], and has left the parameters and the tensors as
    they were; the evaluator then reports each of them as NaN or as a
    percentage between 0 and 100. *)
Theorem summarize_stats_in_range (ce ce' : @FlakeCOCOeval COCO)
    (e : eval_arrays) :
  eval ce = Some e -> cells_in_range e -> summarize ce = Ok ce' ->
  length (stats ce') = 30%nat /\
  Forall (fun s => s = (-1)%Q \/ (0 <= s <= 1)%Q) (stats ce') /\
  Forall (fun v => v = NaN \/ exists q, v = Fin q /\ (0 <= q <= 100)%Q)
         (map standard_metric (stats ce')) /\
  params ce' = params ce /\ eval ce' = eval ce.
Proof.
  intros He Hc. unfold summarize. rewrite He.
  destruct (_ || _)%bool; [|discriminate].
  destruct (_summarizeDets (params ce) e) as [s|] eqn:Hs; [|discriminate].
  cbn. intros H. inversion H. subst ce'. cbn [stats params eval set_stats].
  apply mapM_pyresult_inv in Hs.
  assert (Hrange : Forall (fun s => s = (-1)%Q \/ (0 <= s <= 1)%Q) s).
  { apply List.Forall_forall. intros v Hv.
    destruct (Forall2_In_r _ _ _ _ Hs Hv) as ([[ap thr] area] & _ & Hcall).
    cbn in Hcall. destruct (py_index _ 2) as [top|]; [|discriminate].
    exact (summarize_range _ _ _ _ _ _ _ Hc Hcall). }
  split; [|split; [|split; [|split; [reflexivity|congruence]]]].
  - apply Forall2_length in Hs. rewrite <- Hs. reflexivity.
  - exact Hrange.
  - apply Forall_map. eapply Forall_impl; [exact Hrange|].
    intros v [->|Hv]; [left; reflexivity|right].
    unfold standard_metric.
    destruct (Qle_bool 0 v) eqn:H0.
    + eexists. split; [reflexivity|]. apply py_round_percent. exact Hv.
    + exfalso. destruct Hv as [Hv _]. apply Qle_bool_iff in Hv. congruence.
Qed.

End SummarizeMore.

(** ** [sorted] and [FlakeCOCOeval.__init__] *)

Section SortedFacts.
Context {A : Type}.
Variable leb : A -> A -> bool.

Lemma insert_sorted_perm (x : A) (l : list A) :
  insert_sorted leb x l ≡ₚ x :: l.
Proof.
  induction l as [|y l IH]; simpl; [reflexivity|].
  destruct (leb x y); [reflexivity|].
  rewrite IH. apply Permutation_swap.
Qed.

Lemma py_sorted_perm (l : list A) : py_sorted leb l ≡ₚ l.
Proof.
  induction l as [|x l IH]; simpl; [reflexivity|].
  rewrite insert_sorted_perm, IH. reflexivity.
Qed.

Variable R : A -> A -> Prop.
Hypothesis leb_true : forall a b, leb a b = true -> R a b.
Hypothesis leb_false : forall a b, leb a b = false -> R b a.

Lemma insert_sorted_Sorted (x : A) (l : list A) :
  Sorted R l -> Sorted R (insert_sorted leb x l).
Proof.
  induction l as [|y l IH]; intros Hs; simpl.
  - repeat constructor.
  - destruct (leb x y) eqn:Hxy.
    + constructor; [exact Hs|]. constructor. apply leb_true. exact Hxy.
    + apply Sorted_inv in Hs. destruct Hs as [Hs Hhd].
      constructor; [apply IH; exact Hs|].
      destruct l as [|z l]; simpl.
      * constructor. apply leb_false. exact Hxy.
      * destruct (leb x z).
        -- constructor. apply leb_false. exact Hxy.
        -- constructor. inversion Hhd. assumption.
Qed.

Lemma py_sorted_Sorted (l : list A) : Sorted R (py_sorted leb l).
Proof.
  induction l as [|x l IH]; simpl; [constructor|].
  apply insert_sorted_Sorted. exact IH.
Qed.

End SortedFacts.

Section CocoEvalInit.
Import Params COCOeval.
Context {COCO : Type}.
Variable getImgIds : COCO -> list Z.
Variable getCatIds : COCO -> list Z.

Lemma Z_sorted_ids (l : list Z) :
  Sorted Z.le (py_sorted Z.leb l) /\ py_sorted Z.leb l ≡ₚ l.
Proof.
  split; [|apply py_sorted_perm].
  apply py_sorted_Sorted.
  - intros a b H. apply Z.leb_le. exact H.
  - intros a b H. apply Z.leb_gt in H. lia.
Qed.

(** X13. A [FlakeCOCOeval] can only be built for the tasks [segm] and [bbox].
    Built on a ground truth, its image and category ids are those of the
    ground truth in ascending order, nothing lost and nothing repeated
    that was not; the detection limits start as [1, 10, 100], and nothing
    is accumulated or summarized yet. *)
Theorem coco_eval_init_sorted_ids (gt : COCO) (dt : option COCO)
    (iou_type : string) (ce : FlakeCOCOeval) :
  init getImgIds getCatIds (Some gt) dt iou_type = Ok ce ->
  (iou_type = "segm" \/ iou_type = "bbox") /\
  Sorted Z.le (imgIds (params ce)) /\ imgIds (params ce) ≡ₚ getImgIds gt /\
  Sorted Z.le (catIds (params ce)) /\ catIds (params ce) ≡ₚ getCatIds gt /\
  iouType (params ce) = iou_type /\ maxDets (params ce) = [1; 10; 100] /\
  cocoGt ce = Some gt /\ cocoDt ce = dt /\ eval ce = None /\ stats ce = [].
Proof.
  unfold init, Params.init.
  destruct (String.eqb iou_type "segm") eqn:Hs;
    [|destruct (String.eqb iou_type "bbox") eqn:Hb];
    cbn [orb]; try (destruct (String.eqb iou_type "keypoints"); discriminate).
  all: intros H; inversion H; subst ce; clear H; cbn.
  all: destruct (Z_sorted_ids (getImgIds gt)) as [Hi1 Hi2].
  all: destruct (Z_sorted_ids (getCatIds gt)) as [Hc1 Hc2].
  - apply String.eqb_eq in Hs. repeat split; auto.
  - apply String.eqb_eq in Hb. repeat split; auto.
Qed.

End CocoEvalInit.

(** ** [_eval_predictions]: tasks and category ids *)

Section TasksFacts.
Import Params COCOeval Trace Evaluator Further.
Context {COCO RLE Proposals Mask : Type}.
Variable w : @world COCO RLE Proposals Mask.

Lemma existsb_bool_decide {A} (P : A -> Prop) `{!forall x, Decision (P x)}
    (l : list A) :
  existsb (fun x => bool_decide (P x)) l = true <-> Exists P l.
Proof.
  rewrite existsb_exists, Exists_exists. split.
  - intros (r & Hin & Hr). exists r. apply bool_decide_eq_true in Hr.
    apply list_elem_of_In in Hin. auto.
  - intros (r & Hin & Hr). exists r. apply list_elem_of_In in Hin.
    split; [exact Hin|]. apply bool_decide_eq_true. exact Hr.
Qed.

(** X14. The tasks inferred from the detections always contain [bbox], contain
    [segm] exactly when some detection has a segmentation and [keypoints]
    exactly when some detection has keypoints, hold nothing twice, and
    every one of them passes the assertion on task names. *)
Theorem tasks_from_predictions_known (coco_results : list (@coco_result RLE)) :
  "bbox" ∈ _tasks_from_predictions coco_results /\
  ("segm" ∈ _tasks_from_predictions coco_results <->
   Exists (fun r => is_Some (segmentation r)) coco_results) /\
  ("keypoints" ∈ _tasks_from_predictions coco_results <->
   Exists (fun r => is_Some (keypoints r)) coco_results) /\
  NoDup (_tasks_from_predictions coco_results) /\
  Forall (fun task => known_task task = true)
    (_tasks_from_predictions coco_results).
Proof.
  unfold _tasks_from_predictions.
  pose proof (existsb_bool_decide
                (fun r : @coco_result RLE => is_Some (segmentation r))
                coco_results) as Hs.
  pose proof (existsb_bool_decide
                (fun r : @coco_result RLE => is_Some (keypoints r))
                coco_results) as Hk.
  rewrite <- Hs, <- Hk. clear Hs Hk.
  destruct (existsb _ coco_results), (existsb _ coco_results).
  all: vm_compute py_sorted.
  all: repeat split.
  all: try (intros; first [discriminate | reflexivity]).
  all: try (exfalso; revert H; change (~ (?x ∈ ?l)) with (x ∉ l)).
  all: apply (bool_decide_unpack _); vm_compute; exact I.
Qed.

Lemma mapM_traced_inv {E A B} (f : A -> traced E B) (l : list A)
    (ys : list B) :
  outcome (mapM f l) = Ok ys ->
  Forall2 (fun x y => outcome (f x) = Ok y) l ys.
Proof.
  revert ys. induction l as [|x l IH]; intros ys H.
  - inversion H. constructor.
  - rewrite mapM_cons, outcome_bind in H.
    destruct (outcome (f x)) as [y|] eqn:Hx; [|discriminate].
    rewrite outcome_bind in H.
    destruct (outcome (mapM f l)) as [k|]; [|discriminate].
    inversion H. subst ys. constructor; [exact Hx|]. apply IH. reflexivity.
Qed.

(** X15. The category ids come back as dataset ids: when the block returns,
    it has logged nothing, every record differs from the predicted one in
    its category id only, and the new id is a dataset id that the
    metadata map to the predicted class, which lies below the number of
    classes. *)
Theorem unmap_category_ids_round_trip (mapping : list (Z * Z))
    (coco_results unmapped : list (@coco_result RLE)) :
  outcome (unmap_category_ids mapping coco_results) = Ok unmapped ->
  events (unmap_category_ids mapping coco_results) = [] /\
  Forall2 (fun r r' =>
             r' = set_category_id r (category_id r') /\
             In (category_id r', category_id r) mapping /\
             category_id r < Z.of_nat (length mapping))
          coco_results unmapped.
Proof.
  intros H. split; [apply events_unmap_category_ids|].
  unfold unmap_category_ids in H. rewrite !outcome_bind in H.
  destruct (outcome (lift (py_min _))); [|discriminate].
  rewrite !outcome_bind in H.
  destruct (outcome (lift (py_max _))); [|discriminate].
  rewrite !outcome_bind in H.
  destruct (outcome (assert _ _)); [|discriminate].
  apply mapM_traced_inv in H.
  eapply Forall2_impl; [exact H|]. clear H.
  intros r r' H. cbv beta zeta in H. rewrite outcome_bind in H.
  rewrite length_map in H.
  destruct (category_id r <? Z.of_nat (length mapping)) eqn:Hlt;
    [|discriminate].
  cbn [assert outcome ret] in H.
  destruct (List.find _ (rev mapping)) as [[k c]|] eqn:Hfind; [|discriminate].
  inversion H. subst r'. clear H. cbn [category_id set_category_id fst].
  apply List.find_some in Hfind. destruct Hfind as [Hin Hc].
  cbn [snd] in Hc. apply Z.eqb_eq in Hc. subst c.
  apply List.in_rev in Hin. apply Z.ltb_lt in Hlt. auto.
Qed.

Lemma mapM_traced_inv_unmap (mapping : list (Z * Z))
    (coco_results unmapped : list (@coco_result RLE)) :
  outcome (unmap_category_ids mapping coco_results) = Ok unmapped ->
  length coco_results = length unmapped.
Proof.
  unfold unmap_category_ids. rewrite !outcome_bind.
  destruct (outcome (lift (py_min _))); [|discriminate].
  rewrite !outcome_bind.
  destruct (outcome (lift (py_max _))); [|discriminate].
  rewrite !outcome_bind.
  destruct (outcome (assert _ _)); [|discriminate].
  intros H. apply mapM_traced_inv in H. exact (Forall2_length _ _ _ H).
Qed.

(** X16. For the task [segm] the boxes of the detections play no part:
    the evaluation runs the same, with the same outcome and the same
    events, when every box is removed beforehand. *)
Theorem segm_evaluation_ignores_boxes (coco_gt : COCO)
    (coco_results : list (@coco_result RLE)) (kpt_oks_sigmas : list Q)
    (img_ids : option (list Z)) (max_dets_per_image : option (list Z)) :
  _evaluate_predictions_on_coco w coco_gt (map pop_bbox coco_results)
    "segm" kpt_oks_sigmas img_ids max_dets_per_image
  = _evaluate_predictions_on_coco w coco_gt coco_results
      "segm" kpt_oks_sigmas img_ids max_dets_per_image.
Proof.
  unfold _evaluate_predictions_on_coco.
  change (String.eqb "segm" "segm") with true.
  change (String.eqb "segm" "keypoints") with false. cbv iota.
  rewrite length_map, map_map.
  replace (map (fun x => pop_bbox (pop_bbox x)) coco_results)
    with (map pop_bbox coco_results); [reflexivity|].
  apply map_ext. intros r. reflexivity.
Qed.

End TasksFacts.

(** ** [_eval_predictions]: the loop over the tasks *)

Section EvalTasks.
Import Params COCOeval Trace Evaluator Further.
Context {COCO RLE Proposals Mask : Type}.
Variable w : @world COCO RLE Proposals Mask.

Lemma eval_predictions_unfold (self : FlakeCOCOEvaluator)
    (results : results_table) (predictions : list prediction)
    (img_ids : option (list Z)) :
  _do_evaluation self = true ->
  have_instances predictions -> ids_unmappable self predictions ->
  exists coco_results,
    length coco_results = length (all_instances predictions) /\
    forall loop,
      foldlM (eval_task w self coco_results img_ids) results
        (py_sorted String.leb (tasks_of self (all_instances predictions)))
      = loop ->
      outcome (_eval_predictions w self results predictions img_ids)
      = outcome loop /\
      events (_eval_predictions w self results predictions img_ids)
      = preparation_events self ++
        [LogInfo "Evaluating predictions with FlakeCOCO API..."] ++
        events loop.
Proof.
  intros Hdo Hinst Hids. unfold _eval_predictions. rewrite Hdo. cbv [negb].
  rewrite (mapM_instances _ Hinst). rewrite bind_emit.
  rewrite (bind_silent_ok (lift (Ok _)) _ _ eq_refl).
  unfold ids_unmappable in Hids. fold (all_instances predictions).
  fold (tasks_of self (all_instances predictions)).
  unfold preparation_events.
  destruct (thing_dataset_id_to_contiguous_id (_metadata self)) as [mapping|].
  - destruct (unmap_category_ids_ok _ _ Hids) as [rs' Hrs].
    exists rs'. split.
    { assert (Hout : outcome (unmap_category_ids mapping
                                (all_instances predictions)) = Ok rs')
        by (rewrite Hrs; reflexivity).
      apply mapM_traced_inv_unmap in Hout. symmetry. exact Hout. }
    intros loop Hloop. rewrite (bind_silent_ok _ _ _ Hrs).
    unfold eval_task in Hloop. rewrite Hloop.
    destruct loop as [r t], (truthy (_output_dir self)); split; reflexivity.
  - exists (all_instances predictions). split; [reflexivity|].
    intros loop Hloop. rewrite (bind_silent_ok (mret _) _ _ eq_refl).
    unfold eval_task in Hloop. rewrite Hloop.
    destruct loop as [r t], (truthy (_output_dir self)); split; reflexivity.
Qed.

Lemma mapM_instances_missing (predictions : list (@prediction RLE Proposals)) :
  Exists (fun p => p_instances p = None) predictions ->
  mapM (fun x => match p_instances x with
                 | Some i => Ok i
                 | None => Raise (KeyError "instances")
                 end) predictions
  = Raise (KeyError "instances").
Proof.
  induction 1 as [p l Hp|p l _ IH].
  - cbn. rewrite Hp. reflexivity.
  - cbn. destruct (p_instances p); [|reflexivity]. cbn.
    cbn in IH. rewrite IH. reflexivity.
Qed.

(** X24. [_eval_predictions] needs instances in every prediction, not
    only in the first one, which is the one [evaluate] looks at: when
    some prediction has none, it raises [KeyError] on ["instances"]
    right after its first log line, before anything is written or
    evaluated. *)
Theorem eval_predictions_missing_instances (self : FlakeCOCOEvaluator)
    (results : results_table) (predictions : list prediction)
    (img_ids : option (list Z)) :
  Exists (fun p => p_instances p = None) predictions ->
  outcome (_eval_predictions w self results predictions img_ids)
  = Raise (KeyError "instances") /\
  events (_eval_predictions w self results predictions img_ids)
  = [LogInfo "Preparing results for COCO format ..."].
Proof.
  intros Hmiss. unfold _eval_predictions.
  rewrite (mapM_instances_missing _ Hmiss), bind_emit.
  split; reflexivity.
Qed.

Lemma eval_task_unknown (self : FlakeCOCOEvaluator)
    (coco_results : list coco_result) (img_ids : option (list Z))
    (results : results_table) (task : string) :
  known_task task = false ->
  eval_task w self coco_results img_ids results task
  = Traced (Raise (AssertionError ("Got unknown task: " +:+ task +:+ "!"))) [].
Proof. unfold eval_task. intros ->. reflexivity. Qed.

(** X17. A task name outside [bbox], [segm] and [keypoints] stops
    [_eval_predictions] at the assertion of the first pass: nothing is
    evaluated, but the results file, if an output directory is set, has
    been written by then. *)
Theorem eval_predictions_unknown_task (self : FlakeCOCOEvaluator)
    (results : results_table) (predictions : list prediction)
    (img_ids : option (list Z)) (task : string) (rest : list string) :
  _do_evaluation self = true ->
  have_instances predictions -> ids_unmappable self predictions ->
  py_sorted String.leb (tasks_of self (all_instances predictions))
  = task :: rest ->
  known_task task = false ->
  outcome (_eval_predictions w self results predictions img_ids)
  = Raise (AssertionError ("Got unknown task: " +:+ task +:+ "!")) /\
  events (_eval_predictions w self results predictions img_ids)
  = preparation_events self ++
    [LogInfo "Evaluating predictions with FlakeCOCO API..."].
Proof.
  intros Hdo Hinst Hids Hsorted Hknown.
  destruct (eval_predictions_unfold self results predictions img_ids
              Hdo Hinst Hids) as (rs & _ & H).
  specialize (H _ eq_refl). rewrite Hsorted in H.
  cbn [foldlM] in H. rewrite (eval_task_unknown _ _ _ _ _ Hknown) in H.
  exact H.
Qed.

Lemma eval_task_no_detections (self : FlakeCOCOEvaluator)
    (img_ids : option (list Z)) (results : results_table) (task : string) :
  task = "bbox" \/ task = "segm" ->
  exists metrics,
    metric_names task = Ok metrics /\
    eval_task w self [] img_ids results task
    = Traced (Ok (<[task := list_to_map
                              (map (fun metric => (metric, NaN)) metrics)]>
                    results))
             [LogWarning "No predictions from the model!"].
Proof.
  intros [->| ->]; eexists; split; reflexivity.
Qed.

Lemma no_detections_loop (self : FlakeCOCOEvaluator)
    (img_ids : option (list Z)) (tasks : list string) :
  forall results : results_table,
  Forall (fun task => task = "bbox" \/ task = "segm") tasks ->
  exists results',
    outcome (foldlM (eval_task w self [] img_ids) results tasks)
    = Ok results' /\
    Forall (fun e => ~ is_engine_call e)
      (events (foldlM (eval_task w self [] img_ids) results tasks)) /\
    (forall task, task ∈ tasks ->
       exists tbl metrics,
         results' !! task = Some tbl /\ metric_names task = Ok metrics /\
         forall name, In name metrics -> tbl !! name = Some NaN) /\
    (forall task, task ∉ tasks -> results' !! task = results !! task).
Proof.
  induction tasks as [|x l IH]; intros results Hall.
  - exists results. split; [reflexivity|]. split; [constructor|].
    split; [|reflexivity]. intros task Htask. inversion Htask.
  - inversion Hall as [|? ? Hx Hl]; subst.
    destruct (eval_task_no_detections self img_ids results x Hx)
      as (metrics & Hm & Hstep).
    destruct (IH (<[x := list_to_map
                            (map (fun metric => (metric, NaN)) metrics)]>
                    results) Hl)
      as (results' & Hout & Hev & Hin & Hnotin).
    exists results'. cbn [foldlM]. rewrite Hstep. unfold bind.
    destruct (foldlM _ _ l) as [r t]. cbn [outcome events app] in *.
    split; [exact Hout|]. split.
    { constructor; [simpl; tauto|exact Hev]. }
    split.
    + intros task Htask.
      destruct (decide (task ∈ l)) as [Hl'|Hl']; [apply Hin; exact Hl'|].
      apply elem_of_cons in Htask. destruct Htask as [->|Htask];
        [|contradiction].
      eexists _, metrics.
      split; [rewrite (Hnotin x Hl'); apply lookup_insert_eq|].
      split; [exact Hm|]. apply nan_table_lookup.
    + intros task Htask. apply not_elem_of_cons in Htask.
      destruct Htask as [Hne Hl']. rewrite (Hnotin _ Hl').
      apply lookup_insert_ne. congruence.
Qed.

(** X18. A run in which the model found nothing in any image, on a data set
    with annotations: the engine is not called; each of the tasks [bbox]
    and [segm] that is evaluated gets a table in which every metric is
    NaN, and the entries of the other tasks stay as they were. *)
Theorem eval_predictions_no_detections (self : FlakeCOCOEvaluator)
    (results : results_table) (predictions : list prediction)
    (img_ids : option (list Z)) :
  _do_evaluation self = true ->
  have_instances predictions -> ids_unmappable self predictions ->
  all_instances predictions = [] ->
  Forall (fun task => task = "bbox" \/ task = "segm") (tasks_of self []) ->
  exists results',
    outcome (_eval_predictions w self results predictions img_ids)
    = Ok results' /\
    emits_only (fun e => ~ is_engine_call e)
      (_eval_predictions w self results predictions img_ids) /\
    (forall task, task ∈ tasks_of self [] ->
       exists tbl metrics,
         results' !! task = Some tbl /\ metric_names task = Ok metrics /\
         forall name, In name metrics -> tbl !! name = Some NaN) /\
    (forall task, task ∉ tasks_of self [] ->
       results' !! task = results !! task).
Proof.
  intros Hdo Hinst Hids Hempty Htasks.
  destruct (eval_predictions_unfold self results predictions img_ids
              Hdo Hinst Hids) as (rs & Hlen & H).
  specialize (H _ eq_refl). rewrite Hempty in Hlen, H.
  destruct rs; [|discriminate]. destruct H as [Hout Hev].
  pose proof (py_sorted_perm String.leb (tasks_of self [])) as Hperm.
  destruct (no_detections_loop self img_ids
              (py_sorted String.leb (tasks_of self [])) results)
    as (results' & Hout' & Hev' & Hin & Hnotin).
  { rewrite Hperm. exact Htasks. }
  exists results'. split; [rewrite Hout; exact Hout'|]. split.
  { unfold emits_only. rewrite Hev. apply Forall_app. split.
    - unfold preparation_events.
      destruct (truthy (_output_dir self)); repeat constructor; simpl; tauto.
    - constructor; [simpl; tauto|exact Hev']. }
  split.
  - intros task Htask. apply Hin. rewrite Hperm. exact Htask.
  - intros task Htask. apply Hnotin. rewrite Hperm. exact Htask.
Qed.

End EvalTasks.

(** ** What [evaluate] leaves behind *)

Section EvaluateEffects.
Import Params COCOeval Trace Evaluator Further.
Context {COCO RLE Proposals Mask : Type}.
Variable w : @world COCO RLE Proposals Mask.

Lemma emits_only_foldlM {E A B} (P : E -> Prop) (f : A -> B -> traced E A)
    (l : list B) :
  (forall a b, emits_only P (f a b)) ->
  forall a, emits_only P (foldlM f a l).
Proof.
  intros Hf. induction l as [|x l IH]; intros a; cbn [foldlM].
  - constructor.
  - apply (emits_only_bind P (f a x) (fun a' => foldlM f a' l));
      [apply Hf|exact IH].
Qed.

Lemma emits_only_fmap {E A B} (P : E -> Prop) (f : A -> B) (m : traced E A) :
  emits_only P m -> emits_only P (f <$> m).
Proof. unfold emits_only. rewrite events_fmap. auto. Qed.

Lemma events_assert {E} (c : bool) (msg : string) :
  events (@assert E c msg) = [].
Proof. destruct c; reflexivity. Qed.

Ltac emits :=
  repeat first
    [ match goal with
      | |- emits_only _ (unmap_category_ids _ _) =>
          apply emits_only_silent; apply events_unmap_category_ids
      end
    | apply emits_only_bind; [|intros ?]
    | apply emits_only_emit; simpl; tauto
    | apply emits_only_silent; first [reflexivity | apply events_assert]
    | apply emits_only_fmap
    | apply emits_only_foldlM; intros ? ?
    | match goal with
      | |- emits_only _ (if ?c then _ else _) => destruct c
      | |- emits_only _ (match ?x with _ => _ end) => destruct x
      end ].

Lemma derive_emits (P : event -> Prop)
    (coco_eval : option (@FlakeCOCOeval COCO)) (iou_type : string)
    (class_names : option (list string)) :
  (forall e, ~ is_file_output e -> ~ is_metric_call e -> P e) ->
  emits_only P (_derive_coco_results coco_eval iou_type class_names).
Proof.
  intros HP. unfold _derive_coco_results.
  assert (Hlog : forall e, match e with
                           | LogInfo _ | LogWarning _ | LogResults _ _ => True
                           | _ => False
                           end -> P e).
  { intros []; simpl; try tauto; intros _; apply HP; simpl; tauto. }
  repeat first
    [ apply emits_only_bind; [|intros ?]
    | apply emits_only_emit; apply Hlog; exact I
    | apply emits_only_silent; reflexivity
    | match goal with
      | |- emits_only _ (if ?c then _ else _) => destruct c
      | |- emits_only _ (match ?x with _ => _ end) => destruct x
      end ].
Qed.

(** X19. Without an output directory (none given, or the empty string)
    [evaluate()] touches no file: it creates no directory and writes
    neither the predictions, nor the proposals, nor the COCO results,
    whatever the predictions and whatever the engine does. *)
Theorem evaluate_without_output_dir (self : FlakeCOCOEvaluator)
    (img_ids : option (list Z)) :
  truthy (_output_dir self) = false ->
  emits_only (fun e => ~ is_file_output e) (evaluate w self img_ids).
Proof.
  intros Hdir.
  unfold evaluate, evaluate_gathered, _eval_predictions, _eval_box_proposals.
  rewrite !Hdir.
  repeat first
    [ apply derive_emits; tauto
    | progress emits
    | match goal with
      | |- emits_only _ (let '(_, _) := ?x in _) => destruct x
      end ].
  all: unfold _evaluate_predictions_on_coco; emits.
Qed.

(** X20. On a data set without annotations [evaluate()] computes no metric:
    neither the COCO engine nor the proposal recall is called, whatever
    the predictions hold. *)
Theorem evaluate_without_annotations (self : FlakeCOCOEvaluator)
    (img_ids : option (list Z)) :
  _do_evaluation self = false ->
  emits_only (fun e => ~ is_metric_call e) (evaluate w self img_ids).
Proof.
  intros Hdo.
  unfold evaluate, evaluate_gathered, _eval_predictions, _eval_box_proposals.
  rewrite !Hdo. cbv [negb]. emits.
Qed.

End EvaluateEffects.

(** ** [_eval_box_proposals] *)

Section ProposalFacts.
Import Params COCOeval Trace Evaluator Further.
Context {COCO RLE Proposals Mask : Type}.
Variable w : @world COCO RLE Proposals Mask.

(** X21. On a data set with annotations, when every recall computation
    returns: the entry [box_proposals] is a table of exactly eight keys,
    [AR], [ARs], [ARm], [ARl] at the limits 100 and 1000, each holding the
    recall of its area and limit; the recalls are computed limit by
    limit, and the other entries of the results stay as they were. With
    an output directory every prediction must carry proposals. *)
Theorem eval_box_proposals_table (self : FlakeCOCOEvaluator)
    (results : results_table) (predictions : list prediction)
    (ar : string -> Z -> pyfloat) :
  _do_evaluation self = true ->
  (truthy (_output_dir self) = true ->
   Forall (fun p => is_Some (p_proposals p)) predictions) ->
  (forall area limit,
     proposal_recall w predictions (_coco_api self) area limit
     = Ok (ar area limit)) ->
  exists res,
    outcome (_eval_box_proposals w self results predictions)
    = Ok (<["box_proposals" := res]> results) /\
    size res = 8%nat /\
    Forall (fun '(key, (area, limit)) => res !! key = Some (ar area limit))
      proposal_keys /\
    events (_eval_box_proposals w self results predictions)
    = (if truthy (_output_dir self)
       then [WriteFile (path_join (default "" (_output_dir self))
                                  "box_proposals.pkl")]
       else []) ++
      [LogInfo "Evaluating bbox proposals ..."] ++
      map (fun '(_, (area, limit)) => ProposalRecall area limit)
        proposal_keys ++
      [LogProposals res].
Proof.
  intros Hdo Hprop Hrec. unfold _eval_box_proposals. rewrite Hdo. cbv [negb].
  match goal with
  | |- context [foldlM ?f ?a ?l] => set (body := f); set (l' := l)
  end.
  vm_compute in l'. subst l'.
  match goal with
  | |- context [foldlM body ∅ ?l] =>
      assert (Hloop : exists res,
                foldlM body ∅ l
                = Traced (Ok res)
                    (map (fun '(_, (area, limit)) => ProposalRecall area limit)
                       proposal_keys) /\
                size res = 8%nat /\
                Forall (fun '(key, (area, limit)) =>
                          res !! key = Some (ar area limit)) proposal_keys)
  end.
  { subst body. cbn [foldlM]. rewrite !Hrec. eexists.
    split; [reflexivity|]. split; [vm_compute; reflexivity|].
    repeat (apply List.Forall_cons; [vm_compute; reflexivity|]).
    apply List.Forall_nil. }
  destruct Hloop as (res & Hloop & Hsize & Hkeys). exists res.
  rewrite Hloop.
  destruct (truthy (_output_dir self)) eqn:Hdir.
  - destruct (mapM_pyresult_ok
                (fun x : prediction =>
                   match p_proposals x with
                   | Some p => Ok p
                   | None => Raise (KeyError "proposals")
                   end)
                (fun _ _ => True) predictions) as (ps & Hps & _).
    { eapply Forall_impl; [apply Hprop; reflexivity|].
      intros p [x Hx]. exists x. rewrite Hx. auto. }
    rewrite Hps. repeat split; auto.
  - repeat split; auto.
Qed.

End ProposalFacts.

(** ** [_derive_coco_results]: which statistic a name reports *)

Section DeriveMore.
Import Params COCOeval Trace Evaluator Further.
Context {COCO : Type}.

Lemma metric_names_inv (iou_type : string) (metrics : list string) :
  metric_names iou_type = Ok metrics ->
  iou_type = "segm" \/ iou_type = "bbox".
Proof.
  unfold metric_names.
  destruct (String.eqb iou_type "bbox") eqn:Hb.
  - intros _. right. apply String.eqb_eq. exact Hb.
  - destruct (String.eqb iou_type "segm") eqn:Hs; [|discriminate].
    intros _. left. apply String.eqb_eq. exact Hs.
Qed.

Lemma class_entries_keys (names : list string) (p : FlakeParams)
    (e : eval_arrays) (kvs : list (string * pyfloat)) :
  class_entries names p e = Ok kvs ->
  Forall (fun kv => has_underscore kv.1 = true) kvs.
Proof.
  intros H. apply mapM_pyresult_inv in H.
  apply List.Forall_forall. intros kv Hin.
  destruct (Forall2_In_r _ _ _ _ H Hin)
    as ([[[[[mode a] l] thr] ci] cname] & _ & Hentry).
  unfold class_entry in Hentry.
  destruct (class_slice _ _ _ _ _ _); [|discriminate].
  inversion Hentry. apply has_underscore_app.
Qed.

(** X22. The names of the standard metrics follow the order of the calls of
    [_summarizeDets], for [bbox] as for [segm]: in a table that
    [_derive_coco_results] returns after [summarize()], the name at
    position [idx] holds the rounded percentage of the value the call at
    position [idx] computes, whatever per-category entries are added. For
    [bbox] the six names [AP], [AP50], [AP75], [APs], [APm], [APl] so
    report the first six calls. *)
Theorem standard_metrics_follow_stat_calls (ce ce' : @FlakeCOCOeval COCO)
    (e : eval_arrays) (iou_type : string)
    (class_names : option (list string)) (results : gmap string pyfloat) :
  eval ce = Some e -> summarize ce = Ok ce' ->
  outcome (_derive_coco_results (Some ce') iou_type class_names)
  = Ok results ->
  exists metrics top,
    metric_names iou_type = Ok metrics /\
    maxDets (params ce) !! 2%nat = Some top /\
    forall idx name ap thr area,
      metrics !! idx = Some name ->
      stat_calls !! idx = Some (ap, thr, area) ->
      exists v, _summarize (params ce) e ap thr area top = Ok v /\
                results !! name = Some (standard_metric v).
Proof.
  intros He Hsum Hout. unfold summarize in Hsum. rewrite He in Hsum.
  destruct (_ || _)%bool; [|discriminate].
  destruct (_summarizeDets (params ce) e) as [s|] eqn:Hs; [|discriminate].
  cbn in Hsum. inversion Hsum. subst ce'. clear Hsum.
  apply mapM_pyresult_inv in Hs.
  destruct (metric_names iou_type) as [metrics|] eqn:Hm;
    [|unfold _derive_coco_results in Hout; rewrite Hm in Hout; discriminate].
  destruct (metric_names_facts iou_type (metric_names_inv _ _ Hm))
    as (metrics' & Hm' & Hnd & Hlen & Hus).
  rewrite Hm in Hm'. inversion Hm'. subst metrics'. clear Hm'.
  assert (Htop : exists top, maxDets (params ce) !! 2%nat = Some top).
  { inversion Hs as [|c v l k Hc _]. destruct c as [[ap thr] area].
    cbn in Hc. unfold py_index in Hc.
    destruct (maxDets (params ce) !! 2%nat) as [top|]; [|discriminate].
    exists top. reflexivity. }
  destruct Htop as [top Htop]. exists metrics, top.
  split; [reflexivity|]. split; [exact Htop|].
  assert (Hlen' : (length metrics <= length s)%nat).
  { apply Forall2_length in Hs. rewrite <- Hs. exact Hlen. }
  rewrite (derive_outcome (set_stats ce s) e iou_type class_names metrics
             He Hm Hlen') in Hout.
  cbv zeta in Hout.
  cbn [COCOeval.stats COCOeval.params COCOeval.set_stats] in Hout.
  set (results0 := update_all ∅ (combine metrics
         (map standard_metric (take (length metrics) s)))) in *.
  intros idx name ap thr area Hname Hcall.
  destruct (Forall2_lookup_l _ _ _ _ _ Hs Hcall) as (v & Hv & Hcomp).
  cbn in Hcomp. rewrite (py_index_lookup _ _ _ Htop) in Hcomp.
  cbn in Hcomp. exists v. split; [exact Hcomp|].
  assert (Hidx : (idx < length metrics)%nat)
    by (eapply lookup_lt_Some, Hname).
  assert (H0 : results0 !! name = Some (standard_metric v)).
  { subst results0. apply update_all_written.
    - eapply combine_lookup_In; [exact Hname|].
      rewrite list_lookup_fmap, lookup_take_lt, Hv by exact Hidx. reflexivity.
    - intros v' Hin. eapply combine_NoDup_functional; [exact Hnd|exact Hin|].
      eapply combine_lookup_In; [exact Hname|].
      rewrite list_lookup_fmap, lookup_take_lt, Hv by exact Hidx. reflexivity. }
  assert (Hno : has_underscore name = false).
  { rewrite List.Forall_forall in Hus. apply Hus. apply list_elem_of_In.
    eapply list_elem_of_lookup_2, Hname. }
  destruct class_names as [[|n1 [|n2 names]]|].
  1, 2, 4: inversion Hout; subst results; exact H0.
  destruct (class_entries (n1 :: n2 :: names) (params ce) e) as [kvs|] eqn:Hk;
    [|discriminate].
  cbn in Hout. inversion Hout. subst results.
  rewrite update_all_other; [exact H0|].
  intros v' Hin. apply class_entries_keys in Hk.
  rewrite List.Forall_forall in Hk. specialize (Hk _ Hin). cbn in Hk.
  congruence.
Qed.

End DeriveMore.

(** ** [_evaluate_predictions_on_coco]: the order of the engine calls *)

Section EngineProtocol.
Import Params COCOeval Trace Evaluator Further.
Context {COCO RLE Proposals Mask : Type}.
Variable w : @world COCO RLE Proposals Mask.

(** X23. The engine is driven in one fixed order, each step at most once:
    whatever happens, the calls made are an initial part of [loadRes],
    [evaluate], [accumulate], [summarize]; all four have been made when
    the function returns; and on an empty list of detections the
    assertion fails before any of them. *)
Theorem engine_calls_in_order (coco_gt : COCO)
    (coco_results : list (@coco_result RLE)) (iou_type : string)
    (kpt_oks_sigmas : list Q) (img_ids : option (list Z))
    (max_dets_per_image : option (list Z)) :
  let run := _evaluate_predictions_on_coco w coco_gt coco_results iou_type
               kpt_oks_sigmas img_ids max_dets_per_image in
  events run `prefix_of` engine_calls iou_type /\
  (forall ce, outcome run = Ok ce -> events run = engine_calls iou_type) /\
  (coco_results = [] ->
   outcome run = Raise (AssertionError "") /\ events run = []).
Proof.
  cbv zeta. unfold _evaluate_predictions_on_coco, engine_calls.
  destruct coco_results as [|r0 rs].
  { cbn. split; [eexists; reflexivity|]. split; [discriminate|auto]. }
  cbn [length Nat.ltb Nat.leb assert].
  set (rs' := if String.eqb iou_type "segm" then _ else _). clearbody rs'.
  repeat (cbn -[summarize COCOeval.init py_index];
          match goal with
          | |- context [match ?x with _ => _ end] =>
              lazymatch type of x with
              | traced _ _ => fail
              | _ => destruct x
              end
          end).
  all: cbn -[summarize COCOeval.init py_index].
  all: split; [eexists; reflexivity|split; [|discriminate]].
  all: intros ce; try discriminate; reflexivity.
Qed.

End EngineProtocol.

(** ** The further properties on the sample inputs *)

Import MoreSamples.


Lemma init_needs_output_dir_witness :
  Trace.outcome
    (Evaluator.init bare_world "flakes" (Evaluator.TasksTuple ["segm"])
       false None None [])
  = Raise ValueError /\
  Trace.emits_only (fun e => ~ Further.is_file_output e)
    (Evaluator.init bare_world "flakes" (Evaluator.TasksTuple ["segm"])
       false None None []).
Proof.
  apply (init_needs_output_dir bare_world "flakes"
           (Evaluator.TasksTuple ["segm"]) false None []).
  reflexivity.
Defined.

Lemma evaluate_on_dataset_within_budget_witness :
  Trace.outcome
    (Evaluator.evaluate_on_dataset (sample_world true true) sample_clock
       (sample_loader sample_batches) sample_model "flakes" None)
  = match Trace.outcome
            (Evaluator.evaluate (sample_world true true)
               (Further.process_all (sample_world true true) sample_model
                  (sample_loader sample_batches "flakes")
                  (Evaluator.reset (sample_evaluator false true None [])))
               None) with
    | Ok results => Ok (Some results)
    | Raise e => Raise e
    end /\
  Trace.events
    (Evaluator.evaluate_on_dataset (sample_world true true) sample_clock
       (sample_loader sample_batches) sample_model "flakes" None)
  = Trace.events
      (Evaluator.init (sample_world true true) "flakes"
         (Evaluator.TasksTuple ["segm"]) false None None []) ++
    Trace.events
      (Evaluator.evaluate (sample_world true true)
         (Further.process_all (sample_world true true) sample_model
            (sample_loader sample_batches "flakes")
            (Evaluator.reset (sample_evaluator false true None [])))
         None).
Proof.
  apply (evaluate_on_dataset_within_budget (sample_world true true)
           sample_clock (sample_loader sample_batches) sample_model
           "flakes" None (sample_evaluator false true None [])).
  - reflexivity.
  - intros k. unfold Evaluator.over_budget.
    destruct (Evaluator.projected_eta _ _ _ _ _ _ _ _); reflexivity.
Defined.

Lemma sample_arrays_in_range : Further.cells_in_range sample_arrays.
Proof.
  split; intros; simpl; destruct (_ || _)%bool;
    (left; reflexivity) || (right; split; discriminate).
Qed.

Lemma summarize_stats_in_range_witness :
  length (COCOeval.stats sample_summary) = 30%nat /\
  Forall (fun s => s = (-1)%Q \/ (0 <= s <= 1)%Q)
    (COCOeval.stats sample_summary) /\
  Forall (fun v => v = NaN \/ exists q, v = Fin q /\ (0 <= q <= 100)%Q)
    (map Evaluator.standard_metric (COCOeval.stats sample_summary)) /\
  COCOeval.params sample_summary = COCOeval.params sample_coco_eval /\
  COCOeval.eval sample_summary = COCOeval.eval sample_coco_eval.
Proof.
  apply (summarize_stats_in_range sample_coco_eval sample_summary
           sample_arrays).
  - reflexivity.
  - exact sample_arrays_in_range.
  - vm_compute. reflexivity.
Defined.

Lemma coco_eval_init_sorted_ids_witness :
  ("segm" = "segm" \/ "segm" = "bbox") /\
  Sorted Z.le (Params.imgIds (COCOeval.params fresh_coco_eval)) /\
  Params.imgIds (COCOeval.params fresh_coco_eval) ≡ₚ [2; 1] /\
  Sorted Z.le (Params.catIds (COCOeval.params fresh_coco_eval)) /\
  Params.catIds (COCOeval.params fresh_coco_eval) ≡ₚ [1; 2] /\
  Params.iouType (COCOeval.params fresh_coco_eval) = "segm" /\
  Params.maxDets (COCOeval.params fresh_coco_eval) = [1; 10; 100] /\
  COCOeval.cocoGt fresh_coco_eval = Some tt /\
  COCOeval.cocoDt fresh_coco_eval = Some tt /\
  COCOeval.eval fresh_coco_eval = None /\
  COCOeval.stats fresh_coco_eval = [].
Proof.
  apply (coco_eval_init_sorted_ids (fun _ : unit => [2; 1])
           (fun _ : unit => [1; 2]) tt (Some tt) "segm" fresh_coco_eval).
  reflexivity.
Defined.

Lemma unmap_category_ids_round_trip_witness :
  Trace.events
    (Evaluator.unmap_category_ids [(1, 0); (2, 1)]
       [sample_result 1 0; sample_result 1 1]) = [] /\
  Forall2 (fun r r' =>
             r' = Evaluator.set_category_id r (Evaluator.category_id r') /\
             In (Evaluator.category_id r', Evaluator.category_id r)
                [(1, 0); (2, 1)] /\
             Evaluator.category_id r < Z.of_nat (length [(1, 0); (2, 1)]))
          [sample_result 1 0; sample_result 1 1]
          [sample_result 1 1; sample_result 1 2].
Proof.
  apply (unmap_category_ids_round_trip [(1, 0); (2, 1)]
           [sample_result 1 0; sample_result 1 1]
           [sample_result 1 1; sample_result 1 2]).
  reflexivity.
Defined.

Lemma eval_predictions_unknown_task_witness :
  Trace.outcome
    (Evaluator._eval_predictions (sample_world true true)
       (evaluator_with_tasks ["segm"; "mask"] sample_predictions)
       ∅ sample_predictions None)
  = Raise (AssertionError ("Got unknown task: " +:+ "mask" +:+ "!")) /\
  Trace.events
    (Evaluator._eval_predictions (sample_world true true)
       (evaluator_with_tasks ["segm"; "mask"] sample_predictions)
       ∅ sample_predictions None)
  = Further.preparation_events
      (evaluator_with_tasks ["segm"; "mask"] sample_predictions) ++
    [Evaluator.LogInfo "Evaluating predictions with FlakeCOCO API..."].
Proof.
  apply (eval_predictions_unknown_task (sample_world true true)
           (evaluator_with_tasks ["segm"; "mask"] sample_predictions)
           ∅ sample_predictions None "mask" ["segm"]).
  - reflexivity.
  - repeat constructor; eexists; reflexivity.
  - repeat split; repeat constructor; simpl; try lia; eauto.
  - vm_compute. reflexivity.
  - vm_compute. reflexivity.
Defined.

Lemma eval_predictions_no_detections_witness :
  exists results',
    Trace.outcome
      (Evaluator._eval_predictions (sample_world true true)
         (evaluator_with_tasks ["segm"] empty_predictions)
         ∅ empty_predictions None)
    = Ok results' /\
    Trace.emits_only (fun e => ~ Evaluator.is_engine_call e)
      (Evaluator._eval_predictions (sample_world true true)
         (evaluator_with_tasks ["segm"] empty_predictions)
         ∅ empty_predictions None) /\
    (forall task,
       task ∈ Further.tasks_of
                (evaluator_with_tasks ["segm"] empty_predictions) [] ->
       exists tbl metrics,
         results' !! task = Some tbl /\
         Evaluator.metric_names task = Ok metrics /\
         forall name, In name metrics -> tbl !! name = Some NaN) /\
    (forall task,
       task ∉ Further.tasks_of
                (evaluator_with_tasks ["segm"] empty_predictions) [] ->
       results' !! task = (∅ : Evaluator.results_table) !! task).
Proof.
  apply (eval_predictions_no_detections (sample_world true true)
           (evaluator_with_tasks ["segm"] empty_predictions)
           ∅ empty_predictions None).
  - reflexivity.
  - repeat constructor; eexists; reflexivity.
  - repeat split; repeat constructor; simpl; try lia; eauto.
  - reflexivity.
  - apply List.Forall_cons; [right; reflexivity|apply List.Forall_nil].
Defined.

Lemma evaluate_without_output_dir_witness :
  Trace.emits_only (fun e => ~ Further.is_file_output e)
    (Evaluator.evaluate (sample_world true true)
       (sample_evaluator false true None sample_predictions) None).
Proof.
  apply (evaluate_without_output_dir (sample_world true true)
           (sample_evaluator false true None sample_predictions) None).
  reflexivity.
Defined.

Lemma evaluate_without_annotations_witness :
  Trace.emits_only (fun e => ~ Further.is_metric_call e)
    (Evaluator.evaluate (sample_world true false)
       (sample_evaluator false false (Some "out") sample_predictions) None).
Proof.
  apply (evaluate_without_annotations (sample_world true false)
           (sample_evaluator false false (Some "out") sample_predictions)
           None).
  reflexivity.
Defined.

Lemma eval_box_proposals_table_witness :
  exists res,
    Trace.outcome
      (Evaluator._eval_box_proposals (sample_world true true)
         (sample_evaluator false true (Some "out") proposal_predictions)
         ∅ proposal_predictions)
    = Ok (<["box_proposals" := res]> ∅) /\
    size res = 8%nat /\
    Forall (fun '(key, (area, limit)) => res !! key = Some NaN)
      Further.proposal_keys /\
    Trace.events
      (Evaluator._eval_box_proposals (sample_world true true)
         (sample_evaluator false true (Some "out") proposal_predictions)
         ∅ proposal_predictions)
    = (if Evaluator.truthy
            (Evaluator._output_dir
               (sample_evaluator false true (Some "out")
                  proposal_predictions))
       then [Evaluator.WriteFile
               (Evaluator.path_join
                  (default ""
                     (Evaluator._output_dir
                        (sample_evaluator false true (Some "out")
                           proposal_predictions)))
                  "box_proposals.pkl")]
       else []) ++
      [Evaluator.LogInfo "Evaluating bbox proposals ..."] ++
      map (fun '(_, (area, limit)) => Evaluator.ProposalRecall area limit)
        Further.proposal_keys ++
      [Evaluator.LogProposals res].
Proof.
  apply (eval_box_proposals_table (sample_world true true)
           (sample_evaluator false true (Some "out") proposal_predictions)
           ∅ proposal_predictions (fun _ _ => NaN)).
  - reflexivity.
  - intros _. repeat constructor; eexists; reflexivity.
  - intros area limit. reflexivity.
Defined.

Lemma standard_metrics_follow_stat_calls_witness :
  exists metrics top,
    Evaluator.metric_names "segm" = Ok metrics /\
    Params.maxDets (COCOeval.params sample_coco_eval) !! 2%nat = Some top /\
    forall idx name ap thr area,
      metrics !! idx = Some name ->
      COCOeval.stat_calls !! idx = Some (ap, thr, area) ->
      exists v,
        COCOeval._summarize (COCOeval.params sample_coco_eval) sample_arrays
          ap thr area top = Ok v /\
        sample_table !! name = Some (Evaluator.standard_metric v).
Proof.
  apply (standard_metrics_follow_stat_calls sample_coco_eval sample_summary
           sample_arrays "segm" sample_class_names sample_table).
  - reflexivity.
  - vm_compute. reflexivity.
  - vm_compute. reflexivity.
Defined.

Lemma eval_predictions_missing_instances_witness :
  Trace.outcome
    (Evaluator._eval_predictions (sample_world true true)
       (sample_evaluator false true (Some "out")
          (sample_predictions ++ proposal_predictions))
       ∅ (sample_predictions ++ proposal_predictions) None)
  = Raise (KeyError "instances") /\
  Trace.events
    (Evaluator._eval_predictions (sample_world true true)
       (sample_evaluator false true (Some "out")
          (sample_predictions ++ proposal_predictions))
       ∅ (sample_predictions ++ proposal_predictions) None)
  = [Evaluator.LogInfo "Preparing results for COCO format ..."].
Proof.
  apply (eval_predictions_missing_instances (sample_world true true)
           (sample_evaluator false true (Some "out")
              (sample_predictions ++ proposal_predictions))
           ∅ (sample_predictions ++ proposal_predictions) None).
  apply Exists_app. right. apply Exists_cons_hd. reflexivity.
Defined.
